(** * Stale-branch scanner: a shallow embedding of [scan_unmerged_branches.py]

    The development follows the Python module function by function.

    - [Py] holds the fragment of the Python built-ins the scanner relies on:
      [str] methods, [string.whitespace], insertion-ordered [dict]s and
      [sorted].
    - [PosixPath] holds [os.path.basename].
    - [Scanner] embeds the methods of [ScanUnmergedBranches] in a monad of
      state and exceptions over an explicit [world] (the readings of the
      clock, the commands run so far, the lines printed), with a [platform]
      record standing for the library routines of which the repository holds
      only the calls ([datetime.strptime], the wall clock, [os.path.abspath],
      [subprocess.Popen]).
    - [Reference] is one such platform, to run the scanner on.
    - [Spec] words the behaviour the specification describes, and [Inputs]
      holds the data of the examples.
    - The lemmas and theorems come last, grouped by component: staleness
      filter, identifiers, branch discovery, pivots, report writing, sorting
      and the pipeline digest. *)

From Stdlib Require Import List String Ascii ZArith Lia Bool Arith.
From Stdlib Require Import Sorting.Permutation Sorting.Sorted.
From Stdlib Require Import DecimalString.
From Stdlib Require Import Structures.OrdersEx.
Import ListNotations.

Local Open Scope string_scope.
Local Open Scope list_scope.

Set Implicit Arguments.

(* ================================================================== *)
(** * Python built-ins *)
(* ================================================================== *)

Module Py.

(** A [str] is modelled as a [string]; each [ascii] is one code point below
    256, so comparison by character code is Python's comparison. *)

(** [string.whitespace], that is [' \t\n\r\x0b\x0c']. *)
Definition whitespace : list ascii :=
  [ascii_of_nat 32; ascii_of_nat 9; ascii_of_nat 10;
   ascii_of_nat 13; ascii_of_nat 11; ascii_of_nat 12].

(** [c in string.whitespace] *)
Definition in_whitespace (c : ascii) : bool :=
  existsb (Ascii.eqb c) whitespace.

(** [any(c in string.whitespace for c in text)] *)
Fixpoint any_whitespace (text : string) : bool :=
  match text with
  | EmptyString => false
  | String c rest => in_whitespace c || any_whitespace rest
  end.

(** [c.isspace()] for a code point below 256: the characters [str.strip()]
    removes.  It is a superset of [string.whitespace]. *)
Definition isspace (c : ascii) : bool :=
  let n := nat_of_ascii c in
  (((9 <=? n) && (n <=? 13)) || ((28 <=? n) && (n <=? 32))
   || (n =? 133) || (n =? 160))%nat.

Fixpoint lstrip (s : string) : string :=
  match s with
  | EmptyString => EmptyString
  | String c rest => if isspace c then lstrip rest else s
  end.

Fixpoint rstrip (s : string) : string :=
  match s with
  | EmptyString => EmptyString
  | String c rest =>
      match rstrip rest with
      | EmptyString => if isspace c then EmptyString else String c EmptyString
      | r => String c r
      end
  end.

(** [s.strip()] *)
Definition strip (s : string) : string := rstrip (lstrip s).

(** [s.startswith(p)] *)
Definition startswith (s p : string) : bool := String.prefix p s.

(** [s.split(sep)] for a one-character separator; never the empty list. *)
Fixpoint split (sep : ascii) (s : string) : list string :=
  match s with
  | EmptyString => [EmptyString]
  | String c rest =>
      if Ascii.eqb c sep then EmptyString :: split sep rest
      else match split sep rest with
           | [] => [String c EmptyString]
           | field :: fields => String c field :: fields
           end
  end.

(** [sep.join(lines)] *)
Definition join (sep : string) (lines : list string) : string :=
  String.concat sep lines.

(** [str(n)] for an [int]. *)
Definition str_of_int (n : Z) : string :=
  NilZero.string_of_int (Z.to_int n).

(** ** Insertion-ordered dictionaries

    A [dict] keeps its keys in first-insertion order; assigning to a key
    that is present replaces the value where it stands. *)

Abbreviation dict V := (list (string * V)).

Section Dict.
Context {V : Type}.

Definition keys (d : dict V) : list string := map fst d.

(** [d.get(k)] *)
Fixpoint get (k : string) (d : dict V) : option V :=
  match d with
  | [] => None
  | (k', v) :: rest => if String.eqb k' k then Some v else get k rest
  end.

(** [d[k] = v] *)
Fixpoint set (k : string) (v : V) (d : dict V) : dict V :=
  match d with
  | [] => [(k, v)]
  | (k', v') :: rest =>
      if String.eqb k' k then (k', v) :: rest
      else (k', v') :: set k v rest
  end.

(** [d.setdefault(k, v0)]: the dictionary afterwards and the value
    returned. *)
Definition setdefault (k : string) (v0 : V) (d : dict V) : dict V * V :=
  match get k d with
  | Some v => (d, v)
  | None => (set k v0 d, v0)
  end.

(** A list of pairs is a dictionary when no key occurs twice. *)
Definition wf (d : dict V) : Prop := NoDup (keys d).

End Dict.

(** ** [sorted(xs, key=...)]: a stable sort, here by insertion. *)

Section Sorted.
Context {A : Type} (le : A -> A -> bool).

Fixpoint insert (x : A) (l : list A) : list A :=
  match l with
  | [] => [x]
  | y :: rest => if le x y then x :: l else y :: insert x rest
  end.

Definition sorted (l : list A) : list A := fold_right insert [] l.

End Sorted.

End Py.

Module PosixPath.

(** [p.rfind('/') + 1] *)
Fixpoint after_last_slash (p : string) : option string :=
  match p with
  | EmptyString => None
  | String c rest =>
      match after_last_slash rest with
      | Some tail => Some tail
      | None => if Ascii.eqb c "/" then Some rest else None
      end
  end.

(** [os.path.basename(p)]: what follows the last slash, [p] itself when it
    has none. *)
Definition basename (p : string) : string :=
  match after_last_slash p with
  | Some tail => tail
  | None => p
  end.

End PosixPath.



(* ================================================================== *)
(** * The scanner *)
(* ================================================================== *)

Module Scanner.

(** ** Exceptions, results and the world *)

(** The exceptions met in the scanner.  Each of them is an [Exception], so
    an [except Exception] clause catches them all. *)
Inductive exn : Type :=
| AssertionError (msg : string)
| ValueError (msg : string)
| TypeError (msg : string)
| TimeoutExpired (msg : string)
| OSError (msg : string).

(** [str(exc)] *)
Definition exn_str (e : exn) : string :=
  match e with
  | AssertionError msg | ValueError msg | TypeError msg
  | TimeoutExpired msg | OSError msg => msg
  end.

Inductive result (A : Type) : Type :=
| Ok (a : A)
| Raise (e : exn).

Arguments Ok {A} a.
Arguments Raise {A} e.

(** [ExecRes = namedtuple('ExecRes', 'rc stdout stderr')] *)
Record ExecRes : Type := { rc : Z; stdout : list string; stderr : list string }.

(** What a run can observe and change outside its own variables: how often
    the clock has been read, which commands were handed to the shell (with
    their working directory), and which lines were printed. *)
Record world : Type :=
  { ticks : nat;
    executed : list (string * string);
    printed : list string }.

Definition M (A : Type) : Type := world -> result A * world.

Definition ret {A} (a : A) : M A := fun w => (Ok a, w).

Definition raise {A} (e : exn) : M A := fun w => (Raise e, w).

Definition bind {A B} (m : M A) (k : A -> M B) : M B :=
  fun w =>
    match m w with
    | (Ok a, w') => k a w'
    | (Raise e, w') => (Raise e, w')
    end.

Declare Scope scan_scope.
Delimit Scope scan_scope with scan.

Notation "x <- c1 ;; c2" := (bind c1 (fun x => c2))
  (at level 61, c1 at next level, right associativity) : scan_scope.
Notation "c1 ;;; c2" := (bind c1 (fun _ => c2))
  (at level 61, right associativity) : scan_scope.

Local Open Scope scan_scope.

(** [try: body  except Exception as exc: handler(exc)  else: orelse] *)
Definition try_except_else {A B}
    (body : M A) (handler : exn -> M B) (orelse : M B) : M B :=
  fun w =>
    match body w with
    | (Ok _, w') => orelse w'
    | (Raise e, w') => handler e w'
    end.

(** [print(line)] *)
Definition print (line : string) : M unit :=
  fun w => (Ok tt, {| ticks := ticks w;
                      executed := executed w;
                      printed := printed w ++ [line] |}).

(** ** Time

    An aware [datetime] is the instant it denotes, in microseconds since the
    epoch: subtraction, comparison and [max] of aware datetimes look at
    nothing else.  A [timedelta] is a number of microseconds. *)

Definition datetime : Type := Z.
Definition timedelta : Type := Z.

Definition microseconds_per_day : Z := 86400000000.

(** [td.days]: a [timedelta] is normalised with [0 <= seconds < 86400], so
    [days] is the floor of the quotient. *)
Definition days (td : timedelta) : Z := td / microseconds_per_day.

(** ** The platform

    Library routines of which the repository holds only the calls.
    - [strptime data format] is [datetime.datetime.strptime]: the instant
      parsed, or the message of the [ValueError] raised.
    - [now_at k] is what the [k]-th call (counting from 0) of
      [datetime.datetime.now().astimezone()] returns.
    - [abspath] is [os.path.abspath] in the process's working directory.
    - [popen history cmd cwd] is the outcome of [Popen(cmd, shell=True,
      cwd=cwd, ...)] followed by [communicate(timeout=...)] once the commands
      of [history] have run: the captured result, or the exception raised. *)
Record platform : Type :=
  { strptime : string -> string -> datetime + string;
    now_at : nat -> datetime;
    abspath : string -> string;
    popen : list (string * string) -> string -> string -> result ExecRes }.

(** ** Data *)

(** [COMMIT_DETAILS = namedtuple('COMMIT_DETAILS', ['hash', 'date', 'author', 'subject'])] *)
Record COMMIT_DETAILS : Type :=
  { hash : string; date : string; author : string; subject : string }.

(** A commit dictionary once its ['author'] has been popped:
    [{'hash': ..., 'date': ..., 'subject': ...}]. *)
Record commit_dict : Type :=
  { d_hash : string; d_date : string; d_subject : string }.

(** [{author: [commit_dict, ...]}] *)
Abbreviation commits_by_author := (Py.dict (list commit_dict)).

(** [{branch: {author: [commit_dict, ...]}}] *)
Abbreviation report_by_branch := (Py.dict commits_by_author).

(** An element of [results_by_branch]:
    [{'branch': ..., 'repo_dir': ..., 'report': ..., 'kwargs': ...}].  The
    ['kwargs'] entry is read by none of the functions below and is left
    out. *)
Record scan_result : Type :=
  { branch : string; repo_dir : string; report : report_by_branch }.

(** [{'scans': {...}, 'message': ...}] *)
Record pipeline_results : Type :=
  { scans : Py.dict report_by_branch; message : string }.

Definition DATE_FRMT : string := "%Y-%m-%dT%H:%M:%S%z".

(** ** Methods of [ScanUnmergedBranches] *)

(** [x or default] on strings: the empty string is falsy, and so is the
    [None] a caller may pass instead. *)
Definition or_else (x default : string) : string :=
  if String.eqb x "" then default else x.

(** [assert_no_whitespace(text, message=None)] *)
Definition assert_no_whitespace (text message : string) : M unit :=
  let message := or_else message text in
  if negb (Py.any_whitespace text) then ret tt
  else raise (AssertionError message).

(** The remote-tracking form of a ref:
    [if not b.startswith('origin/'): b = 'origin/{}'.format(b)]. *)
Definition with_origin (b : string) : string :=
  if negb (Py.startswith b "origin/") then ("origin/" ++ b)%string else b.

(** [(x1, y1) <= (x2, y2)] on pairs of strings, as Python orders tuples. *)
Definition tuple_le (a b : string * string) : bool :=
  match String.compare (fst a) (fst b) with
  | Lt => true
  | Eq => String.leb (snd a) (snd b)
  | Gt => false
  end.

(** [lambda r: (os.path.basename(r['repo_dir']), r['branch'])] *)
Definition sort_key (r : scan_result) : string * string :=
  (PosixPath.basename (repo_dir r), branch r).

Definition sort_key_le (r1 r2 : scan_result) : bool :=
  tuple_le (sort_key r1) (sort_key r2).

(** ['<{}>:{}'.format(repo_name, target_branch)] *)
Definition scan_id_of (r : scan_result) : string :=
  ("<" ++ PosixPath.basename (repo_dir r) ++ ">:" ++ branch r)%string.

Definition newline : string := String (ascii_of_nat 10) EmptyString.

(** The double quote of the shell command line. *)
Definition dquote : string := String (ascii_of_nat 34) EmptyString.

(** [convert_commit_to_dict(commit)] followed by [commit_dict.pop('author')]:
    the author and what is left of the dictionary. *)
Definition convert_commit_to_dict (commit : COMMIT_DETAILS)
  : string * commit_dict :=
  (author commit,
   {| d_hash := hash commit; d_date := date commit;
      d_subject := subject commit |}).

(** [convert_commits_list_to_dict_by_author(commits)] *)
Definition convert_commits_list_to_dict_by_author
    (commits : list COMMIT_DETAILS) : commits_by_author :=
  fold_left
    (fun dict_by_author commit =>
       let '(author, commit_dict) := convert_commit_to_dict commit in
       let '(dict_by_author, author_commit_list) :=
         Py.setdefault author [] dict_by_author in
       (* [append] changes the list held by the dictionary *)
       Py.set author (author_commit_list ++ [commit_dict]) dict_by_author)
    commits [].

(** [create_report_by_branch(stale_branches_with_commits)] *)
Definition create_report_by_branch
    (stale_branches_with_commits : Py.dict (list COMMIT_DETAILS))
  : report_by_branch :=
  fold_left
    (fun report_by_branch item =>
       let '(branch, commits) := item in
       Py.set branch (convert_commits_list_to_dict_by_author commits)
         report_by_branch)
    stale_branches_with_commits [].

(** The body of the loop of [aggregate_scan_results_by_repo]. *)
Definition by_repo_step
    (results_by_repo : Py.dict (Py.dict report_by_branch))
    (result_by_branch : scan_result)
  : Py.dict (Py.dict report_by_branch) :=
  let repo_dir := repo_dir result_by_branch in
  let target_branch := branch result_by_branch in
  let '(results_by_repo, repo_dict) :=
    Py.setdefault repo_dir [] results_by_repo in
  (* [repo_dict] is the object held under [repo_dir]: the assignment is seen
     through [results_by_repo] *)
  Py.set repo_dir
    (Py.set target_branch (report result_by_branch) repo_dict)
    results_by_repo.

(** [aggregate_scan_results_by_repo(results_by_branch)] *)
Definition aggregate_scan_results_by_repo
    (results_by_branch : list scan_result)
  : Py.dict (Py.dict report_by_branch) :=
  fold_left by_repo_step results_by_branch [].

(** The body of the innermost loop of [aggregate_scan_results_by_email],
    for one [(author, commits_list)] item of one branch.  [author_dict] and
    [repo_dict] are the objects held by the enclosing dictionaries, so the
    assignment is seen through [results_by_email]. *)
Definition by_email_step
    (repo_dir target_branch : string)
    (results_by_email : Py.dict (Py.dict (Py.dict (list commit_dict))))
    (item : string * list commit_dict)
  : Py.dict (Py.dict (Py.dict (list commit_dict))) :=
  let '(author, commits_list) := item in
  let '(results_by_email, author_dict) :=
    Py.setdefault author [] results_by_email in
  let '(author_dict, repo_dict) := Py.setdefault repo_dir [] author_dict in
  Py.set author
    (Py.set repo_dir (Py.set target_branch commits_list repo_dict) author_dict)
    results_by_email.

(** [for author, commits_list in commits_by_author.items(): ...] *)
Definition by_email_authors
    (repo_dir target_branch : string)
    (results_by_email : Py.dict (Py.dict (Py.dict (list commit_dict))))
    (commits_by_author : commits_by_author)
  : Py.dict (Py.dict (Py.dict (list commit_dict))) :=
  fold_left (by_email_step repo_dir target_branch)
    commits_by_author results_by_email.

(** [for branch, commits_by_author in result_by_branch['report'].items(): ...] *)
Definition by_email_branches
    (repo_dir target_branch : string)
    (results_by_email : Py.dict (Py.dict (Py.dict (list commit_dict))))
    (report : report_by_branch)
  : Py.dict (Py.dict (Py.dict (list commit_dict))) :=
  fold_left
    (fun results_by_email item =>
       by_email_authors repo_dir target_branch results_by_email (snd item))
    report results_by_email.

(** [aggregate_scan_results_by_email(results_by_branch)] *)
Definition aggregate_scan_results_by_email
    (results_by_branch : list scan_result)
  : Py.dict (Py.dict (Py.dict (list commit_dict))) :=
  fold_left
    (fun results_by_email result_by_branch =>
       by_email_branches (repo_dir result_by_branch)
         (branch result_by_branch) results_by_email
         (report result_by_branch))
    results_by_branch [].

Section Methods.

Variable P : platform.

(** [self.main_branch_name] *)
Variable main_branch_name : string.

(** [get_datetime_now_with_tz()]: one more reading of the clock. *)
Definition get_datetime_now_with_tz : M datetime :=
  fun w => (Ok (now_at P (ticks w)),
            {| ticks := S (ticks w);
               executed := executed w;
               printed := printed w |}).

(** [git_exec(cmd, cwd=cwd)] *)
Definition git_exec (cmd cwd : string) : M ExecRes :=
  fun w => (popen P (executed w) cmd cwd,
            {| ticks := ticks w;
               executed := executed w ++ [(cmd, cwd)];
               printed := printed w |}).

(** [date_is_older_than_n_days(date_, n_days, raise_exceptions=False)] *)
Definition date_is_older_than_n_days
    (date_ : string) (n_days : Z) (raise_exceptions : bool) : M bool :=
  match strptime P date_ DATE_FRMT with
  | inr msg =>
      if raise_exceptions then raise (ValueError msg) else ret false
  | inl dt =>
      now <- get_datetime_now_with_tz ;;
      ret (n_days <=? days (now - dt))%Z
  end.

(** [all(self.date_is_older_than_n_days(d, stale) for d in dates)]: the
    generator is consumed up to the first date that is not old. *)
Fixpoint all_older (dates : list string) (stale : Z) : M bool :=
  match dates with
  | [] => ret true
  | d :: rest =>
      old <- date_is_older_than_n_days d stale false ;;
      if old then all_older rest stale else ret false
  end.

Fixpoint extract_stale_branches_loop
    (items : list (string * list COMMIT_DETAILS)) (stale : Z)
    (stale_branches_with_commits : Py.dict (list COMMIT_DETAILS))
  : M (Py.dict (list COMMIT_DETAILS)) :=
  match items with
  | [] => ret stale_branches_with_commits
  | (branch, commits) :: rest =>
      let dates := map date commits in
      all_old <- all_older dates stale ;;
      if negb all_old
      then extract_stale_branches_loop rest stale stale_branches_with_commits
      else extract_stale_branches_loop rest stale
             (Py.set branch commits stale_branches_with_commits)
  end.

(** [extract_stale_branches(unmerged_commits_by_branch, stale)] *)
Definition extract_stale_branches
    (unmerged_commits_by_branch : Py.dict (list COMMIT_DETAILS)) (stale : Z)
  : M (Py.dict (list COMMIT_DETAILS)) :=
  extract_stale_branches_loop unmerged_commits_by_branch stale [].

(** [[datetime.datetime.strptime(commit['date'], cls.DATE_FRMT) for commit in commits]] *)
Fixpoint parse_dates (commits : list commit_dict) : M (list datetime) :=
  match commits with
  | [] => ret []
  | commit :: rest =>
      match strptime P (d_date commit) DATE_FRMT with
      | inr msg => raise (ValueError msg)
      | inl dt => dts <- parse_dates rest ;; ret (dt :: dts)
      end
  end.

(** [max(xs)]: the first of the greatest elements; an empty argument is a
    [ValueError]. *)
Definition max_ (xs : list datetime) : M datetime :=
  match xs with
  | [] => raise (ValueError "max() arg is an empty sequence")
  | x :: rest =>
      ret (fold_left (fun best y => if (best <? y)%Z then y else best) rest x)
  end.

(** [extract_latest_date_from_commits(commits)] *)
Definition extract_latest_date_from_commits
    (commits : list commit_dict) : M datetime :=
  dts <- parse_dates commits ;; max_ dts.

(** The filter applied to the stripped lines of the branch listing. *)
Definition branch_filter (include_main : bool) (b : string) : bool :=
  if Py.any_whitespace b then false
  else if negb include_main
          && String.eqb b ("origin/" ++ main_branch_name)%string
       then false
       else true.

(** [get_list_of_unmerged_branches(branch, repo_dir, include_main=...)] *)
Definition get_list_of_unmerged_branches
    (branch repo_dir : string) (include_main : bool) : M (list string) :=
  let branch := or_else branch main_branch_name in
  assert_no_whitespace branch ("target_branch:" ++ branch)%string ;;;
  assert_no_whitespace repo_dir ("repo_dir:" ++ repo_dir)%string ;;;
  let repo_dir := abspath P repo_dir in
  let branch := with_origin branch in
  let cmd := ("git -P branch -r --no-merged " ++ branch)%string in
  res <- git_exec cmd repo_dir ;;
  let branches := map Py.strip (stdout res) in
  ret (filter (branch_filter include_main) branches).

(** Building a [COMMIT_DETAILS] from the fields of [commit.strip().split('|')]:
    any number of fields but four is a [TypeError] (whose wording is not
    Python's here). *)
Definition parse_commit (line : string) : M COMMIT_DETAILS :=
  match Py.split "|" (Py.strip line) with
  | [h; d; a; s] => ret {| hash := h; date := d; author := a; subject := s |}
  | _ => raise (TypeError "COMMIT_DETAILS takes exactly 4 fields")
  end.

Fixpoint parse_commits (lines : list string) : M (list COMMIT_DETAILS) :=
  match lines with
  | [] => ret []
  | line :: rest =>
      commit <- parse_commit line ;;
      commits <- parse_commits rest ;;
      ret (commit :: commits)
  end.

(** [get_list_of_unmerged_commits(source_branch, target_branch, repo_dir)] *)
Definition get_list_of_unmerged_commits
    (source_branch target_branch repo_dir : string)
  : M (list COMMIT_DETAILS) :=
  assert_no_whitespace source_branch
    ("source_branch:" ++ source_branch)%string ;;;
  assert_no_whitespace target_branch
    ("target_branch:" ++ target_branch)%string ;;;
  assert_no_whitespace repo_dir ("repo_dir:" ++ repo_dir)%string ;;;
  let repo_dir := abspath P repo_dir in
  let target_branch := with_origin target_branch in
  let source_branch := with_origin source_branch in
  let cmd := ("git -P log " ++ source_branch ++ " --not " ++ target_branch
              ++ " --format=" ++ dquote ++ "%H|%aI|%aE|%s" ++ dquote)%string in
  res <- git_exec cmd repo_dir ;;
  parse_commits (stdout res).

Fixpoint fetch_unmerged_commits_loop
    (unmerged_branches : list string) (branch repo_dir : string)
    (unmerged_commits_by_branch : Py.dict (list COMMIT_DETAILS))
  : M (Py.dict (list COMMIT_DETAILS)) :=
  match unmerged_branches with
  | [] => ret unmerged_commits_by_branch
  | unmerged_branch :: rest =>
      unmerged_branch_commits <-
        get_list_of_unmerged_commits unmerged_branch branch repo_dir ;;
      fetch_unmerged_commits_loop rest branch repo_dir
        (Py.set unmerged_branch unmerged_branch_commits
           unmerged_commits_by_branch)
  end.

(** [fetch_unmerged_commits_by_branch(unmerged_branches, branch, repo_dir)] *)
Definition fetch_unmerged_commits_by_branch
    (unmerged_branches : list string) (branch repo_dir : string)
  : M (Py.dict (list COMMIT_DETAILS)) :=
  let branch := or_else branch main_branch_name in
  assert_no_whitespace branch ("branch:" ++ branch)%string ;;;
  assert_no_whitespace repo_dir ("repo_dir:" ++ repo_dir)%string ;;;
  fetch_unmerged_commits_loop unmerged_branches branch repo_dir [].

(** ['    * {} ({} days)'.format(branch, staleness)] *)
Definition branch_line (branch : string) (staleness : Z) : string :=
  ("    * " ++ branch ++ " (" ++ Py.str_of_int staleness ++ " days)")%string.

(** [for author, commits_list in commits_by_author.items(): ...] *)
Fixpoint pipeline_authors_loop
    (branch : string) (items : list (string * list commit_dict))
    (message_lines : list string) : M (list string) :=
  match items with
  | [] => ret message_lines
  | (author, commits_list) :: rest =>
      latest_date <- extract_latest_date_from_commits commits_list ;;
      now <- get_datetime_now_with_tz ;;
      let staleness := days (now - latest_date)%Z in
      pipeline_authors_loop branch rest
        (message_lines ++ [branch_line branch staleness])
  end.

(** [for branch, commits_by_author in result_by_branch['report'].items(): ...] *)
Fixpoint pipeline_branches_loop
    (items : list (string * commits_by_author))
    (message_lines : list string) : M (list string) :=
  match items with
  | [] => ret message_lines
  | (branch, commits_by_author) :: rest =>
      message_lines <-
        pipeline_authors_loop branch commits_by_author message_lines ;;
      pipeline_branches_loop rest message_lines
  end.

(** [for result_by_branch in sorted(...): ...], the body of
    [create_pipeline_report]. *)
Fixpoint pipeline_results_loop
    (results : list scan_result)
    (scans : Py.dict report_by_branch) (message_lines : list string)
  : M (Py.dict report_by_branch * list string) :=
  match results with
  | [] => ret (scans, message_lines)
  | result_by_branch :: rest =>
      let scan_id := scan_id_of result_by_branch in
      match report result_by_branch with
      | [] =>
          pipeline_results_loop rest scans
            (message_lines ++ [(" - " ++ scan_id ++ " *fresh*")%string])
      | _ :: _ =>
          let scans := Py.set scan_id (report result_by_branch) scans in
          let message_lines := message_lines ++ [(" - " ++ scan_id)%string] in
          message_lines <-
            pipeline_branches_loop (report result_by_branch) message_lines ;;
          pipeline_results_loop rest scans message_lines
      end
  end.

(** [create_pipeline_report(results_by_branch)] *)
Definition create_pipeline_report
    (results_by_branch : list scan_result) : M pipeline_results :=
  out <- pipeline_results_loop
           (Py.sorted sort_key_le results_by_branch) [] [] ;;
  ret {| scans := fst out; message := Py.join newline (snd out) |}.

End Methods.

(** ** Writing a report

    [J] is the type of what is written.  [json_dumps data indent] is
    [json.dumps(data, indent=indent)]; [save_json data file_path indent]
    stands for the directory creation, the [open] and the [json.dump] of
    [save_json_to_file], whose effect on the file system is not part of the
    [world]. *)

(** The keyword arguments [write_report] pops; [None] is a key that was not
    passed. *)
Record write_kwargs : Type :=
  { kw_raise_exceptions : option bool;
    kw_output : option string;
    kw_indent : option Z }.

(** [kwargs.pop(key, default)] *)
Definition pop {A} (value : option A) (default : A) : A :=
  match value with
  | Some v => v
  | None => default
  end.

Section Writing.

Variable J : Type.
Variable json_dumps : J -> Z -> result string.
Variable save_json : J -> string -> Z -> result unit.

(** [print_json_to_stdout(json_data, indent=indent)] *)
Definition print_json_to_stdout (json_data : J) (indent : Z) : M unit :=
  text <- (fun w => (json_dumps json_data indent, w)) ;;
  print text.

(** [save_json_to_file(json_data, file_path, indent=indent)] *)
Definition save_json_to_file (json_data : J) (file_path : string) (indent : Z)
  : M unit :=
  (fun w => (save_json json_data file_path indent, w)) ;;;
  print ("report saved to file: " ++ file_path)%string.

(** [write_report(report, **kwargs)] *)
Definition write_report (report : J) (kwargs : write_kwargs) : M Z :=
  let raise_exceptions := pop (kw_raise_exceptions kwargs) true in
  let output :=
    match kw_output kwargs with
    | Some path => if String.eqb path "" then None else Some path
    | None => None
    end in
  let indent_ := pop (kw_indent kwargs) 4%Z in
  try_except_else
    (match output with
     | None => print_json_to_stdout report indent_
     | Some path => save_json_to_file report path indent_
     end)
    (fun exc =>
       print ("exception saving report: " ++ exn_str exc)%string ;;;
       if raise_exceptions then raise exc else ret 1%Z)
    (ret 0%Z).

End Writing.

End Scanner.

(* ================================================================== *)
(** * A reference platform *)
(* ================================================================== *)

(** The theorems below hold for every [platform].  To run the scanner on
    concrete inputs this module supplies one: a parser for the layout
    [git log --format=%aI] prints ([YYYY-MM-DDTHH:MM:SS+HH:MM], every field
    at full width), on which it agrees with [strptime]; a clock; and a
    repository with two unmerged branches.  Python's [strptime] accepts more
    spellings of a date (fields of one digit, an offset without colon, [Z]),
    which this parser turns down. *)

Module Reference.

Import Scanner.

Definition digit (c : ascii) : option Z :=
  let n := nat_of_ascii c in
  if ((48 <=? n) && (n <=? 57))%nat then Some (Z.of_nat (n - 48)) else None.

Fixpoint number (acc : Z) (cs : list ascii) : option Z :=
  match cs with
  | [] => Some acc
  | c :: rest =>
      match digit c with
      | Some d => number (10 * acc + d)%Z rest
      | None => None
      end
  end.

Definition is_leap (y : Z) : bool :=
  ((y mod 4 =? 0) && (negb (y mod 100 =? 0) || (y mod 400 =? 0)))%Z.

Definition days_in_month (y m : Z) : Z :=
  if (m =? 2)%Z then (if is_leap y then 29 else 28)%Z
  else if ((m =? 4) || (m =? 6) || (m =? 9) || (m =? 11))%Z then 30%Z
  else 31%Z.

(** Days from 1970-01-01 to the given civil date. *)
Definition days_from_civil (y m d : Z) : Z :=
  let y' := (if m <=? 2 then y - 1 else y)%Z in
  let era := (y' / 400)%Z in
  let yoe := (y' - era * 400)%Z in
  let mp := (if m <=? 2 then m + 9 else m - 3)%Z in
  let doy := ((153 * mp + 2) / 5 + d - 1)%Z in
  let doe := (yoe * 365 + yoe / 4 - yoe / 100 + doy)%Z in
  (era * 146097 + doe - 719468)%Z.

Definition is_char (c : ascii) (code : nat) : bool :=
  (nat_of_ascii c =? code)%nat.

Definition mismatch (data format : string) : string :=
  ("time data " ++ data ++ " does not match format " ++ format)%string.

Definition strptime_iso (data format : string) : datetime + string :=
  match list_ascii_of_string data with
  | [y1; y2; y3; y4; s1; m1; m2; s2; d1; d2; t; h1; h2; s3; i1; i2; s4;
     c1; c2; sg; o1; o2; s5; o3; o4] =>
      match number 0 [y1; y2; y3; y4], number 0 [m1; m2], number 0 [d1; d2],
            number 0 [h1; h2], number 0 [i1; i2], number 0 [c1; c2],
            number 0 [o1; o2], number 0 [o3; o4] with
      | Some y, Some m, Some d, Some h, Some mi, Some sec, Some oh, Some om =>
          if is_char s1 45 && is_char s2 45 && is_char t 84
             && is_char s3 58 && is_char s4 58 && is_char s5 58
             && (is_char sg 43 || is_char sg 45)
             && ((1 <=? m) && (m <=? 12) && (1 <=? d)
                 && (d <=? days_in_month y m) && (h <=? 23) && (mi <=? 59)
                 && (sec <=? 59) && (om <=? 59))%Z
          then
            let local := (days_from_civil y m d * 86400
                          + h * 3600 + mi * 60 + sec)%Z in
            let offset := (oh * 3600 + om * 60)%Z in
            let utc := (if is_char sg 45 then local + offset
                        else local - offset)%Z in
            inl (utc * 1000000)%Z
          else inr (mismatch data format)
      | _, _, _, _, _, _, _, _ => inr (mismatch data format)
      end
  | _ => inr (mismatch data format)
  end.

(** Half a millisecond before 2020-02-01T12:00:00Z, in microseconds. *)
Definition t0 : datetime := 1580558399999500%Z.

(** A clock that moves on by a millisecond from one reading to the next. *)
Definition running_clock (k : nat) : datetime := (t0 + 1000 * Z.of_nat k)%Z.

(** What [git] prints in the repository of the examples: the same branch
    listing and the same divergence whatever the refs asked for. *)
Definition listing : ExecRes :=
  {| rc := 0;
     stdout := ["  origin/HEAD -> origin/main";
                "  origin/feature/x";
                "  origin/main"];
     stderr := [] |}.

Definition divergence : ExecRes :=
  {| rc := 0;
     stdout := ["aaaa1111|2020-01-01T12:00:00+00:00|a@x.com|fix bug";
                "bbbb2222|2020-01-22T11:00:00+00:00|b@x.com|wip"];
     stderr := [] |}.

Definition git (history : list (string * string)) (cmd cwd : string)
  : result ExecRes :=
  if Py.startswith cmd "git -P branch " then Ok listing
  else if Py.startswith cmd "git -P log " then Ok divergence
  else Ok {| rc := 1; stdout := []; stderr := ["git: unknown command"] |}.

Definition the_platform : platform :=
  {| strptime := strptime_iso;
     now_at := running_clock;
     abspath := fun p => ("/ws/" ++ p)%string;
     popen := git |}.

(** The same platform with a clock that stands still. *)
Definition frozen_platform (now : datetime) : platform :=
  {| strptime := strptime_iso;
     now_at := fun _ => now;
     abspath := fun p => ("/ws/" ++ p)%string;
     popen := git |}.

Definition w0 : world := {| ticks := 0; executed := []; printed := [] |}.

End Reference.


(* ================================================================== *)
(** * What the specification says, and inputs to run the scanner on *)
(* ================================================================== *)

Module Spec.

Import Scanner.

(** The world after [n] more readings of the clock. *)
Definition advance (n : nat) (w : world) : world :=
  {| ticks := n + ticks w; executed := executed w; printed := printed w |}.

(** "A commit is old if [(now - commit_time).days >= N]"; a timestamp that
    does not parse is not old. *)
Definition is_old (P : platform) (now : datetime) (n : Z) (date_ : string)
  : bool :=
  match strptime P date_ DATE_FRMT with
  | inl dt => (n <=? days (now - dt))%Z
  | inr _ => false
  end.

(** "All its commits are old" at one [now]. *)
Definition all_old (P : platform) (now : datetime) (n : Z)
    (commits : list COMMIT_DETAILS) : bool :=
  forallb (fun c => is_old P now n (date c)) commits.

(** The readings of the clock the filter spends on the dates of one branch
    when it starts at reading [k]: one for each date up to and including the
    first that is not old, none for a date that does not parse. *)
Fixpoint readings (P : platform) (n : Z) (k : nat) (dates : list string)
  : nat :=
  match dates with
  | [] => 0
  | d :: rest =>
      match strptime P d DATE_FRMT with
      | inr _ => 0
      | inl _ =>
          if is_old P (now_at P k) n d then S (readings P n (S k) rest)
          else 1
      end
  end.

(** Every date is old at the reading taken for it: the first date at reading
    [k], the next at reading [k + 1], and so on. *)
Fixpoint old_in_turn (P : platform) (n : Z) (k : nat) (dates : list string)
  : bool :=
  match dates with
  | [] => true
  | d :: rest => is_old P (now_at P k) n d && old_in_turn P n (S k) rest
  end.

(** Each branch of the mapping with the index of the reading at which the
    filter starts on it. *)
Fixpoint schedule (P : platform) (n : Z) (k : nat)
    (d : Py.dict (list COMMIT_DETAILS))
  : list (nat * (string * list COMMIT_DETAILS)) :=
  match d with
  | [] => []
  | (b, commits) :: rest =>
      (k, (b, commits))
      :: schedule P n (readings P n k (map date commits) + k) rest
  end.

(** What one turn of the filter's loop does to the mapping built so far,
    for a branch examined from reading [fst e] on. *)
Definition keep (P : platform) (n : Z)
    (acc : Py.dict (list COMMIT_DETAILS))
    (e : nat * (string * list COMMIT_DETAILS))
  : Py.dict (list COMMIT_DETAILS) :=
  if old_in_turn P n (fst e) (map date (snd (snd e)))
  then Py.set (fst (snd e)) (snd (snd e)) acc
  else acc.

(** The reading after the whole mapping has been filtered. *)
Fixpoint final_reading (P : platform) (n : Z) (k : nat)
    (d : Py.dict (list COMMIT_DETAILS)) : nat :=
  match d with
  | [] => k
  | (b, commits) :: rest =>
      final_reading P n (readings P n k (map date commits) + k) rest
  end.

(** No string occurs twice: a check that runs. *)
Fixpoint distinct (l : list string) : bool :=
  match l with
  | [] => true
  | x :: rest => negb (existsb (String.eqb x) rest) && distinct rest
  end.

(** "Reading back the entry at [[repoLocation][branch]]". *)
Definition read_back {V} (repo_dir branch : string)
    (by_repo : Py.dict (Py.dict V)) : option V :=
  match Py.get repo_dir by_repo with
  | Some repo_dict => Py.get branch repo_dict
  | None => None
  end.

(** The grouping key of a scan record. *)
Definition grouping_key (r : scan_result) : string * string :=
  (repo_dir r, branch r).

(** The commit lists an author has in a report, one for each branch that
    lists the author, in the order the report is iterated. *)
Definition groups_of (author : string) (rep : report_by_branch)
  : list (list commit_dict) :=
  flat_map
    (fun item =>
       map snd (filter (fun g => String.eqb (fst g) author) (snd item)))
    rep.

(** Storing [commits_list] under [[repo_dir][target_branch]] in the
    dictionary kept for one author. *)
Definition place (repo_dir target_branch : string)
    (commits_list : list commit_dict)
    (author_dict : Py.dict (Py.dict (list commit_dict)))
  : Py.dict (Py.dict (list commit_dict)) :=
  Py.set repo_dir
    (Py.set target_branch commits_list
       (match Py.get repo_dir author_dict with
        | Some repo_dict => repo_dict
        | None => []
        end))
    author_dict.

(** The same on the entry of an author who may not have one yet. *)
Definition place_in (repo_dir target_branch : string)
    (entry : option (Py.dict (Py.dict (list commit_dict))))
    (commits_list : list commit_dict)
  : option (Py.dict (Py.dict (list commit_dict))) :=
  Some (place repo_dir target_branch commits_list
          (match entry with Some author_dict => author_dict | None => [] end)).

(** The world with one more line printed. *)
Definition with_line (line : string) (w : world) : world :=
  {| ticks := ticks w; executed := executed w;
     printed := printed w ++ [line] |}.

(** Where [write_report] writes: [kwargs.pop('output', None) or None]. *)
Definition output_of (kwargs : write_kwargs) : option string :=
  match kw_output kwargs with
  | Some path => if String.eqb path "" then None else Some path
  | None => None
  end.

(** Whether serializing and writing goes through, and the line printed when
    it does: the document itself, or the notice that the file was saved. *)
Definition write_outcome {J}
    (json_dumps : J -> Z -> result string)
    (save_json : J -> string -> Z -> result unit)
    (report : J) (kwargs : write_kwargs) : result string :=
  let indent := pop (kw_indent kwargs) 4%Z in
  match output_of kwargs with
  | None => json_dumps report indent
  | Some path =>
      match save_json report path indent with
      | Ok _ => Ok ("report saved to file: " ++ path)%string
      | Raise e => Raise e
      end
  end.

(** ** The pipeline digest, in the words of the specification *)

(** The [(branch, author, commits)] triples of a report, in the order in
    which the report is iterated. *)
Definition triples (rep : report_by_branch)
  : list (string * string * list commit_dict) :=
  flat_map
    (fun item => map (fun g => (fst item, fst g, snd g)) (snd item)) rep.

(** The instant a commit is dated at. *)
Definition instant (P : platform) (c : commit_dict) : datetime :=
  match strptime P (d_date c) DATE_FRMT with
  | inl t => t
  | inr _ => 0%Z
  end.

(** "The most recent commit in that group (max timestamp)". *)
Definition most_recent (P : platform) (commits : list commit_dict)
  : datetime :=
  match map (instant P) commits with
  | [] => 0%Z
  | t :: ts => fold_left Z.max ts t
  end.

(** A group the digest can be built from: it holds a commit, and the date of
    each of its commits parses. *)
Definition dated (P : platform) (commits : list commit_dict) : Prop :=
  commits <> [] /\
  forall c, In c commits ->
            exists t, strptime P (d_date c) DATE_FRMT = inl t.

Definition well_dated (P : platform) (rs : list scan_result) : Prop :=
  forall r b a commits,
    In r rs -> In (b, a, commits) (triples (report r)) -> dated P commits.

(** "For every (branch, author, commits) triple append one sub-line giving
    that branch's staleness in days"; the clock is read once per triple, the
    first at reading [k]. *)
Fixpoint sub_lines (P : platform) (k : nat)
    (ts : list (string * string * list commit_dict)) : list string :=
  match ts with
  | [] => []
  | (b, _, commits) :: rest =>
      branch_line b (days (now_at P k - most_recent P commits)%Z)
      :: sub_lines P (S k) rest
  end.

Definition fresh_line (r : scan_result) : string :=
  (" - " ++ scan_id_of r ++ " *fresh*")%string.

Definition summary_line (r : scan_result) : string :=
  (" - " ++ scan_id_of r)%string.

(** "If its report is empty, append a fresh line ...; otherwise ... append a
    summary line, and for every triple append one sub-line". *)
Definition record_lines (P : platform) (k : nat) (r : scan_result)
  : list string :=
  match report r with
  | [] => [fresh_line r]
  | _ :: _ => summary_line r :: sub_lines P k (triples (report r))
  end.

Fixpoint digest_lines (P : platform) (k : nat) (rs : list scan_result)
  : list string :=
  match rs with
  | [] => []
  | r :: rest =>
      record_lines P k r
      ++ digest_lines P (List.length (triples (report r)) + k) rest
  end.

(** "Skip digest inclusion" for an empty report, "otherwise add the full
    report under a composite key". *)
Definition store (scans : Py.dict report_by_branch) (r : scan_result)
  : Py.dict report_by_branch :=
  match report r with
  | [] => scans
  | _ :: _ => Py.set (scan_id_of r) (report r) scans
  end.

(** [dated] and [well_dated] as checks that run. *)
Definition datedb (P : platform) (commits : list commit_dict) : bool :=
  match commits with
  | [] => false
  | _ :: _ =>
      forallb
        (fun c => match strptime P (d_date c) DATE_FRMT with
                  | inl _ => true
                  | inr _ => false
                  end)
        commits
  end.

Definition well_datedb (P : platform) (rs : list scan_result) : bool :=
  forallb
    (fun r => forallb (fun t => datedb P (snd t)) (triples (report r))) rs.

(** The number of triples of a sequence of records. *)
Definition count_triples (rs : list scan_result) : nat :=
  List.length (flat_map (fun r => triples (report r)) rs).

(** The world once the clock has been read up to reading [k]. *)
Definition at_reading (k : nat) (w : world) : world :=
  {| ticks := k; executed := executed w; printed := printed w |}.

(** ** The order and the lines of the digest, spelled out

    What follows does not use the scanner's sort key, its scan id or its
    format of a line: it says in full what the digest is to hold. *)

(** One string before another, character by character, by code point. *)
Inductive code_points_lt : string -> string -> Prop :=
| lt_longer c s : code_points_lt "" (String c s)
| lt_head c1 c2 s1 s2 :
    (N_of_ascii c1 < N_of_ascii c2)%N ->
    code_points_lt (String c1 s1) (String c2 s2)
| lt_tail c s1 s2 :
    code_points_lt s1 s2 -> code_points_lt (String c s1) (String c s2).

(** "Ascending order of (basename(repoLocation), branch)": the first record
    may stand before the second. *)
Definition ascending (r1 r2 : scan_result) : Prop :=
  code_points_lt (PosixPath.basename (repo_dir r1))
    (PosixPath.basename (repo_dir r2)) \/
  (PosixPath.basename (repo_dir r1) = PosixPath.basename (repo_dir r2) /\
   (code_points_lt (branch r1) (branch r2) \/ branch r1 = branch r2)).

(** "Staleness in days": the whole days from an instant to a reading of the
    clock, both in microseconds. *)
Definition staleness_in_days (now latest : datetime) : Z :=
  ((now - latest) / 86400000000)%Z.

(** The sub-line of a triple: its branch and its staleness in days, "computed
    from the most recent commit in that group". *)
Definition stated_sub_line (P : platform) (k : nat) (b : string)
    (commits : list commit_dict) : string :=
  ("    * " ++ b ++ " ("
   ++ Py.str_of_int (staleness_in_days (now_at P k) (most_recent P commits))
   ++ " days)")%string.

(** One sub-line for each triple, the clock being read once per triple, the
    first time at reading [k]. *)
Fixpoint stated_sub_lines (P : platform) (k : nat)
    (ts : list (string * string * list commit_dict)) : list string :=
  match ts with
  | [] => []
  | (b, _, commits) :: rest =>
      stated_sub_line P k b commits :: stated_sub_lines P (S k) rest
  end.

(** The lines of a record: its fresh line, or its summary line and the
    sub-lines of its triples. *)
Definition stated_record_lines (P : platform) (k : nat) (r : scan_result)
  : list string :=
  let id := ("<" ++ PosixPath.basename (repo_dir r) ++ ">:" ++ branch r)%string
  in
  match report r with
  | [] => [(" - " ++ id ++ " *fresh*")%string]
  | _ :: _ => (" - " ++ id)%string :: stated_sub_lines P k (triples (report r))
  end.

(** The lines of the records taken in turn. *)
Fixpoint stated_lines (P : platform) (k : nat) (rs : list scan_result)
  : list string :=
  match rs with
  | [] => []
  | r :: rest =>
      stated_record_lines P k r
      ++ stated_lines P (List.length (triples (report r)) + k) rest
  end.

(** ** The pivot by author, in the words of the specification *)

(** "That author's commits from the corresponding record": the commits the
    author has in the report, over all its branches. *)
Definition commits_by (a : string) (rep : report_by_branch)
  : list commit_dict :=
  List.concat (groups_of a rep).

End Spec.

(** ** Inputs *)

Module Inputs.

Import Scanner.

Definition commit_at (h d : string) : COMMIT_DETAILS :=
  {| hash := h; date := d; author := "a@x.com"; subject := "work" |}.

(** Commits 31 days, 10 days and 3 days before [Reference.t0], and one made
    seven days before [Reference.t0] but for half a millisecond. *)
Definition c31 : COMMIT_DETAILS := commit_at "aaaa1111" "2020-01-01T12:00:00+00:00".
Definition c10 : COMMIT_DETAILS := commit_at "bbbb2222" "2020-01-22T11:00:00+00:00".
Definition c3 : COMMIT_DETAILS := commit_at "cccc3333" "2020-01-29T11:00:00+00:00".
Definition c7 : COMMIT_DETAILS := commit_at "dddd4444" "2020-01-25T12:00:00+00:00".

Definition unmerged : Py.dict (list COMMIT_DETAILS) :=
  [("origin/feature/old", [c31; c10]);
   ("origin/feature/mixed", [c10; c3]);
   ("origin/feature/empty", [])].

Definition on_the_edge : Py.dict (list COMMIT_DETAILS) :=
  [("origin/feature/edge", [c31; c7])].

(** Two branches with the same single commit. *)
Definition twins : Py.dict (list COMMIT_DETAILS) :=
  [("origin/feature/early", [c7]); ("origin/feature/late", [c7])].

Definition entry (h d : string) : commit_dict :=
  {| d_hash := h; d_date := d; d_subject := "work" |}.

Definition e31 : commit_dict := entry "aaaa1111" "2020-01-01T12:00:00+00:00".
Definition e10 : commit_dict := entry "bbbb2222" "2020-01-22T11:00:00+00:00".
Definition e20 : commit_dict := entry "eeee5555" "2020-01-12T12:00:00+00:00".

(** A report with two stale branches by the same author. *)
Definition two_branches : report_by_branch :=
  [("origin/feature/old", [("a@x.com", [e31; e10])]);
   ("origin/feature/older", [("a@x.com", [e20]); ("b@x.com", [e31])])].

Definition one_branch : report_by_branch :=
  [("origin/hotfix/y", [("a@x.com", [e20])])].

Definition scan_alpha : scan_result :=
  {| branch := "main"; repo_dir := "/ws/alpha"; report := two_branches |}.

Definition scan_beta : scan_result :=
  {| branch := "development"; repo_dir := "/ws/beta"; report := one_branch |}.

Definition scan_fresh : scan_result :=
  {| branch := "main"; repo_dir := "/ws/aardvark"; report := [] |}.

(** A serializer for reports that are one integer, and a disk on which
    nothing can be written below [/readonly/]. *)
Definition dumps_int (data : Z) (indent : Z) : result string :=
  Ok (Py.str_of_int data).

Definition save_unless_readonly (data : Z) (file_path : string) (indent : Z)
  : result unit :=
  if Py.startswith file_path "/readonly/"
  then Raise (OSError "[Errno 30] Read-only file system")
  else Ok tt.

Definition to_readonly (raise_exceptions : option bool) : write_kwargs :=
  {| kw_raise_exceptions := raise_exceptions;
     kw_output := Some "/readonly/out.json";
     kw_indent := None |}.

Definition batch : list scan_result := [scan_beta; scan_alpha; scan_fresh].

(** A record with a group that holds no commit, and one with a commit dated
    by the day only. *)
Definition scan_no_commits : scan_result :=
  {| branch := "main"; repo_dir := "/ws/gamma";
     report := [("origin/feature/z", [("a@x.com", [])])] |}.

Definition scan_day_only : scan_result :=
  {| branch := "main"; repo_dir := "/ws/gamma";
     report := [("origin/feature/z",
                 [("a@x.com", [entry "ffff6666" "2020-01-28"])])] |}.

End Inputs.

(* ================================================================== *)
(** * The rest of the scanner: fetching, one scan, batches *)
(* ================================================================== *)

Module Shape.

Import Scanner.

(** The commit dictionaries of one author, in the order of the commits. *)
Definition commits_of (a : string) (commits : list COMMIT_DETAILS)
  : list commit_dict :=
  map (fun c => snd (convert_commit_to_dict c))
    (filter (fun c => String.eqb (author c) a) commits).

(** The strings of a list in the order of their first occurrence. *)
Definition first_seen (l : list string) : list string :=
  fold_left
    (fun seen x => if existsb (String.eqb x) seen then seen else seen ++ [x])
    l [].

(** How often a character occurs in a string. *)
Fixpoint count_char (c : ascii) (s : string) : nat :=
  match s with
  | EmptyString => 0
  | String c' rest =>
      (if Ascii.eqb c' c then 1 else 0) + count_char c rest
  end.

(** The line [git log --format=%H|%aI|%aE|%s] prints for a commit. *)
Definition commit_line (c : COMMIT_DETAILS) : string :=
  (hash c ++ "|" ++ date c ++ "|" ++ author c ++ "|" ++ subject c)%string.

(** [l1] is [l2] with some elements left out. *)
Inductive subsequence {A : Type} : list A -> list A -> Prop :=
| subsequence_nil : subsequence [] []
| subsequence_skip x l1 l2 : subsequence l1 l2 -> subsequence l1 (x :: l2)
| subsequence_take x l1 l2 :
    subsequence l1 l2 -> subsequence (x :: l1) (x :: l2).

(** The world with more commands handed to the shell. *)
Definition with_commands (cmds : list (string * string)) (w : world)
  : world :=
  {| ticks := ticks w; executed := executed w ++ cmds;
     printed := printed w |}.

(** Between [w] and [w'] commands may have run, and none was forgotten. *)
Definition extends (w w' : world) : Prop :=
  exists tail, executed w' = executed w ++ tail.

End Shape.

Module Orchestrator.

Import Scanner.
Local Open Scope scan_scope.

(** ** [execute_git_fetch] *)

(** The line of [stderr] after which the fetch is tried again. *)
Definition unshallow_complaint : string :=
  "--unshallow on a complete repository does not make sense".

Definition fetch_options : list string :=
  ["--prune"; "--prune-tags"; "--no-tags"; "--no-recurse-submodules";
   "--unshallow"].

(** ['git -P fetch {options}'.format(options=' '.join(options))] *)
Definition fetch_cmd (options : list string) : string :=
  ("git -P fetch " ++ Py.join " " options)%string.

(** [l.remove(x)]: [l] without the first [x], a [ValueError] when there is
    none. *)
Fixpoint list_remove (x : string) (l : list string) : M (list string) :=
  match l with
  | [] => raise (ValueError "list.remove(x): x not in list")
  | y :: rest =>
      if String.eqb y x then ret rest
      else (rest' <- list_remove x rest ;; ret (y :: rest'))
  end.

(** [x in lines], for a list of strings. *)
Definition contains (x : string) (lines : list string) : bool :=
  existsb (String.eqb x) lines.

Section Fetch.

Variable P : platform.

(** [execute_git_fetch(repo_dir)] *)
Definition execute_git_fetch (repo_dir : string) : M ExecRes :=
  assert_no_whitespace repo_dir ("repo_dir:" ++ repo_dir)%string ;;;
  let repo_dir := abspath P repo_dir in
  let options := fetch_options in
  let cmd := fetch_cmd options in
  res <- git_exec P cmd repo_dir ;;
  if contains unshallow_complaint (stderr res)
  then
    options <- list_remove "--unshallow" options ;;
    let cmd := fetch_cmd options in
    git_exec P cmd repo_dir
  else ret res.

End Fetch.

(** ** [scan] *)

(** The value passed as [stale]: an [int], or a [str] as the command line
    hands it over. *)
Inductive stale_arg : Type :=
| StaleInt (n : Z)
| StaleStr (s : string).

(** The keyword arguments of [scan]; [None] is a key that was not passed.
    What [scan] does not pop itself goes on to [write_report]. *)
Record scan_kwargs : Type :=
  { kw_return_report : option bool;
    kw_include_main : option bool;
    kw_fetch_first : option bool;
    kw_save_scan : option bool;
    kw_stale : option stale_arg;
    kw_write : write_kwargs }.

(** An element of [self.scans]: the record with the keyword arguments the
    scan was called with. *)
Record saved_scan : Type :=
  { saved : scan_result; saved_kwargs : scan_kwargs }.

(** What [scan] returns: the report, or the status [write_report] gave. *)
Inductive scan_return : Type :=
| Report (report_by_branch : report_by_branch)
| Status (rc : Z).

Definition STALE_DAYS_DEFAULT : string := "7".

Section Scan.

Variable P : platform.

(** [self.main_branch_name] and [self.save_scans] *)
Variable main_branch_name : string.
Variable save_scans : bool.

(** [int(s)] for a [str]: the number, or the message of the [ValueError]. *)
Variable int_of_str : string -> Z + string.

Variable json_dumps : report_by_branch -> Z -> result string.
Variable save_json : report_by_branch -> string -> Z -> result unit.

(** [int(x)] *)
Definition int_ (x : stale_arg) : M Z :=
  match x with
  | StaleInt n => ret n
  | StaleStr s =>
      match int_of_str s with
      | inl n => ret n
      | inr msg => raise (ValueError msg)
      end
  end.

(** [scan] from its first line to [create_report_by_branch]: the report of
    the scan. *)
Definition scan_report (branch repo_dir : string) (kwargs : scan_kwargs)
  : M report_by_branch :=
  let branch := or_else branch main_branch_name in
  assert_no_whitespace branch ("branch:" ++ branch)%string ;;;
  assert_no_whitespace repo_dir ("repo_dir:" ++ repo_dir)%string ;;;
  let include_main := pop (kw_include_main kwargs) false in
  let fetch_first := pop (kw_fetch_first kwargs) true in
  stale <- int_ (pop (kw_stale kwargs) (StaleStr STALE_DAYS_DEFAULT)) ;;
  (if fetch_first
   then execute_git_fetch P repo_dir ;;; ret tt
   else ret tt) ;;;
  unmerged_branches <-
    get_list_of_unmerged_branches P main_branch_name branch repo_dir
      include_main ;;
  unmerged_commits_by_branch <-
    fetch_unmerged_commits_by_branch P main_branch_name unmerged_branches
      branch repo_dir ;;
  stale_branches_with_commits <-
    extract_stale_branches P unmerged_commits_by_branch stale ;;
  ret (create_report_by_branch stale_branches_with_commits).

(** [scan(branch, repo_dir, **kwargs)], with [self.scans] before and
    after. *)
Definition scan (branch repo_dir : string) (kwargs : scan_kwargs)
    (scans : list saved_scan)
  : world -> result scan_return * list saved_scan * world :=
  fun w =>
    let return_report := pop (kw_return_report kwargs) false in
    let save_scan := pop (kw_save_scan kwargs) save_scans in
    match scan_report branch repo_dir kwargs w with
    | (Raise e, w') => (Raise e, scans, w')
    | (Ok report_by_branch, w') =>
        let scans :=
          if save_scan
          then scans
               ++ [{| saved :=
                        {| branch := or_else branch main_branch_name;
                           repo_dir := repo_dir;
                           report := report_by_branch |};
                      saved_kwargs := kwargs |}]
          else scans in
        if return_report then (Ok (Report report_by_branch), scans, w')
        else
          match write_report json_dumps save_json report_by_branch
                  (kw_write kwargs) w' with
          | (Ok rc, w'') => (Ok (Status rc), scans, w'')
          | (Raise e, w'') => (Raise e, scans, w'')
          end
    end.

End Scan.

(** ** [write_pipeline_report] *)

(** The keyword arguments [write_pipeline_report] pops. *)
Record pipeline_write_kwargs : Type :=
  { pw_raise_exceptions : option bool; pw_indent : option Z }.

Section PipelineWriting.

Variable P : platform.
Variable save_json : pipeline_results -> string -> Z -> result unit.

(** [write_pipeline_report(report, output, **kwargs)] *)
Definition write_pipeline_report (report : list scan_result)
    (output : string) (kwargs : pipeline_write_kwargs) : M Z :=
  let raise_exceptions := pop (pw_raise_exceptions kwargs) true in
  let indent_ := pop (pw_indent kwargs) 4%Z in
  pipeline_report <- create_pipeline_report P report ;;
  try_except_else
    (save_json_to_file save_json pipeline_report output indent_)
    (fun exc =>
       print ("exception saving report: " ++ exn_str exc)%string ;;;
       if raise_exceptions then raise exc else ret 1%Z)
    (ret 0%Z).

End PipelineWriting.

(** ** [scan_multiple_pipeline] *)

(** [p.endswith('/')] *)
Fixpoint ends_with_slash (p : string) : bool :=
  match p with
  | EmptyString => false
  | String c EmptyString => Ascii.eqb c "/"
  | String _ rest => ends_with_slash rest
  end.

(** [os.path.join(a, b)] *)
Definition path_join (a b : string) : string :=
  if Py.startswith b "/" then b
  else if String.eqb a "" || ends_with_slash a then (a ++ b)%string
       else (a ++ "/" ++ b)%string.

(** An element of [configs] in pipeline mode.  "Each config MUST have
    TARGET_BRANCH & REPO_NAME": a config without them, on which [pop] raises
    a [KeyError], is not a value of this type.  The other keys are keyword
    arguments for [scan]. *)
Record pipeline_config : Type :=
  { TARGET_BRANCH : string;
    REPO_NAME : string;
    config_kwargs : scan_kwargs }.

(** [a.update(b)] on optional keys: the value of [b] where it has one. *)
Definition update_key {A} (a b : option A) : option A :=
  match b with
  | Some v => Some v
  | None => a
  end.

(** [scan_kwargs = config; scan_kwargs.update(kwargs)] *)
Definition update (config kwargs : scan_kwargs) : scan_kwargs :=
  {| kw_return_report :=
       update_key (kw_return_report config) (kw_return_report kwargs);
     kw_include_main :=
       update_key (kw_include_main config) (kw_include_main kwargs);
     kw_fetch_first :=
       update_key (kw_fetch_first config) (kw_fetch_first kwargs);
     kw_save_scan := update_key (kw_save_scan config) (kw_save_scan kwargs);
     kw_stale := update_key (kw_stale config) (kw_stale kwargs);
     kw_write :=
       {| kw_raise_exceptions :=
            update_key (kw_raise_exceptions (kw_write config))
              (kw_raise_exceptions (kw_write kwargs));
          kw_output :=
            update_key (kw_output (kw_write config))
              (kw_output (kw_write kwargs));
          kw_indent :=
            update_key (kw_indent (kw_write config))
              (kw_indent (kw_write kwargs)) |} |}.

(** [kwargs['return_report'] = True] *)
Definition with_return_report (kwargs : scan_kwargs) : scan_kwargs :=
  {| kw_return_report := Some true;
     kw_include_main := kw_include_main kwargs;
     kw_fetch_first := kw_fetch_first kwargs;
     kw_save_scan := kw_save_scan kwargs;
     kw_stale := kw_stale kwargs;
     kw_write := kw_write kwargs |}.

Section Batches.

Variable P : platform.
Variable main_branch_name : string.
Variable save_scans : bool.
Variable int_of_str : string -> Z + string.
Variable json_dumps : report_by_branch -> Z -> result string.
Variable save_json : report_by_branch -> string -> Z -> result unit.
Variable save_pipeline_json : pipeline_results -> string -> Z -> result unit.

(** [os.getenv('WORKSPACE')] *)
Variable WORKSPACE : option string.

(** [for config in configs: ...] in [scan_multiple_pipeline].  [kwargs]
    holds [return_report=True] and overrides the config, so [scan] returns
    a report and the case of a status is never met. *)
Fixpoint scan_multiple_pipeline_loop
    (configs : list pipeline_config) (workspace : option string)
    (kwargs : scan_kwargs) (results_by_branch : list scan_result)
    (scans : list saved_scan)
  : world -> result (list scan_result) * list saved_scan * world :=
  fun w =>
    match configs with
    | [] => (Ok results_by_branch, scans, w)
    | config :: rest =>
        let branch := TARGET_BRANCH config in
        let repo_name := REPO_NAME config in
        match workspace with
        | None =>
            (Raise (TypeError
                      "expected str, bytes or os.PathLike object, not NoneType"),
             scans, w)
        | Some workspace_ =>
            let repo_dir := path_join workspace_ repo_name in
            let scan_kwargs := update (config_kwargs config) kwargs in
            match scan P main_branch_name save_scans int_of_str json_dumps
                    save_json branch repo_dir scan_kwargs scans w with
            | (Raise e, scans', w') => (Raise e, scans', w')
            | (Ok (Status rc), scans', w') =>
                (Raise (TypeError "scan returned a status"), scans', w')
            | (Ok (Report report_by_branch), scans', w') =>
                scan_multiple_pipeline_loop rest workspace kwargs
                  (results_by_branch
                   ++ [{| branch := branch; repo_dir := repo_dir;
                          report := report_by_branch |}])
                  scans' w'
            end
        end
    end.

(** [scan_multiple_pipeline(configs, pipeline_output, **kwargs)];
    [workspace] is the keyword argument of that name, [None] when it is not
    passed. *)
Definition scan_multiple_pipeline
    (configs : list pipeline_config) (pipeline_output : string)
    (workspace : option string) (kwargs : scan_kwargs)
    (scans : list saved_scan)
  : world -> result Z * list saved_scan * world :=
  fun w =>
    let kwargs := with_return_report kwargs in
    let workspace :=
      match workspace with
      | Some given => Some given
      | None => WORKSPACE
      end in
    match scan_multiple_pipeline_loop configs workspace kwargs [] scans w with
    | (Raise e, scans', w') => (Raise e, scans', w')
    | (Ok results_by_branch, scans', w') =>
        match write_pipeline_report P save_pipeline_json results_by_branch
                pipeline_output
                {| pw_raise_exceptions := None; pw_indent := None |} w' with
        | (Ok _, w'') => (Ok 0%Z, scans', w'')
        | (Raise e, w'') => (Raise e, scans', w'')
        end
    end.

End Batches.

End Orchestrator.

(** ** More inputs *)

Module Cases.

Import Scanner Orchestrator.

(** A complete repository: [git fetch --unshallow] fails there with the
    complaint as its only line of [stderr] (a [git] that prints it so), and
    succeeds without [--unshallow]. *)
Definition complete_repo_git (history : list (string * string))
    (cmd cwd : string) : result ExecRes :=
  if Py.startswith cmd "git -P fetch "
  then
    if contains "--unshallow" (Py.split " " cmd)
    then Ok {| rc := 128; stdout := []; stderr := [unshallow_complaint] |}
    else Ok {| rc := 0; stdout := []; stderr := [] |}
  else Reference.git history cmd cwd.

Definition complete_repo : platform :=
  {| strptime := Reference.strptime_iso;
     now_at := Reference.running_clock;
     abspath := fun p => ("/ws/" ++ p)%string;
     popen := complete_repo_git |}.

(** [int] on the decimal numerals without sign, which is all the examples
    need; Python's [int] reads more. *)
Definition int_of_digits (s : string) : Z + string :=
  match list_ascii_of_string s with
  | [] => inr ("invalid literal for int() with base 10: " ++ s)%string
  | cs =>
      match Reference.number 0 cs with
      | Some n => inl n
      | None => inr ("invalid literal for int() with base 10: " ++ s)%string
      end
  end.

Definition no_write_kwargs : write_kwargs :=
  {| kw_raise_exceptions := None; kw_output := None; kw_indent := None |}.

(** [scan(..., return_report=True)], as the tests call it. *)
Definition report_wanted : scan_kwargs :=
  {| kw_return_report := Some true; kw_include_main := None;
     kw_fetch_first := None; kw_save_scan := None; kw_stale := None;
     kw_write := no_write_kwargs |}.

Definition dumps_nothing (data : report_by_branch) (indent : Z)
  : result string := Ok "{}".

Definition save_nothing (data : report_by_branch) (file_path : string)
    (indent : Z) : result unit := Ok tt.

End Cases.

(* ================================================================== *)
(** * Theorems *)
(* ================================================================== *)

Example strip_line : Py.strip "  origin/feature/x " = "origin/feature/x".
Proof. reflexivity. Qed.

Example split_commit_line :
  Py.split "|" "aaaa1111|2020-01-01T00:00:00+00:00|a@x.com|fix bug"
  = ["aaaa1111"; "2020-01-01T00:00:00+00:00"; "a@x.com"; "fix bug"].
Proof. reflexivity. Qed.

Example basename_repo : PosixPath.basename "/ws/checkout/repo" = "repo".
Proof. reflexivity. Qed.

Example basename_trailing : PosixPath.basename "/ws/repo/" = "".
Proof. reflexivity. Qed.

Example str_of_int_neg : Py.str_of_int (-3) = "-3".
Proof. reflexivity. Qed.

Example strptime_iso_epoch :
  Reference.strptime_iso "1970-01-01T00:00:00+00:00" Scanner.DATE_FRMT = inl 0%Z.
Proof. reflexivity. Qed.

Example strptime_iso_2020 :
  Reference.strptime_iso "2020-01-28T11:39:03+02:00" Scanner.DATE_FRMT
  = inl 1580204343000000%Z.
Proof. reflexivity. Qed.

Import Scanner Spec.
Local Open Scope scan_scope.

Example run_filter :
  extract_stale_branches Reference.the_platform Inputs.unmerged 7 Reference.w0
  = (Ok [("origin/feature/old", [Inputs.c31; Inputs.c10]);
         ("origin/feature/empty", [])],
     advance 4 Reference.w0).
Proof. vm_compute. reflexivity. Qed.

(** ** The monad *)

Lemma bind_ok {A B} (m : M A) (k : A -> M B) w a w' :
  m w = (Ok a, w') -> bind m k w = k a w'.
Proof. intros H. unfold bind. rewrite H. reflexivity. Qed.

Lemma bind_raise {A B} (m : M A) (k : A -> M B) w e w' :
  m w = (Raise e, w') -> bind m k w = (Raise e, w').
Proof. intros H. unfold bind. rewrite H. reflexivity. Qed.

Lemma advance_0 w : advance 0 w = w.
Proof. destruct w. reflexivity. Qed.

Lemma advance_advance a b w : advance a (advance b w) = advance (a + b) w.
Proof. unfold advance. simpl. f_equal. lia. Qed.

Lemma at_reading_ticks w : at_reading (ticks w) w = w.
Proof. destruct w. reflexivity. Qed.

Lemma now_run P w :
  get_datetime_now_with_tz P w = (Ok (now_at P (ticks w)), advance 1 w).
Proof. reflexivity. Qed.

(** ** Dictionaries *)

Section DictFacts.

Context {V : Type}.
Implicit Types (d : Py.dict V) (k : string) (v : V).

Lemma get_set_eq k v d : Py.get k (Py.set k v d) = Some v.
Proof.
  induction d as [|[k' v'] d IH]; simpl.
  - rewrite String.eqb_refl. reflexivity.
  - destruct (String.eqb k' k) eqn:E; simpl; rewrite E; auto.
Qed.

Lemma get_set_ne k k' v d : k <> k' -> Py.get k' (Py.set k v d) = Py.get k' d.
Proof.
  intros Hne. induction d as [|[k0 v0] d IH]; simpl.
  - destruct (String.eqb_spec k k'); [contradiction | reflexivity].
  - destruct (String.eqb_spec k0 k) as [->|Hk0]; simpl.
    + destruct (String.eqb_spec k k'); [contradiction | reflexivity].
    + destruct (String.eqb k0 k'); auto.
Qed.

Lemma get_set k k' v d :
  Py.get k' (Py.set k v d) = if String.eqb k k' then Some v else Py.get k' d.
Proof.
  destruct (String.eqb_spec k k') as [->|Hne].
  - apply get_set_eq.
  - apply get_set_ne; assumption.
Qed.

Lemma get_None_keys k d : Py.get k d = None <-> ~ In k (Py.keys d).
Proof.
  induction d as [|[k' v'] d IH]; simpl.
  - tauto.
  - destruct (String.eqb_spec k' k) as [->|Hne].
    + split; [discriminate | intros H; exfalso; apply H; auto].
    + rewrite IH. tauto.
Qed.

Lemma get_Some_In k v d : Py.get k d = Some v -> In (k, v) d.
Proof.
  induction d as [|[k' v'] d IH]; simpl; [discriminate|].
  destruct (String.eqb_spec k' k) as [->|Hne].
  - intros [= ->]. auto.
  - auto.
Qed.

Lemma In_get_wf k v d : Py.wf d -> In (k, v) d -> Py.get k d = Some v.
Proof.
  unfold Py.wf. induction d as [|[k' v'] d IH]; simpl; [tauto|].
  intros Hnd [[= -> ->]|Hin].
  - rewrite String.eqb_refl. reflexivity.
  - inversion Hnd as [|? ? Hnotin Hnd']; subst.
    destruct (String.eqb_spec k' k) as [->|Hne].
    + exfalso. apply Hnotin. apply (in_map fst) in Hin. exact Hin.
    + auto.
Qed.

Lemma set_fresh k v d : ~ In k (Py.keys d) -> Py.set k v d = d ++ [(k, v)].
Proof.
  induction d as [|[k' v'] d IH]; simpl; [reflexivity|].
  intros Hnot. destruct (String.eqb_spec k' k) as [->|Hne].
  - exfalso. auto.
  - f_equal. apply IH. tauto.
Qed.

Lemma keys_set k v d :
  Py.keys (Py.set k v d)
  = if in_dec string_dec k (Py.keys d) then Py.keys d else Py.keys d ++ [k].
Proof.
  induction d as [|[k' v'] d IH]; simpl; [reflexivity|].
  destruct (String.eqb_spec k' k) as [->|Hne]; simpl.
  - destruct (string_dec k k); [|congruence].
    destruct (in_dec string_dec k (Py.keys d)); reflexivity.
  - rewrite IH. destruct (string_dec k' k); [contradiction|].
    destruct (in_dec string_dec k (Py.keys d)); reflexivity.
Qed.

Lemma in_keys_set k k' v d :
  In k' (Py.keys (Py.set k v d)) <-> k' = k \/ In k' (Py.keys d).
Proof.
  rewrite keys_set. destruct (in_dec string_dec k (Py.keys d)).
  - split; [auto | intros [->|]; auto].
  - rewrite in_app_iff. simpl. intuition.
Qed.

Lemma wf_set k v d : Py.wf d -> Py.wf (Py.set k v d).
Proof.
  unfold Py.wf. rewrite keys_set.
  destruct (in_dec string_dec k (Py.keys d)) as [|Hnot]; [auto|].
  intros Hnd. apply NoDup_app; [assumption | repeat constructor; simpl; tauto |].
  intros x Hx [<-|[]]. contradiction.
Qed.

Lemma set_set k v v' d : Py.set k v' (Py.set k v d) = Py.set k v' d.
Proof.
  induction d as [|[k0 v0] d IH]; simpl.
  - rewrite String.eqb_refl. reflexivity.
  - destruct (String.eqb k0 k) eqn:E; simpl; rewrite E; [reflexivity|].
    f_equal. apply IH.
Qed.

End DictFacts.

(** ** The staleness filter *)

Section Staleness.

Variable P : platform.
Variable n : Z.

Lemma date_is_older_run d w :
  date_is_older_than_n_days P d n false w
  = (Ok (is_old P (now_at P (ticks w)) n d),
     match strptime P d DATE_FRMT with
     | inl _ => advance 1 w
     | inr _ => w
     end).
Proof.
  unfold date_is_older_than_n_days, is_old.
  destruct (strptime P d DATE_FRMT); reflexivity.
Qed.

Lemma all_older_run dates : forall w,
  all_older P dates n w
  = (Ok (old_in_turn P n (ticks w) dates),
     advance (readings P n (ticks w) dates) w).
Proof.
  induction dates as [|d rest IH]; intros w; simpl.
  - rewrite advance_0. reflexivity.
  - unfold bind. rewrite date_is_older_run.
    unfold is_old at 1 3.
    destruct (strptime P d DATE_FRMT) as [dt|msg] eqn:Hd; simpl.
    + unfold is_old. rewrite Hd.
      destruct (n <=? days (now_at P (ticks w) - dt))%Z; simpl.
      * rewrite IH. simpl. rewrite advance_advance. do 3 f_equal. lia.
      * reflexivity.
    + unfold is_old. rewrite Hd. simpl. rewrite advance_0. reflexivity.
Qed.

Lemma old_in_turn_nth dates : forall k,
  old_in_turn P n k dates = true <->
  (forall i d, nth_error dates i = Some d ->
               is_old P (now_at P (k + i)) n d = true).
Proof.
  induction dates as [|d rest IH]; intros k; simpl.
  - split; [|reflexivity]. intros _ [|i] d'; discriminate.
  - rewrite andb_true_iff, IH. split.
    + intros [Hd Hrest] [|i] d'; simpl.
      * intros [= <-]. rewrite Nat.add_0_r. exact Hd.
      * intros Hi. replace (k + S i) with (S k + i) by lia. auto.
    + intros H. split.
      * specialize (H 0 d eq_refl). rewrite Nat.add_0_r in H. exact H.
      * intros i d' Hi. replace (S k + i) with (k + S i) by lia.
        apply H. exact Hi.
Qed.

Lemma extract_stale_branches_loop_run items : forall acc w,
  extract_stale_branches_loop P items n acc w
  = (Ok (fold_left (keep P n) (schedule P n (ticks w) items) acc),
     at_reading (final_reading P n (ticks w) items) w).
Proof.
  induction items as [|[b commits] rest IH]; intros acc w; simpl.
  - rewrite at_reading_ticks. reflexivity.
  - unfold bind. rewrite all_older_run. unfold keep at 2. simpl.
    destruct (old_in_turn P n (ticks w) (map date commits)); simpl;
      rewrite IH; reflexivity.
Qed.

Lemma schedule_keys d : forall k,
  map (fun e => fst (snd e)) (schedule P n k d) = Py.keys d.
Proof.
  induction d as [|[b commits] rest IH]; intros k; simpl; [reflexivity|].
  f_equal. apply IH.
Qed.

Lemma schedule_entries d : forall k, map snd (schedule P n k d) = d.
Proof.
  induction d as [|[b commits] rest IH]; intros k; simpl; [reflexivity|].
  f_equal. apply IH.
Qed.

Lemma fold_keep_filter sched : forall acc,
  NoDup (Py.keys acc ++ map (fun e => fst (snd e)) sched) ->
  fold_left (keep P n) sched acc
  = acc ++ map snd
             (filter (fun e => old_in_turn P n (fst e) (map date (snd (snd e))))
                sched).
Proof.
  induction sched as [|[k [b commits]] rest IH]; intros acc Hnd; simpl.
  - rewrite app_nil_r. reflexivity.
  - simpl in Hnd. unfold keep at 2. simpl.
    destruct (old_in_turn P n k (map date commits)).
    + rewrite IH.
      * rewrite set_fresh.
        -- rewrite <- app_assoc. reflexivity.
        -- apply NoDup_remove_2 in Hnd. intros Hin. apply Hnd.
           apply in_or_app. left. exact Hin.
      * rewrite set_fresh.
        -- unfold Py.keys. rewrite map_app. simpl. rewrite <- app_assoc.
           exact Hnd.
        -- apply NoDup_remove_2 in Hnd. intros Hin. apply Hnd.
           apply in_or_app. left. exact Hin.
    + apply IH. apply NoDup_remove_1 in Hnd. exact Hnd.
Qed.

Lemma extract_stale_branches_run d w :
  Py.wf d ->
  extract_stale_branches P d n w
  = (Ok (map snd
           (filter (fun e => old_in_turn P n (fst e) (map date (snd (snd e))))
              (schedule P n (ticks w) d))),
     at_reading (final_reading P n (ticks w) d) w).
Proof.
  intros Hwf. unfold extract_stale_branches.
  rewrite extract_stale_branches_loop_run, fold_keep_filter.
  - reflexivity.
  - simpl. rewrite schedule_keys. exact Hwf.
Qed.

End Staleness.

Lemma forallb_dates (f : string -> bool) (commits : list COMMIT_DETAILS) :
  forallb f (map date commits) = forallb (fun c => f (date c)) commits.
Proof.
  induction commits as [|c rest IH]; simpl; [reflexivity|].
  rewrite IH. reflexivity.
Qed.

(** With a clock that stands still the schedule does not matter. *)
Lemma old_in_turn_frozen P n now dates :
  (forall k, now_at P k = now) ->
  forall k, old_in_turn P n k dates = forallb (is_old P now n) dates.
Proof.
  intros Hnow. induction dates as [|d rest IH]; intros k; simpl.
  - reflexivity.
  - rewrite Hnow, IH. reflexivity.
Qed.

Lemma filter_schedule_frozen P n now d :
  (forall k, now_at P k = now) ->
  forall k,
    map snd
      (filter (fun e => old_in_turn P n (fst e) (map date (snd (snd e))))
         (schedule P n k d))
    = filter (fun e => all_old P now n (snd e)) d.
Proof.
  intros Hnow. induction d as [|[b commits] rest IH]; intros k; simpl.
  - reflexivity.
  - rewrite (old_in_turn_frozen P n _ Hnow). unfold all_old at 1.
    rewrite forallb_dates.
    destruct (forallb (fun c => is_old P now n (date c)) commits); simpl;
      rewrite IH; reflexivity.
Qed.

(** The all-commits-old rule at a single [now], for a clock that returns
    [now] at every reading. *)
Lemma extract_stale_branches_frozen P n now d w :
  (forall k, now_at P k = now) ->
  Py.wf d ->
  exists w',
    extract_stale_branches P d n w
    = (Ok (filter (fun e => all_old P now n (snd e)) d), w').
Proof.
  intros Hnow Hwf. eexists.
  rewrite extract_stale_branches_run by assumption.
  rewrite (filter_schedule_frozen P n d Hnow). reflexivity.
Qed.

(** C1, amended.  The filter always returns, and it keeps a branch if and
    only if every one of its commits is old at the reading of the clock taken
    for that commit: the clock is read once for each commit examined, so the
    commit at position [i] of a branch whose examination starts at reading
    [k] is judged at reading [k + i].  A branch without commits is kept, and
    a branch with a commit that is not old at its reading is dropped. *)
Theorem extract_stale_branches_keeps P n d w :
  Py.wf d ->
  exists out,
    extract_stale_branches P d n w
    = (Ok out, at_reading (final_reading P n (ticks w) d) w) /\
    forall b commits,
      In (b, commits) out <->
      exists k,
        In (k, (b, commits)) (schedule P n (ticks w) d) /\
        forall i c, nth_error commits i = Some c ->
                    is_old P (now_at P (k + i)) n (date c) = true.
Proof.
  intros Hwf. eexists. split.
  - apply extract_stale_branches_run. exact Hwf.
  - intros b commits. rewrite in_map_iff. split.
    + intros [[k [b' commits']] [Heq Hin]]. simpl in Heq.
      injection Heq as -> ->. apply filter_In in Hin as [Hin Hold].
      simpl in Hold. exists k. split; [exact Hin|].
      intros i c Hi. rewrite old_in_turn_nth in Hold.
      apply Hold. rewrite nth_error_map, Hi. reflexivity.
    + intros [k [Hin Hold]]. exists (k, (b, commits)). split; [reflexivity|].
      apply filter_In. split; [exact Hin|]. simpl.
      apply old_in_turn_nth. intros i d' Hi.
      rewrite nth_error_map in Hi.
      destruct (nth_error commits i) as [c|] eqn:Hc; [|discriminate].
      injection Hi as <-. apply Hold. exact Hc.
Qed.

Lemma distinct_NoDup l : distinct l = true -> NoDup l.
Proof.
  induction l as [|x rest IH]; simpl; intros H; constructor.
  - apply andb_true_iff in H as [H _]. apply negb_true_iff in H.
    intros Hin. assert (existsb (String.eqb x) rest = true) as E.
    { apply existsb_exists. exists x. split; [exact Hin | apply String.eqb_refl]. }
    congruence.
  - apply andb_true_iff in H as [_ H]. auto.
Qed.

Lemma distinct_wf {V} (d : Py.dict V) : distinct (Py.keys d) = true -> Py.wf d.
Proof. apply distinct_NoDup. Qed.

Lemma extract_stale_branches_keeps_witness :
  Py.wf Inputs.unmerged /\
  exists out,
    extract_stale_branches Reference.the_platform Inputs.unmerged 7 Reference.w0
    = (Ok out,
       at_reading
         (final_reading Reference.the_platform 7 (ticks Reference.w0)
            Inputs.unmerged) Reference.w0) /\
    forall b commits,
      In (b, commits) out <->
      exists k,
        In (k, (b, commits))
          (schedule Reference.the_platform 7 (ticks Reference.w0)
             Inputs.unmerged) /\
        forall i c, nth_error commits i = Some c ->
                    is_old Reference.the_platform
                      (now_at Reference.the_platform (k + i)) 7 (date c) = true.
Proof.
  assert (H : Py.wf Inputs.unmerged) by (apply distinct_wf; reflexivity).
  split.
  - exact H.
  - exact (extract_stale_branches_keeps Reference.the_platform 7 Reference.w0 H).
Defined.

(** C1 as stated fails: of two branches holding the same single commit, the
    filter drops the one examined first and keeps the one examined a
    millisecond later, which no single [now] accounts for. *)
Lemma extract_stale_branches_not_single_now :
  exists out w',
    extract_stale_branches Reference.the_platform Inputs.twins 7 Reference.w0
    = (Ok out, w') /\
    ~ exists now,
        forall b commits,
          In (b, commits) out <->
          In (b, commits) Inputs.twins /\
          all_old Reference.the_platform now 7 commits = true.
Proof.
  eexists. eexists. split; [vm_compute; reflexivity|].
  intros [now Hnow].
  assert (Hlate : all_old Reference.the_platform now 7 [Inputs.c7] = true).
  { apply (Hnow "origin/feature/late" [Inputs.c7]). left. reflexivity. }
  assert (Hearly : In ("origin/feature/early", [Inputs.c7])
                     [("origin/feature/late", [Inputs.c7])]).
  { apply Hnow. split; [left; reflexivity | exact Hlate]. }
  destruct Hearly as [Heq|[]]. discriminate Heq.
Qed.

(** The same within one branch: the second commit is younger than seven days
    at the reading the filter starts with, and the branch is kept. *)
Example extract_stale_branches_edge :
  exists out w',
    extract_stale_branches Reference.the_platform Inputs.on_the_edge 7
      Reference.w0 = (Ok out, w') /\
    In ("origin/feature/edge", [Inputs.c31; Inputs.c7]) out /\
    all_old Reference.the_platform
      (now_at Reference.the_platform (ticks Reference.w0)) 7
      [Inputs.c31; Inputs.c7] = false.
Proof.
  eexists. eexists. split; [vm_compute; reflexivity|].
  split; [left; reflexivity | vm_compute; reflexivity].
Qed.

(** With a clock that stands still the twins share their fate. *)
Example extract_stale_branches_twins_frozen :
  exists w',
    extract_stale_branches (Reference.frozen_platform Reference.t0)
      Inputs.twins 7 Reference.w0 = (Ok [], w').
Proof.
  destruct (@extract_stale_branches_frozen
              (Reference.frozen_platform Reference.t0) 7 Reference.t0
              Inputs.twins Reference.w0)
    as [w' Hrun]; [reflexivity | apply distinct_wf; reflexivity |].
  exists w'. exact Hrun.
Qed.

(** A branch whose commit list is empty passes. *)
Lemma extract_stale_branches_empty_passes P n b w :
  exists w', extract_stale_branches P [(b, [])] n w = (Ok [(b, [])], w').
Proof. eexists. reflexivity. Qed.

(** Ages [[10; 3]] days and a threshold of 7: the branch is dropped although
    its older commit qualifies. *)
Example extract_stale_branches_10_3 :
  exists w',
    extract_stale_branches Reference.the_platform
      [("origin/feature/mixed", [Inputs.c10; Inputs.c3])] 7 Reference.w0
    = (Ok [], w').
Proof. eexists. vm_compute. reflexivity. Qed.

(** ** Timestamps that do not parse *)

(** C3.  A timestamp that does not parse is reported as not old, whatever the
    threshold, and the clock is not read; the [ValueError] of the parser is
    raised instead when [raise_exceptions] is set, and in no other case does
    [date_is_older_than_n_days] raise. *)
Theorem date_is_older_than_n_days_unparseable
    P date_ n_days raise_exceptions w :
  (forall msg,
      strptime P date_ DATE_FRMT = inr msg ->
      date_is_older_than_n_days P date_ n_days raise_exceptions w
      = (if raise_exceptions then Raise (ValueError msg) else Ok false, w)) /\
  (forall e w',
      date_is_older_than_n_days P date_ n_days raise_exceptions w
      = (Raise e, w') ->
      raise_exceptions = true /\
      exists msg, strptime P date_ DATE_FRMT = inr msg /\ e = ValueError msg).
Proof.
  unfold date_is_older_than_n_days. split.
  - intros msg ->. destruct raise_exceptions; reflexivity.
  - intros e w'. destruct (strptime P date_ DATE_FRMT) as [dt|msg].
    + discriminate.
    + destruct raise_exceptions; [|discriminate].
      intros [= <- <-]. split; [reflexivity|]. exists msg. auto.
Qed.

Lemma date_is_older_than_n_days_unparseable_witness :
  strptime Reference.the_platform "2020-01-28T11:39:03" DATE_FRMT
  = inr (Reference.mismatch "2020-01-28T11:39:03" DATE_FRMT) /\
  date_is_older_than_n_days Reference.the_platform "2020-01-28T11:39:03" 7
    false Reference.w0 = (Ok false, Reference.w0) /\
  date_is_older_than_n_days Reference.the_platform "2020-01-28T11:39:03" 7
    true Reference.w0
  = (Raise (ValueError (Reference.mismatch "2020-01-28T11:39:03" DATE_FRMT)),
     Reference.w0).
Proof.
  split; [reflexivity|]. split.
  - exact (proj1 (date_is_older_than_n_days_unparseable Reference.the_platform
                    "2020-01-28T11:39:03" 7 false Reference.w0) _ eq_refl).
  - exact (proj1 (date_is_older_than_n_days_unparseable Reference.the_platform
                    "2020-01-28T11:39:03" 7 true Reference.w0) _ eq_refl).
Defined.

Example date_only_not_old :
  date_is_older_than_n_days Reference.the_platform "2020-01-28" 0 false
    Reference.w0 = (Ok false, Reference.w0).
Proof. reflexivity. Qed.

Example time_only_not_old :
  date_is_older_than_n_days Reference.the_platform "11:39:03" 0 false
    Reference.w0 = (Ok false, Reference.w0).
Proof. reflexivity. Qed.

(** ** Identifiers with whitespace *)

Lemma assert_no_whitespace_pass text message :
  Py.any_whitespace text = false ->
  assert_no_whitespace text message = ret tt.
Proof. intros H. unfold assert_no_whitespace. rewrite H. reflexivity. Qed.

Lemma assert_no_whitespace_fail text message :
  Py.any_whitespace text = true ->
  assert_no_whitespace text message
  = raise (AssertionError (or_else message text)).
Proof. intros H. unfold assert_no_whitespace. rewrite H. reflexivity. Qed.

Lemma or_else_whitespace x default :
  Py.any_whitespace x = true -> or_else x default = x.
Proof.
  unfold or_else. destruct (String.eqb_spec x ""); [|reflexivity].
  subst. simpl. discriminate.
Qed.

Lemma parse_commits_world lines : forall w, snd (parse_commits lines w) = w.
Proof.
  induction lines as [|line rest IH]; intros w; simpl; [reflexivity|].
  unfold bind, parse_commit.
  destruct (Py.split "|" (Py.strip line)) as [|h [|d [|a [|s [|]]]]];
    try reflexivity.
  unfold ret at 1. specialize (IH w).
  destruct (parse_commits rest w) as [[cs|e] w']; simpl in *; exact IH.
Qed.

(** C2.  Branch discovery and divergence reading raise an [AssertionError]
    and leave the world as it was, in particular without having run any
    command, as soon as a branch name or the repository path they are given
    holds a whitespace character.  When none of the identifiers holds one,
    the assertion passes and the listing command is handed to the shell. *)
Theorem whitespace_rejected_before_any_command P main_branch_name w :
  (forall branch repo_dir include_main,
      Py.any_whitespace branch = true \/ Py.any_whitespace repo_dir = true ->
      exists msg,
        get_list_of_unmerged_branches P main_branch_name branch repo_dir
          include_main w = (Raise (AssertionError msg), w)) /\
  (forall source_branch target_branch repo_dir,
      Py.any_whitespace source_branch = true \/
      Py.any_whitespace target_branch = true \/
      Py.any_whitespace repo_dir = true ->
      exists msg,
        get_list_of_unmerged_commits P source_branch target_branch repo_dir w
        = (Raise (AssertionError msg), w)) /\
  (forall text message,
      Py.any_whitespace text = false ->
      assert_no_whitespace text message w = (Ok tt, w)) /\
  (forall branch repo_dir include_main,
      Py.any_whitespace (or_else branch main_branch_name) = false ->
      Py.any_whitespace repo_dir = false ->
      executed
        (snd (get_list_of_unmerged_branches P main_branch_name branch repo_dir
                include_main w))
      = executed w
        ++ [(("git -P branch -r --no-merged "
              ++ with_origin (or_else branch main_branch_name))%string,
             abspath P repo_dir)]) /\
  (forall source_branch target_branch repo_dir,
      Py.any_whitespace source_branch = false ->
      Py.any_whitespace target_branch = false ->
      Py.any_whitespace repo_dir = false ->
      executed
        (snd (get_list_of_unmerged_commits P source_branch target_branch
                repo_dir w))
      = executed w
        ++ [(("git -P log " ++ with_origin source_branch ++ " --not "
              ++ with_origin target_branch ++ " --format=" ++ dquote
              ++ "%H|%aI|%aE|%s" ++ dquote)%string,
             abspath P repo_dir)]).
Proof.
  repeat split.
  - intros branch repo_dir include_main Hws.
    unfold get_list_of_unmerged_branches.
    destruct (Py.any_whitespace (or_else branch main_branch_name)) eqn:Hb.
    + rewrite (assert_no_whitespace_fail _ _ Hb). eexists. reflexivity.
    + rewrite (assert_no_whitespace_pass _ _ Hb).
      destruct Hws as [Hws|Hws].
      * rewrite (or_else_whitespace _ _ Hws) in Hb. congruence.
      * rewrite (assert_no_whitespace_fail _ _ Hws). eexists. reflexivity.
  - intros source_branch target_branch repo_dir Hws.
    unfold get_list_of_unmerged_commits.
    destruct (Py.any_whitespace source_branch) eqn:Hs.
    { rewrite (assert_no_whitespace_fail _ _ Hs). eexists. reflexivity. }
    rewrite (assert_no_whitespace_pass _ _ Hs).
    destruct (Py.any_whitespace target_branch) eqn:Ht.
    { rewrite (assert_no_whitespace_fail _ _ Ht). eexists. reflexivity. }
    rewrite (assert_no_whitespace_pass _ _ Ht).
    destruct Hws as [Hws|[Hws|Hws]]; try discriminate.
    rewrite (assert_no_whitespace_fail _ _ Hws). eexists. reflexivity.
  - intros text message H. rewrite (assert_no_whitespace_pass _ _ H).
    reflexivity.
  - intros branch repo_dir include_main Hb Hr.
    unfold get_list_of_unmerged_branches.
    rewrite (assert_no_whitespace_pass _ _ Hb).
    rewrite (assert_no_whitespace_pass _ _ Hr).
    unfold bind, ret, git_exec. simpl.
    destruct (popen P (executed w) _ _); reflexivity.
  - intros source_branch target_branch repo_dir Hs Ht Hr.
    unfold get_list_of_unmerged_commits.
    rewrite (assert_no_whitespace_pass _ _ Hs).
    rewrite (assert_no_whitespace_pass _ _ Ht).
    rewrite (assert_no_whitespace_pass _ _ Hr).
    unfold bind at 1 2 3. unfold ret at 1 2 3.
    unfold bind, git_exec. simpl.
    destruct (popen P (executed w) _ _) as [res|e]; [|reflexivity].
    rewrite parse_commits_world. reflexivity.
Qed.

Lemma whitespace_rejected_before_any_command_witness :
  Py.any_whitespace "Bad Branch" = true /\
  (exists msg,
      get_list_of_unmerged_branches Reference.the_platform "main" "Bad Branch"
        "." false Reference.w0 = (Raise (AssertionError msg), Reference.w0)) /\
  (exists msg,
      get_list_of_unmerged_commits Reference.the_platform "origin/feature/x"
        "Bad Branch" "." Reference.w0
      = (Raise (AssertionError msg), Reference.w0)) /\
  executed
    (snd (get_list_of_unmerged_branches Reference.the_platform "main" ""
            "repo" false Reference.w0))
  = [("git -P branch -r --no-merged origin/main", "/ws/repo")].
Proof.
  pose proof (whitespace_rejected_before_any_command Reference.the_platform
                "main" Reference.w0) as (Hb & Hc & _ & Hrun & _).
  split; [reflexivity|]. split; [|split].
  - apply Hb. left. reflexivity.
  - apply Hc. right. left. reflexivity.
  - apply (Hrun "" "repo" false); reflexivity.
Defined.

(** ** The post-filter of branch discovery *)

Lemma filter_ext_bool {A} (f g : A -> bool) l :
  (forall x, f x = g x) -> filter f l = filter g l.
Proof.
  intros H. induction l as [|x rest IH]; simpl; [reflexivity|].
  rewrite H, IH. reflexivity.
Qed.

(** C4, amended.  Of the stripped lines of the branch listing, branch
    discovery drops those that hold a whitespace character and, unless
    [include_main] is set, the line [origin/<main_branch_name>] naming the
    scanner's main branch, whichever integration branch was asked for; the
    other lines are returned in the order of the listing. *)
Theorem get_list_of_unmerged_branches_filter
    P main_branch_name branch repo_dir include_main w res :
  Py.any_whitespace (or_else branch main_branch_name) = false ->
  Py.any_whitespace repo_dir = false ->
  popen P (executed w)
    ("git -P branch -r --no-merged "
     ++ with_origin (or_else branch main_branch_name))%string
    (abspath P repo_dir) = Ok res ->
  exists w',
    get_list_of_unmerged_branches P main_branch_name branch repo_dir
      include_main w
    = (Ok (filter
             (fun b =>
                negb (Py.any_whitespace b)
                && (include_main
                    || negb (String.eqb b ("origin/" ++ main_branch_name))))
             (map Py.strip (stdout res))),
       w').
Proof.
  intros Hb Hr Hres. unfold get_list_of_unmerged_branches.
  rewrite (assert_no_whitespace_pass _ _ Hb).
  rewrite (assert_no_whitespace_pass _ _ Hr).
  unfold bind, ret, git_exec. cbv beta. rewrite Hres. eexists. f_equal. f_equal.
  apply filter_ext_bool. intros b. unfold branch_filter.
  destruct (Py.any_whitespace b), include_main,
    (String.eqb b ("origin/" ++ main_branch_name)); reflexivity.
Qed.

Lemma get_list_of_unmerged_branches_filter_witness :
  exists w',
    get_list_of_unmerged_branches Reference.the_platform "main" "" "repo"
      false Reference.w0 = (Ok ["origin/feature/x"], w').
Proof.
  exact (get_list_of_unmerged_branches_filter Reference.the_platform "main" ""
           "repo" false Reference.w0 (res := Reference.listing)
           eq_refl eq_refl eq_refl).
Defined.

(** C4 as stated fails: scanning against [development], the listing line
    [origin/main], which holds no whitespace and is not the integration
    branch's own name, is dropped all the same. *)
Lemma get_list_of_unmerged_branches_drops_main :
  exists w',
    get_list_of_unmerged_branches Reference.the_platform "main" "development"
      "repo" false Reference.w0 = (Ok ["origin/feature/x"], w') /\
    In "origin/main" (map Py.strip (stdout Reference.listing)) /\
    Py.any_whitespace "origin/main" = false /\
    "origin/main" <> with_origin "development".
Proof.
  eexists. split; [vm_compute; reflexivity|].
  split; [vm_compute; auto|]. split; [reflexivity | discriminate].
Qed.

(** With [include_main] set the main branch stays in the list. *)
Example get_list_of_unmerged_branches_include_main :
  fst (get_list_of_unmerged_branches Reference.the_platform "main"
         "development" "repo" true Reference.w0)
  = Ok ["origin/feature/x"; "origin/main"].
Proof. vm_compute. reflexivity. Qed.

Example get_list_of_unmerged_commits_parses :
  fst (get_list_of_unmerged_commits Reference.the_platform "origin/feature/x"
         "main" "repo" Reference.w0)
  = Ok [{| hash := "aaaa1111"; date := "2020-01-01T12:00:00+00:00";
           author := "a@x.com"; subject := "fix bug" |};
        {| hash := "bbbb2222"; date := "2020-01-22T11:00:00+00:00";
           author := "b@x.com"; subject := "wip" |}].
Proof. vm_compute. reflexivity. Qed.

(** ** Pivot by repository *)

Section ByRepo.

Lemma by_repo_step_same acc r :
  read_back (repo_dir r) (branch r) (by_repo_step acc r) = Some (report r).
Proof.
  unfold by_repo_step, Py.setdefault, read_back.
  destruct (Py.get (repo_dir r) acc) as [repo_dict|]; cbv beta iota zeta;
    rewrite get_set_eq; apply get_set_eq.
Qed.

Lemma by_repo_step_other acc r repo b :
  grouping_key r <> (repo, b) ->
  read_back repo b (by_repo_step acc r) = read_back repo b acc.
Proof.
  intros Hne. unfold by_repo_step, Py.setdefault, read_back.
  destruct (String.eqb_spec (repo_dir r) repo) as [<-|Hrepo].
  - assert (branch r <> b) as Hb.
    { intros <-. apply Hne. reflexivity. }
    destruct (Py.get (repo_dir r) acc) as [repo_dict|] eqn:Hget;
      cbv beta iota zeta.
    + rewrite get_set_eq. apply get_set_ne. exact Hb.
    + rewrite get_set_eq. rewrite get_set_ne by exact Hb. reflexivity.
  - destruct (Py.get (repo_dir r) acc) as [repo_dict|] eqn:Hget;
      cbv beta iota zeta.
    + rewrite get_set_ne by exact Hrepo. reflexivity.
    + rewrite !get_set_ne by exact Hrepo. reflexivity.
Qed.

Lemma by_repo_fold_others rs : forall acc repo b,
  ~ In (repo, b) (map grouping_key rs) ->
  read_back repo b (fold_left by_repo_step rs acc) = read_back repo b acc.
Proof.
  induction rs as [|r rest IH]; intros acc repo b Hnot; simpl.
  - reflexivity.
  - rewrite IH.
    + apply by_repo_step_other. intros Heq. apply Hnot. left. exact Heq.
    + intros Hin. apply Hnot. right. exact Hin.
Qed.

(** C7.  When no two records share their pair of repository location and
    branch, pivoting by repository and reading back the entry under a
    record's location and branch gives that record's report. *)
Theorem aggregate_scan_results_by_repo_round_trip rs r :
  NoDup (map grouping_key rs) ->
  In r rs ->
  read_back (repo_dir r) (branch r) (aggregate_scan_results_by_repo rs)
  = Some (report r).
Proof.
  unfold aggregate_scan_results_by_repo.
  generalize (@nil (string * Py.dict report_by_branch)).
  induction rs as [|r0 rest IH]; intros acc Hnd Hin; simpl.
  - contradiction.
  - simpl in Hnd. inversion Hnd as [|? ? Hnotin Hnd']; subst.
    destruct Hin as [->|Hin].
    + rewrite by_repo_fold_others by exact Hnotin.
      apply by_repo_step_same.
    + apply IH; assumption.
Qed.

End ByRepo.

Lemma aggregate_scan_results_by_repo_round_trip_witness :
  read_back "/ws/beta" "development"
    (aggregate_scan_results_by_repo
       [Inputs.scan_alpha; Inputs.scan_beta; Inputs.scan_fresh])
  = Some Inputs.one_branch.
Proof.
  apply (aggregate_scan_results_by_repo_round_trip
           [Inputs.scan_alpha; Inputs.scan_beta; Inputs.scan_fresh]
           Inputs.scan_beta).
  - repeat constructor; simpl; intuition discriminate.
  - simpl. auto.
Defined.

Example aggregate_scan_results_by_repo_shape :
  aggregate_scan_results_by_repo
    [Inputs.scan_alpha; Inputs.scan_beta; Inputs.scan_fresh]
  = [("/ws/alpha", [("main", Inputs.two_branches)]);
     ("/ws/beta", [("development", Inputs.one_branch)]);
     ("/ws/aardvark", [("main", [])])].
Proof. reflexivity. Qed.

(** ** Pivot by author *)

Lemma last_cons_default {A} (l : list A) : forall x d,
  last (x :: l) d = last l x.
Proof.
  induction l as [|y rest IH]; intros x d; [reflexivity|].
  change (last (x :: y :: rest) d) with (last (y :: rest) d).
  rewrite !IH. reflexivity.
Qed.

Section ByEmail.

Variables repo target : string.

Lemma by_email_step_set acc a cs :
  by_email_step repo target acc (a, cs)
  = Py.set a
      (place repo target cs
         (match Py.get a acc with Some ad => ad | None => [] end))
      acc.
Proof.
  unfold by_email_step, place, Py.setdefault.
  destruct (Py.get a acc) as [ad|]; cbv beta iota zeta.
  - destruct (Py.get repo ad) as [rd|]; cbv beta iota zeta.
    + reflexivity.
    + rewrite set_set. reflexivity.
  - simpl. rewrite String.eqb_refl. rewrite set_set. reflexivity.
Qed.

Lemma by_email_step_get acc a' cs a :
  Py.get a (by_email_step repo target acc (a', cs))
  = if String.eqb a' a then place_in repo target (Py.get a acc) cs
    else Py.get a acc.
Proof.
  rewrite by_email_step_set, get_set.
  destruct (String.eqb_spec a' a) as [->|]; reflexivity.
Qed.

Lemma by_email_authors_get a cba : forall acc,
  Py.get a (by_email_authors repo target acc cba)
  = fold_left (place_in repo target)
      (map snd (filter (fun g => String.eqb (fst g) a) cba))
      (Py.get a acc).
Proof.
  unfold by_email_authors.
  induction cba as [|[a' cs] rest IH]; intros acc; [reflexivity|].
  cbn [fold_left filter fst]. rewrite IH, by_email_step_get.
  destruct (String.eqb a' a); reflexivity.
Qed.

Lemma by_email_branches_get a rep : forall acc,
  Py.get a (by_email_branches repo target acc rep)
  = fold_left (place_in repo target) (groups_of a rep) (Py.get a acc).
Proof.
  unfold by_email_branches, groups_of.
  induction rep as [|[b cba] rest IH]; intros acc; [reflexivity|].
  cbn [fold_left flat_map snd].
  rewrite IH, by_email_authors_get, fold_left_app. reflexivity.
Qed.

Lemma place_place cs cs' ad :
  place repo target cs' (place repo target cs ad) = place repo target cs' ad.
Proof.
  unfold place. rewrite get_set_eq, !set_set. reflexivity.
Qed.

Lemma fold_place_in_last gs : forall g entry,
  fold_left (place_in repo target) gs (place_in repo target entry g)
  = place_in repo target entry (last gs g).
Proof.
  induction gs as [|g' rest IH]; intros g entry; [reflexivity|].
  cbn [fold_left]. unfold place_in at 2 3. rewrite place_place.
  change (Some (place repo target g'
                  match entry with Some ad => ad | None => [] end))
    with (place_in repo target entry g').
  rewrite IH, last_cons_default. reflexivity.
Qed.

End ByEmail.

Lemma by_email_record_get a r acc g gs :
  groups_of a (report r) = g :: gs ->
  Py.get a (by_email_branches (repo_dir r) (branch r) acc (report r))
  = place_in (repo_dir r) (branch r) (Py.get a acc) (last gs g).
Proof.
  intros Hg. rewrite by_email_branches_get, Hg. cbn [fold_left].
  apply fold_place_in_last.
Qed.

Lemma wf_by_email_step repo target acc item :
  Py.wf acc -> Py.wf (by_email_step repo target acc item).
Proof.
  destruct item as [a cs]. rewrite by_email_step_set. apply wf_set.
Qed.

Lemma wf_by_email_branches repo target rep : forall acc,
  Py.wf acc -> Py.wf (by_email_branches repo target acc rep).
Proof.
  unfold by_email_branches, by_email_authors.
  induction rep as [|[b cba] rest IH]; intros acc Hwf; simpl; [assumption|].
  apply IH. clear IH. revert acc Hwf.
  induction cba as [|item cba IH]; intros acc Hwf; simpl; [assumption|].
  apply IH. apply wf_by_email_step. exact Hwf.
Qed.

Lemma wf_aggregate_scan_results_by_email rs :
  Py.wf (aggregate_scan_results_by_email rs).
Proof.
  unfold aggregate_scan_results_by_email.
  assert (forall acc : Py.dict (Py.dict (Py.dict (list commit_dict))),
             Py.wf acc ->
             Py.wf (fold_left
                      (fun results_by_email result_by_branch =>
                         by_email_branches (repo_dir result_by_branch)
                           (branch result_by_branch) results_by_email
                           (report result_by_branch)) rs acc)) as H.
  { induction rs as [|r rest IH]; intros acc Hwf; simpl; [assumption|].
    apply IH. apply wf_by_email_branches. exact Hwf. }
  apply H. constructor.
Qed.

(** C8, amended.  Two records with different repository locations whose
    reports both list commits by the same author: the pivot by author holds
    one entry for the author (no key of the result occurs twice), and that
    entry holds two repository keys, in the order of the records, each with
    one key, the integration branch of its record, and under it the commit
    list the author has in the last branch of the record's report that
    lists the author. *)
Theorem aggregate_scan_results_by_email_two_repos r1 r2 a g1 gs1 g2 gs2 :
  repo_dir r1 <> repo_dir r2 ->
  groups_of a (report r1) = g1 :: gs1 ->
  groups_of a (report r2) = g2 :: gs2 ->
  Py.wf (aggregate_scan_results_by_email [r1; r2]) /\
  Py.get a (aggregate_scan_results_by_email [r1; r2])
  = Some [(repo_dir r1, [(branch r1, last gs1 g1)]);
          (repo_dir r2, [(branch r2, last gs2 g2)])].
Proof.
  intros Hne H1 H2. split; [apply wf_aggregate_scan_results_by_email|].
  unfold aggregate_scan_results_by_email. cbn [fold_left].
  rewrite (by_email_record_get _ _ _ H2), (by_email_record_get _ _ _ H1).
  unfold place_in, place. simpl.
  destruct (String.eqb_spec (repo_dir r1) (repo_dir r2)); [contradiction|].
  reflexivity.
Qed.

Lemma aggregate_scan_results_by_email_two_repos_witness :
  Py.wf (aggregate_scan_results_by_email [Inputs.scan_alpha; Inputs.scan_beta])
  /\
  Py.get "a@x.com"
    (aggregate_scan_results_by_email [Inputs.scan_alpha; Inputs.scan_beta])
  = Some [("/ws/alpha", [("main", [Inputs.e20])]);
          ("/ws/beta", [("development", [Inputs.e20])])].
Proof.
  apply (aggregate_scan_results_by_email_two_repos
           Inputs.scan_alpha Inputs.scan_beta "a@x.com"
           (g1 := [Inputs.e31; Inputs.e10]) (gs1 := [[Inputs.e20]])
           (g2 := [Inputs.e20]) (gs2 := [])).
  - discriminate.
  - reflexivity.
  - reflexivity.
Defined.

(** C8 as stated fails: in the record of [/ws/alpha] the author has the
    commits of two stale branches, and the repository key of the pivot holds
    those of the second branch only; the commit made 31 days ago is among
    the author's commits from the record and nowhere under the key. *)
Lemma aggregate_scan_results_by_email_drops_commits :
  repo_dir Inputs.scan_alpha <> repo_dir Inputs.scan_beta /\
  commits_by "a@x.com" (report Inputs.scan_alpha)
  = [Inputs.e31; Inputs.e10; Inputs.e20] /\
  commits_by "a@x.com" (report Inputs.scan_beta) = [Inputs.e20] /\
  exists author_dict,
    Py.get "a@x.com"
      (aggregate_scan_results_by_email [Inputs.scan_alpha; Inputs.scan_beta])
    = Some author_dict /\
    Py.get "/ws/alpha" author_dict = Some [("main", [Inputs.e20])] /\
    ~ In Inputs.e31 [Inputs.e20].
Proof.
  split; [discriminate|]. split; [reflexivity|]. split; [reflexivity|].
  eexists. split; [reflexivity|]. split; [reflexivity|].
  intros [H|[]]. discriminate H.
Qed.

(** C9.  For a single record, the entry of an author holds one repository
    key, and under it one key only, the record's integration branch; the
    commit list found there is that of the last branch of the report that
    lists the author, the lists of the branches before it having been
    overwritten. *)
Theorem aggregate_scan_results_by_email_last_branch r a g gs :
  groups_of a (report r) = g :: gs ->
  Py.get a (aggregate_scan_results_by_email [r])
  = Some [(repo_dir r, [(branch r, last gs g)])].
Proof.
  intros Hg. unfold aggregate_scan_results_by_email. cbn [fold_left].
  rewrite (by_email_record_get _ _ _ Hg). reflexivity.
Qed.

Lemma aggregate_scan_results_by_email_last_branch_witness :
  Py.get "a@x.com" (aggregate_scan_results_by_email [Inputs.scan_alpha])
  = Some [("/ws/alpha", [("main", [Inputs.e20])])].
Proof.
  apply (aggregate_scan_results_by_email_last_branch Inputs.scan_alpha
           "a@x.com" (g := [Inputs.e31; Inputs.e10]) (gs := [[Inputs.e20]])).
  reflexivity.
Defined.

(** The whole pivot of the record with two stale branches: the commits of
    [origin/feature/old] are gone, and no stale branch is named. *)
Example aggregate_scan_results_by_email_alpha :
  aggregate_scan_results_by_email [Inputs.scan_alpha]
  = [("a@x.com", [("/ws/alpha", [("main", [Inputs.e20])])]);
     ("b@x.com", [("/ws/alpha", [("main", [Inputs.e31])])])].
Proof. reflexivity. Qed.

(** ** Writing a report *)

(** C10.  [write_report] returns 0 when the document was printed or saved.
    When serializing or writing raises, it prints the line
    [exception saving report: ...] and then raises the same exception, which
    is what it does unless told otherwise, or returns 1 when
    [raise_exceptions] was passed as false: a failure ends in neither 0 nor
    silence. *)
Theorem write_report_outcome
    J (json_dumps : J -> Z -> result string)
    (save_json : J -> string -> Z -> result unit) report kwargs w :
  (forall line,
      write_outcome json_dumps save_json report kwargs = Ok line ->
      write_report json_dumps save_json report kwargs w
      = (Ok 0%Z, with_line line w)) /\
  (forall exc,
      write_outcome json_dumps save_json report kwargs = Raise exc ->
      write_report json_dumps save_json report kwargs w
      = (match kw_raise_exceptions kwargs with
         | Some false => Ok 1%Z
         | Some true | None => Raise exc
         end,
         with_line ("exception saving report: " ++ exn_str exc)%string w)).
Proof.
  unfold write_outcome, write_report, output_of, try_except_else.
  set (output := match kw_output kwargs with
                 | Some path => if String.eqb path "" then None else Some path
                 | None => None
                 end).
  split.
  - intros line H. destruct output as [path|].
    + unfold save_json_to_file, bind.
      destruct (save_json report path (pop (kw_indent kwargs) 4%Z));
        [|discriminate].
      injection H as <-. reflexivity.
    + unfold print_json_to_stdout, bind. rewrite H. reflexivity.
  - intros exc H. destruct output as [path|].
    + unfold save_json_to_file, bind at 1.
      destruct (save_json report path (pop (kw_indent kwargs) 4%Z));
        [discriminate|].
      injection H as ->.
      destruct (kw_raise_exceptions kwargs) as [[|]|]; reflexivity.
    + unfold print_json_to_stdout, bind at 1. rewrite H.
      destruct (kw_raise_exceptions kwargs) as [[|]|]; reflexivity.
Qed.

Lemma write_report_outcome_witness :
  write_report Inputs.dumps_int Inputs.save_unless_readonly 5%Z
    (Inputs.to_readonly None) Reference.w0
  = (Raise (OSError "[Errno 30] Read-only file system"),
     with_line "exception saving report: [Errno 30] Read-only file system"
       Reference.w0) /\
  write_report Inputs.dumps_int Inputs.save_unless_readonly 5%Z
    (Inputs.to_readonly (Some false)) Reference.w0
  = (Ok 1%Z,
     with_line "exception saving report: [Errno 30] Read-only file system"
       Reference.w0) /\
  write_report Inputs.dumps_int Inputs.save_unless_readonly 5%Z
    {| kw_raise_exceptions := None; kw_output := Some ""; kw_indent := None |}
    Reference.w0
  = (Ok 0%Z, with_line "5" Reference.w0).
Proof.
  split; [|split].
  - exact (proj2 (write_report_outcome Inputs.dumps_int
                    Inputs.save_unless_readonly 5%Z (Inputs.to_readonly None)
                    Reference.w0) _ eq_refl).
  - exact (proj2 (write_report_outcome Inputs.dumps_int
                    Inputs.save_unless_readonly 5%Z
                    (Inputs.to_readonly (Some false)) Reference.w0) _ eq_refl).
  - exact (proj1 (write_report_outcome Inputs.dumps_int
                    Inputs.save_unless_readonly 5%Z
                    {| kw_raise_exceptions := None; kw_output := Some "";
                       kw_indent := None |} Reference.w0) _ eq_refl).
Defined.

(** ** Sorting *)

Section SortedFacts.

Context {A : Type} (le : A -> A -> bool).

Hypothesis le_total : forall x y, le x y = false -> le y x = true.
Hypothesis le_trans :
  forall x y z, le x y = true -> le y z = true -> le x z = true.

Lemma insert_perm x l : Permutation (x :: l) (Py.insert le x l).
Proof.
  induction l as [|y rest IH]; simpl.
  - apply Permutation_refl.
  - destruct (le x y).
    + apply Permutation_refl.
    + eapply perm_trans; [apply perm_swap|]. apply perm_skip. exact IH.
Qed.

Lemma sorted_perm l : Permutation l (Py.sorted le l).
Proof.
  induction l as [|x rest IH]; simpl.
  - apply perm_nil.
  - eapply perm_trans; [|apply insert_perm]. apply perm_skip. exact IH.
Qed.

Lemma insert_ascending x l :
  StronglySorted (fun a b => le a b = true) l ->
  StronglySorted (fun a b => le a b = true) (Py.insert le x l).
Proof.
  induction l as [|y rest IH]; intros Hs; simpl.
  - repeat constructor.
  - inversion Hs as [|? ? Hrest Hall]; subst.
    destruct (le x y) eqn:Hxy.
    + constructor; [exact Hs|]. constructor; [exact Hxy|].
      rewrite Forall_forall in *. intros z Hz.
      apply le_trans with y; auto.
    + constructor; [apply IH; exact Hrest|].
      rewrite Forall_forall in *. intros z Hz.
      apply (Permutation_in _ (Permutation_sym (insert_perm x rest))) in Hz.
      destruct Hz as [<-|Hz]; auto.
Qed.

Lemma sorted_ascending l :
  StronglySorted (fun a b => le a b = true) (Py.sorted le l).
Proof.
  induction l as [|x rest IH]; simpl.
  - constructor.
  - apply insert_ascending. exact IH.
Qed.

End SortedFacts.

Lemma string_compare_as_OT s1 s2 :
  String.compare s1 s2 = String_as_OT.compare s1 s2.
Proof.
  revert s2. induction s1 as [|c1 r1 IH]; intros [|c2 r2]; reflexivity.
Qed.

Lemma string_compare_trans s1 s2 s3 :
  String.compare s1 s2 = Lt -> String.compare s2 s3 = Lt ->
  String.compare s1 s3 = Lt.
Proof.
  rewrite !string_compare_as_OT.
  destruct String_as_OT.lt_strorder as [_ Htrans]. apply Htrans.
Qed.

Lemma string_compare_Gt s1 s2 :
  String.compare s1 s2 = Gt <-> String.compare s2 s1 = Lt.
Proof.
  rewrite (String.compare_antisym s2 s1).
  destruct (String.compare s1 s2); simpl; split; congruence.
Qed.

Lemma string_compare_refl s : String.compare s s = Eq.
Proof.
  destruct (String.compare s s) eqn:E; [reflexivity| |].
  - pose proof (proj2 (string_compare_Gt s s) E). congruence.
  - pose proof (proj1 (string_compare_Gt s s) E). congruence.
Qed.

Lemma string_leb_total s1 s2 : String.leb s1 s2 = false -> String.leb s2 s1 = true.
Proof.
  unfold String.leb. destruct (String.compare s1 s2) eqn:E; try discriminate.
  apply string_compare_Gt in E. rewrite E. reflexivity.
Qed.

Lemma string_leb_trans s1 s2 s3 :
  String.leb s1 s2 = true -> String.leb s2 s3 = true -> String.leb s1 s3 = true.
Proof.
  unfold String.leb.
  destruct (String.compare s1 s2) eqn:E12; try discriminate;
    destruct (String.compare s2 s3) eqn:E23; try discriminate; intros _ _.
  - apply String.compare_eq_iff in E12, E23. subst.
    rewrite string_compare_refl. reflexivity.
  - apply String.compare_eq_iff in E12. subst. rewrite E23. reflexivity.
  - apply String.compare_eq_iff in E23. subst. rewrite E12. reflexivity.
  - rewrite (string_compare_trans _ _ _ E12 E23). reflexivity.
Qed.

Lemma tuple_le_total a b : tuple_le a b = false -> tuple_le b a = true.
Proof.
  unfold tuple_le. destruct (String.compare (fst a) (fst b)) eqn:E.
  - apply String.compare_eq_iff in E. rewrite E, string_compare_refl.
    apply string_leb_total.
  - discriminate.
  - apply string_compare_Gt in E. rewrite E. reflexivity.
Qed.

Lemma tuple_le_trans a b c :
  tuple_le a b = true -> tuple_le b c = true -> tuple_le a c = true.
Proof.
  unfold tuple_le.
  destruct (String.compare (fst a) (fst b)) eqn:Eab; try discriminate;
    destruct (String.compare (fst b) (fst c)) eqn:Ebc; try discriminate.
  - apply String.compare_eq_iff in Eab, Ebc. rewrite Eab, Ebc.
    rewrite string_compare_refl. apply string_leb_trans.
  - apply String.compare_eq_iff in Eab. rewrite Eab, Ebc. reflexivity.
  - apply String.compare_eq_iff in Ebc. rewrite <- Ebc, Eab. reflexivity.
  - rewrite (string_compare_trans _ _ _ Eab Ebc). reflexivity.
Qed.

(** [sorted(..., key=...)] returns the records rearranged in ascending order
    of their key. *)
Lemma sorted_by_key rs :
  Permutation rs (Py.sorted sort_key_le rs) /\
  StronglySorted (fun r1 r2 => sort_key_le r1 r2 = true)
    (Py.sorted sort_key_le rs).
Proof.
  split.
  - apply sorted_perm.
  - apply sorted_ascending.
    + intros x y. apply tuple_le_total.
    + intros x y z. apply tuple_le_trans.
Qed.

(** ** The pipeline digest *)

Section Pipeline.

Variable P : platform.

Lemma parse_dates_run commits w :
  (forall c, In c commits -> exists t, strptime P (d_date c) DATE_FRMT = inl t) ->
  parse_dates P commits w = (Ok (map (instant P) commits), w).
Proof.
  induction commits as [|c rest IH]; intros Hall; simpl; [reflexivity|].
  destruct (Hall c (or_introl eq_refl)) as [t Ht].
  unfold instant at 1. rewrite Ht. unfold bind. rewrite IH.
  - reflexivity.
  - intros c' Hc'. apply Hall. right. exact Hc'.
Qed.

Lemma fold_left_max ts : forall t,
  fold_left (fun best y => if (best <? y)%Z then y else best) ts t
  = fold_left Z.max ts t.
Proof.
  induction ts as [|y rest IH]; intros t; simpl; [reflexivity|].
  rewrite IH. f_equal. destruct (Z.ltb_spec t y); lia.
Qed.

Lemma extract_latest_date_run commits w :
  dated P commits ->
  extract_latest_date_from_commits P commits w
  = (Ok (most_recent P commits), w).
Proof.
  intros [Hne Hall]. unfold extract_latest_date_from_commits, bind.
  rewrite parse_dates_run by exact Hall. unfold most_recent, max_.
  destruct commits as [|c rest]; [contradiction|]. simpl.
  rewrite fold_left_max. reflexivity.
Qed.

Lemma fold_left_max_ge ts : forall t, (t <= fold_left Z.max ts t)%Z.
Proof.
  induction ts as [|y rest IH]; intros t; simpl; [lia|].
  specialize (IH (Z.max t y)). lia.
Qed.

Lemma fold_left_max_bound ts : forall t x,
  In x ts -> (x <= fold_left Z.max ts t)%Z.
Proof.
  induction ts as [|y rest IH]; intros t x Hin; simpl; [contradiction|].
  destruct Hin as [->|Hin].
  - pose proof (fold_left_max_ge rest (Z.max t x)). lia.
  - apply IH. exact Hin.
Qed.

Lemma fold_left_max_in ts : forall t,
  In (fold_left Z.max ts t) (t :: ts).
Proof.
  induction ts as [|y rest IH]; intros t; simpl; [auto|].
  destruct (IH (Z.max t y)) as [H|H].
  - destruct (Z.max_spec t y) as [[_ E]|[_ E]]; rewrite E in *; auto.
  - auto.
Qed.

(** [most_recent] is the latest of the instants of the group. *)
Lemma most_recent_greatest commits :
  commits <> [] ->
  In (most_recent P commits) (map (instant P) commits) /\
  forall c, In c commits -> (instant P c <= most_recent P commits)%Z.
Proof.
  intros Hne. unfold most_recent.
  destruct commits as [|c0 rest]; [contradiction|]. simpl. split.
  - apply (fold_left_max_in (map (instant P) rest) (instant P c0)).
  - intros c [<-|Hin].
    + apply fold_left_max_ge.
    + apply fold_left_max_bound. apply in_map. exact Hin.
Qed.

Lemma pipeline_authors_loop_run b items : forall lines w,
  (forall a commits, In (a, commits) items -> dated P commits) ->
  pipeline_authors_loop P b items lines w
  = (Ok (lines
         ++ sub_lines P (ticks w) (map (fun g => (b, fst g, snd g)) items)),
     advance (List.length items) w).
Proof.
  induction items as [|[a commits] rest IH]; intros lines w Hd; simpl.
  - rewrite app_nil_r, advance_0. reflexivity.
  - unfold bind at 1.
    rewrite extract_latest_date_run by (apply (Hd a); left; reflexivity).
    unfold bind. rewrite now_run. rewrite IH.
    + rewrite <- app_assoc, advance_advance. simpl.
      do 3 f_equal. lia.
    + intros a' commits' Hin. apply (Hd a'). right. exact Hin.
Qed.

Lemma triples_cons b cba rest :
  triples ((b, cba) :: rest)
  = map (fun g => (b, fst g, snd g)) cba ++ triples rest.
Proof. reflexivity. Qed.

Lemma sub_lines_app ts1 : forall ts2 k,
  sub_lines P k (ts1 ++ ts2)
  = sub_lines P k ts1 ++ sub_lines P (List.length ts1 + k) ts2.
Proof.
  induction ts1 as [|[[b a] commits] ts1 IH]; intros ts2 k; simpl.
  - reflexivity.
  - rewrite IH. do 3 f_equal. lia.
Qed.

Lemma pipeline_branches_loop_run rep : forall lines w,
  (forall b a commits, In (b, a, commits) (triples rep) -> dated P commits) ->
  pipeline_branches_loop P rep lines w
  = (Ok (lines ++ sub_lines P (ticks w) (triples rep)),
     advance (List.length (triples rep)) w).
Proof.
  induction rep as [|[b cba] rest IH]; intros lines w Hd.
  - simpl. rewrite app_nil_r, advance_0. reflexivity.
  - cbn [pipeline_branches_loop]. unfold bind.
    rewrite pipeline_authors_loop_run.
    + rewrite IH.
      * rewrite triples_cons, sub_lines_app, length_app, length_map.
        rewrite <- app_assoc, advance_advance. cbn [advance ticks].
        f_equal. f_equal. lia.
      * intros b' a' commits' Hin. apply (Hd b' a').
        rewrite triples_cons. apply in_or_app. right. exact Hin.
    + intros a commits Hin. apply (Hd b a).
      rewrite triples_cons. apply in_or_app. left.
      apply in_map_iff. exists (a, commits). auto.
Qed.

Lemma pipeline_results_loop_run rs : forall scans lines w,
  well_dated P rs ->
  pipeline_results_loop P rs scans lines w
  = (Ok (fold_left store rs scans, lines ++ digest_lines P (ticks w) rs),
     advance (count_triples rs) w).
Proof.
  unfold count_triples.
  induction rs as [|r rest IH]; intros scans lines w Hd.
  - simpl. rewrite app_nil_r, advance_0. reflexivity.
  - assert (Hrest : well_dated P rest).
    { intros r' b a commits Hin. apply Hd. right. exact Hin. }
    cbn [pipeline_results_loop fold_left digest_lines flat_map].
    unfold store at 2, record_lines. destruct (report r) as [|item rep] eqn:Hr.
    + rewrite IH by exact Hrest. simpl. rewrite <- app_assoc. reflexivity.
    + unfold bind. rewrite <- Hr. rewrite pipeline_branches_loop_run.
      * rewrite IH by exact Hrest. rewrite length_app, advance_advance.
        simpl. rewrite <- !app_assoc. simpl.
        do 2 f_equal. lia.
      * intros b a commits Hin. apply (Hd r b a); [left; reflexivity|exact Hin].
Qed.

Lemma well_dated_sorted rs :
  well_dated P rs -> well_dated P (Py.sorted sort_key_le rs).
Proof.
  intros Hd r b a commits Hin. apply Hd.
  apply (Permutation_in _ (Permutation_sym (sorted_perm sort_key_le rs))).
  exact Hin.
Qed.

Lemma create_pipeline_report_run rs w :
  well_dated P rs ->
  create_pipeline_report P rs w
  = (Ok {| scans := fold_left store (Py.sorted sort_key_le rs) [];
           message :=
             Py.join newline
               (digest_lines P (ticks w) (Py.sorted sort_key_le rs)) |},
     advance (count_triples (Py.sorted sort_key_le rs)) w).
Proof.
  intros Hd. unfold create_pipeline_report, bind.
  rewrite pipeline_results_loop_run by (apply well_dated_sorted; exact Hd).
  reflexivity.
Qed.

End Pipeline.

Lemma in_set_inv {V} (k k' : string) (v v' : V) d :
  In (k', v') (Py.set k v d) -> (k' = k /\ v' = v) \/ In (k', v') d.
Proof.
  induction d as [|[k0 v0] d IH]; simpl.
  - intros [[= <- <-]|[]]. auto.
  - destruct (String.eqb_spec k0 k) as [->|Hne]; simpl.
    + intros [[= <- <-]|Hin]; auto.
    + intros [Heq|Hin]; [auto|]. destruct (IH Hin); auto.
Qed.

Lemma store_entries rs : forall acc k rep,
  In (k, rep) (fold_left store rs acc) ->
  In (k, rep) acc \/
  (rep <> [] /\ exists r, In r rs /\ k = scan_id_of r /\ rep = report r).
Proof.
  induction rs as [|r0 rest IH]; intros acc k rep Hin; simpl in Hin.
  - auto.
  - destruct (IH _ _ _ Hin) as [Hacc|(Hne & r & Hr & Hk & Hrep)].
    + unfold store in Hacc. destruct (report r0) as [|item rep0] eqn:Hr0.
      * auto.
      * destruct (in_set_inv _ _ _ _ _ Hacc) as [[-> ->]|Hold]; [|auto].
        right. split; [discriminate|]. exists r0. simpl. auto.
    + right. split; [exact Hne|]. exists r. simpl. auto.
Qed.

Lemma store_get rs : forall acc k rep,
  (forall r, In r rs -> report r <> [] -> scan_id_of r = k -> report r = rep) ->
  (exists r, In r rs /\ report r <> [] /\ scan_id_of r = k) \/
  Py.get k acc = Some rep ->
  Py.get k (fold_left store rs acc) = Some rep.
Proof.
  induction rs as [|r0 rest IH]; intros acc k rep Hsame Hex; simpl.
  - destruct Hex as [(r & [] & _)|Hget]. exact Hget.
  - apply IH.
    + intros r Hin. apply Hsame. right. exact Hin.
    + assert (Hstep : Py.get k acc = Some rep ->
                      Py.get k (store acc r0) = Some rep).
      { intros Hget. unfold store.
        destruct (report r0) as [|item rep0] eqn:Hr0; [exact Hget|].
        rewrite get_set. destruct (String.eqb_spec (scan_id_of r0) k) as [Hk|];
          [|exact Hget].
        f_equal. rewrite <- Hr0. apply Hsame; [left; reflexivity| |exact Hk].
        rewrite Hr0. discriminate. }
      destruct Hex as [(r & [<-|Hin] & Hne & Hk)|Hget].
      * right. unfold store.
        destruct (report r0) as [|item rep0] eqn:Hr0; [contradiction|].
        rewrite Hk, get_set_eq. f_equal. rewrite <- Hr0.
        apply Hsame; [left; reflexivity| |exact Hk]. rewrite Hr0. discriminate.
      * left. exists r. auto.
      * right. apply Hstep. exact Hget.
Qed.

Lemma digest_lines_fresh P rs : forall k r,
  In r rs -> report r = [] -> In (fresh_line r) (digest_lines P k rs).
Proof.
  induction rs as [|r0 rest IH]; intros k r Hin Hfresh; simpl.
  - contradiction.
  - apply in_or_app. destruct Hin as [->|Hin].
    + left. unfold record_lines. rewrite Hfresh. left. reflexivity.
    + right. apply IH; assumption.
Qed.

(** C5, amended.  When the groups of the reports are dated, the digest
    builder returns a digest in which every record with an empty report has
    its [*fresh*] line in the message; every entry of [scans] is the
    non-empty report of a record, under the key [<repoName>:branch] where
    the name of the repository stands between angle brackets; and a record
    with a non-empty report is found under that key with its full report,
    as long as no record with the same key carries another report. *)
Theorem create_pipeline_report_scans P rs w :
  well_dated P rs ->
  exists digest lines w',
    create_pipeline_report P rs w = (Ok digest, w') /\
    message digest = Py.join newline lines /\
    (forall r, In r rs -> report r = [] ->
               In (" - "
                   ++ ("<" ++ PosixPath.basename (repo_dir r) ++ ">:"
                       ++ branch r)
                   ++ " *fresh*")%string lines) /\
    (forall k rep,
        In (k, rep) (scans digest) ->
        rep <> [] /\
        exists r, In r rs /\ rep = report r /\
                  k = ("<" ++ PosixPath.basename (repo_dir r) ++ ">:"
                       ++ branch r)%string) /\
    (forall r,
        In r rs -> report r <> [] ->
        (forall r', In r' rs -> report r' <> [] ->
                    scan_id_of r' = scan_id_of r -> report r' = report r) ->
        Py.get ("<" ++ PosixPath.basename (repo_dir r) ++ ">:" ++ branch r)%string
          (scans digest) = Some (report r)).
Proof.
  intros Hd.
  pose proof (sorted_perm sort_key_le rs) as Hperm.
  eexists. eexists. eexists. split; [|split; [|split; [|split]]].
  - apply create_pipeline_report_run. exact Hd.
  - reflexivity.
  - intros r Hin Hfresh.
    apply (digest_lines_fresh P _ (ticks w) r
             (Permutation_in _ Hperm Hin) Hfresh).
  - intros k rep Hin. simpl in Hin.
    destruct (store_entries _ _ _ _ Hin) as [[]|(Hne & r & Hr & Hk & Hrep)].
    split; [exact Hne|]. exists r. repeat split.
    + apply (Permutation_in _ (Permutation_sym Hperm)). exact Hr.
    + exact Hrep.
    + exact Hk.
  - intros r Hin Hne Hsame. simpl.
    change ("<" ++ PosixPath.basename (repo_dir r) ++ ">:" ++ branch r)%string
      with (scan_id_of r).
    apply store_get.
    + intros r' Hin' Hne' Hk. apply Hsame; [|exact Hne'|exact Hk].
      apply (Permutation_in _ (Permutation_sym Hperm)). exact Hin'.
    + left. exists r. repeat split; [|exact Hne].
      apply (Permutation_in _ Hperm). exact Hin.
Qed.

Lemma ascii_compare_lt c1 c2 :
  Ascii.compare c1 c2 = Lt -> (N_of_ascii c1 < N_of_ascii c2)%N.
Proof.
  unfold Ascii.compare. intros H. apply N.compare_lt_iff. exact H.
Qed.

Lemma string_compare_code_points s1 : forall s2,
  String.compare s1 s2 = Lt -> code_points_lt s1 s2.
Proof.
  induction s1 as [|c1 r1 IH]; intros [|c2 r2]; simpl; try discriminate.
  - intros _. constructor.
  - destruct (Ascii.compare c1 c2) eqn:E; try discriminate.
    + apply Ascii.compare_eq_iff in E. subst c2.
      intros H. apply lt_tail. apply IH. exact H.
    + intros _. apply lt_head. apply ascii_compare_lt. exact E.
Qed.

Lemma sort_key_le_ascending r1 r2 :
  sort_key_le r1 r2 = true -> ascending r1 r2.
Proof.
  unfold sort_key_le, tuple_le, sort_key, ascending. cbn [fst snd].
  destruct (String.compare (PosixPath.basename (repo_dir r1))
              (PosixPath.basename (repo_dir r2))) eqn:En; try discriminate.
  - apply String.compare_eq_iff in En. intros Hb. right. split; [exact En|].
    unfold String.leb in Hb.
    destruct (String.compare (branch r1) (branch r2)) eqn:Eb;
      try discriminate.
    + right. apply String.compare_eq_iff. exact Eb.
    + left. apply string_compare_code_points. exact Eb.
  - intros _. left. apply string_compare_code_points. exact En.
Qed.

Lemma StronglySorted_impl {A} (R R' : A -> A -> Prop) l :
  (forall x y, R x y -> R' x y) -> StronglySorted R l -> StronglySorted R' l.
Proof.
  intros Hsub. induction 1 as [|x l Hs IH Hall]; constructor.
  - exact IH.
  - apply (Forall_impl _ (Hsub x)). exact Hall.
Qed.

Lemma stated_sub_lines_sub_lines P ts : forall k,
  stated_sub_lines P k ts = sub_lines P k ts.
Proof.
  induction ts as [|[[b a] commits] rest IH]; intros k; [reflexivity|].
  cbn [stated_sub_lines sub_lines]. rewrite IH. reflexivity.
Qed.

Lemma stated_lines_digest_lines P rs : forall k,
  stated_lines P k rs = digest_lines P k rs.
Proof.
  induction rs as [|r rest IH]; intros k; [reflexivity|].
  cbn [stated_lines digest_lines]. rewrite IH.
  assert (stated_record_lines P k r = record_lines P k r) as ->;
    [|reflexivity].
  unfold stated_record_lines, record_lines.
  destruct (report r); [reflexivity|].
  rewrite stated_sub_lines_sub_lines. reflexivity.
Qed.

(** C6, amended.  When every group of the reports holds a commit and only
    dates that parse, the digest builder goes through the records in
    ascending order of the pair (base name of the repository location,
    branch); the message is made of the lines of the records in that order,
    and the lines of a record with a report are its summary line followed
    by one line for each (branch, author, commits) triple, giving the branch
    and the whole days between the reading of the clock taken for the triple
    and the latest timestamp of the triple's commits. *)
Theorem create_pipeline_report_message P rs w :
  well_dated P rs ->
  exists order digest,
    Permutation rs order /\
    StronglySorted ascending order /\
    create_pipeline_report P rs w
    = (Ok digest, advance (count_triples order) w) /\
    message digest = Py.join newline (stated_lines P (ticks w) order).
Proof.
  intros Hd. exists (Py.sorted sort_key_le rs). eexists.
  destruct (sorted_by_key rs) as [Hperm Hsorted].
  split; [exact Hperm|]. split.
  - apply (@StronglySorted_impl _ _ _ _ sort_key_le_ascending Hsorted).
  - split.
    + apply create_pipeline_report_run. exact Hd.
    + cbn [message]. apply f_equal. symmetry.
      apply stated_lines_digest_lines.
Qed.

Lemma datedb_dated P commits : datedb P commits = true -> dated P commits.
Proof.
  unfold datedb, dated. destruct commits as [|c0 rest]; [discriminate|].
  intros H. split; [discriminate|]. intros c Hin.
  rewrite forallb_forall in H. specialize (H c Hin).
  destruct (strptime P (d_date c) DATE_FRMT) as [t|]; [|discriminate].
  exists t. reflexivity.
Qed.

Lemma well_datedb_well_dated P rs :
  well_datedb P rs = true -> well_dated P rs.
Proof.
  unfold well_datedb, well_dated. intros H r b a commits Hr Hin.
  rewrite forallb_forall in H. specialize (H r Hr).
  rewrite forallb_forall in H. apply datedb_dated.
  apply (H (b, a, commits) Hin).
Qed.

Lemma create_pipeline_report_scans_witness :
  exists digest lines w',
    create_pipeline_report Reference.the_platform Inputs.batch Reference.w0
    = (Ok digest, w') /\
    message digest = Py.join newline lines /\
    In " - <aardvark>:main *fresh*" lines /\
    Py.get "<alpha>:main" (scans digest) = Some Inputs.two_branches.
Proof.
  destruct (@create_pipeline_report_scans Reference.the_platform Inputs.batch
              Reference.w0
              (@well_datedb_well_dated Reference.the_platform Inputs.batch
                 eq_refl))
    as (digest & lines & w' & Hrun & Hmsg & Hfresh & _ & Hget).
  exists digest, lines, w'. split; [exact Hrun|]. split; [exact Hmsg|]. split.
  - apply (Hfresh Inputs.scan_fresh); [simpl; auto | reflexivity].
  - apply (Hget Inputs.scan_alpha); [simpl; auto | discriminate |].
    intros r' [<-|[<-|[<-|[]]]] Hne Hid;
      [discriminate Hid | reflexivity | contradiction Hne; reflexivity].
Defined.

(** C5 as stated fails: the record of the repository [/ws/alpha] scanned
    against [main] is not stored under the key [alpha:main]. *)
Lemma create_pipeline_report_key_has_brackets :
  exists digest w',
    create_pipeline_report Reference.the_platform [Inputs.scan_alpha]
      Reference.w0 = (Ok digest, w') /\
    report Inputs.scan_alpha <> [] /\
    PosixPath.basename (repo_dir Inputs.scan_alpha) = "alpha" /\
    branch Inputs.scan_alpha = "main" /\
    Py.get "alpha:main" (scans digest) = None /\
    Py.keys (scans digest) = ["<alpha>:main"].
Proof.
  eexists. eexists. split; [vm_compute; reflexivity|].
  repeat split; discriminate.
Qed.

Lemma create_pipeline_report_message_witness :
  exists order digest,
    Permutation Inputs.batch order /\
    StronglySorted ascending order /\
    create_pipeline_report Reference.the_platform Inputs.batch Reference.w0
    = (Ok digest, advance (count_triples order) Reference.w0) /\
    message digest
    = Py.join newline
        (stated_lines Reference.the_platform (ticks Reference.w0) order).
Proof.
  exact (@create_pipeline_report_message Reference.the_platform Inputs.batch
           Reference.w0
              (@well_datedb_well_dated Reference.the_platform Inputs.batch
                 eq_refl)).
Defined.

(** C6 as stated fails: a record with a report may hold a (branch, author,
    commits) triple for which no line is written, the builder raising
    instead.  So it is with a group that holds no commit, which has no most
    recent one, and with a group one of whose dates does not parse. *)
Lemma create_pipeline_report_no_line_for_group :
  (report Inputs.scan_no_commits <> [] /\
   In ("origin/feature/z", "a@x.com", [])
     (triples (report Inputs.scan_no_commits)) /\
   exists msg w',
     create_pipeline_report Reference.the_platform [Inputs.scan_no_commits]
       Reference.w0 = (Raise (ValueError msg), w')) /\
  (report Inputs.scan_day_only <> [] /\
   In ("origin/feature/z", "a@x.com", [Inputs.entry "ffff6666" "2020-01-28"])
     (triples (report Inputs.scan_day_only)) /\
   exists msg w',
     create_pipeline_report Reference.the_platform [Inputs.scan_day_only]
       Reference.w0 = (Raise (ValueError msg), w')).
Proof.
  split; (split; [discriminate|]); (split; [left; reflexivity|]);
    eexists; eexists; vm_compute; reflexivity.
Qed.

(** The lines of the three records handed over out of order, as they are
    stated. *)
Example stated_lines_batch :
  stated_lines Reference.the_platform 0
    [Inputs.scan_fresh; Inputs.scan_alpha; Inputs.scan_beta]
  = [" - <aardvark>:main *fresh*";
     " - <alpha>:main";
     "    * origin/feature/old (10 days)";
     "    * origin/feature/older (20 days)";
     "    * origin/feature/older (31 days)";
     " - <beta>:development";
     "    * origin/hotfix/y (20 days)"].
Proof. vm_compute. reflexivity. Qed.

(** The digest of three records handed over out of order. *)
Example create_pipeline_report_batch :
  fst (create_pipeline_report Reference.the_platform Inputs.batch Reference.w0)
  = Ok {| scans := [("<alpha>:main", Inputs.two_branches);
                    ("<beta>:development", Inputs.one_branch)];
          message :=
            Py.join newline
              [" - <aardvark>:main *fresh*";
               " - <alpha>:main";
               "    * origin/feature/old (10 days)";
               "    * origin/feature/older (20 days)";
               "    * origin/feature/older (31 days)";
               " - <beta>:development";
               "    * origin/hotfix/y (20 days)"] |}.
Proof. vm_compute. reflexivity. Qed.

(** A group with a date that does not parse, or without commits, makes the
    digest builder raise. *)
Example create_pipeline_report_undated :
  exists msg w',
    create_pipeline_report Reference.the_platform
      [{| branch := "main"; repo_dir := "/ws/gamma";
          report := [("origin/feature/z",
                      [("a@x.com", [Inputs.entry "ffff6666" "2020-01-28"])])] |}]
      Reference.w0 = (Raise (ValueError msg), w').
Proof. eexists. eexists. vm_compute. reflexivity. Qed.

(** Two records with the same key: the report of the one handed over last is
    the one the digest holds. *)
Example create_pipeline_report_same_key :
  exists digest w',
    create_pipeline_report Reference.the_platform
      [Inputs.scan_alpha;
       {| branch := "main"; repo_dir := "/elsewhere/alpha";
          report := Inputs.one_branch |}]
      Reference.w0 = (Ok digest, w') /\
    scans digest = [("<alpha>:main", Inputs.one_branch)].
Proof. eexists. eexists. split; vm_compute; reflexivity. Qed.

(** ** The reports the scanner builds can be digested

    The digest builder raises on a group without commits or with a date that
    does not parse.  Neither occurs in a report made by
    [create_report_by_branch] from what the staleness filter kept. *)

Lemma old_in_turn_parses P n dates : forall k,
  old_in_turn P n k dates = true ->
  forall d, In d dates -> exists t, strptime P d DATE_FRMT = inl t.
Proof.
  induction dates as [|d0 rest IH]; intros k Hold d Hin; simpl in *.
  - contradiction.
  - apply andb_true_iff in Hold as [Hd0 Hrest].
    destruct Hin as [<-|Hin].
    + unfold is_old in Hd0.
      destruct (strptime P d0 DATE_FRMT) as [t|]; [|discriminate].
      exists t. reflexivity.
    + apply (IH _ Hrest). exact Hin.
Qed.

Lemma kept_commits_parse P n d w out w' :
  Py.wf d ->
  extract_stale_branches P d n w = (Ok out, w') ->
  forall b commits c,
    In (b, commits) out -> In c commits ->
    exists t, strptime P (date c) DATE_FRMT = inl t.
Proof.
  intros Hwf Hrun b commits c Hb Hc.
  rewrite extract_stale_branches_run in Hrun by exact Hwf.
  injection Hrun as <- _.
  apply in_map_iff in Hb as [[k [b' commits']] [Heq Hin]].
  simpl in Heq. injection Heq as -> ->.
  apply filter_In in Hin as [_ Hold]. simpl in Hold.
  apply (old_in_turn_parses _ _ _ _ Hold). apply in_map. exact Hc.
Qed.

Lemma convert_commits_groups commits a g :
  In (a, g) (convert_commits_list_to_dict_by_author commits) ->
  g <> [] /\
  forall cd, In cd g -> exists c, In c commits /\ d_date cd = date c.
Proof.
  unfold convert_commits_list_to_dict_by_author.
  assert (Hgen : forall seen (acc : commits_by_author),
             (forall x, In x seen -> In x commits) ->
             (forall a g, In (a, g) acc ->
                g <> [] /\
                forall cd, In cd g -> exists c, In c commits /\ d_date cd = date c) ->
             forall a g,
               In (a, g)
                 (fold_left
                    (fun dict_by_author commit =>
                       let '(author, commit_dict) :=
                         convert_commit_to_dict commit in
                       let '(dict_by_author, author_commit_list) :=
                         Py.setdefault author [] dict_by_author in
                       Py.set author (author_commit_list ++ [commit_dict])
                         dict_by_author) seen acc) ->
               g <> [] /\
               forall cd, In cd g ->
                          exists c, In c commits /\ d_date cd = date c).
  { induction seen as [|c rest IH]; intros acc Hsub Hinv a0 g0 Hin.
    - apply (Hinv a0). exact Hin.
    - cbn [fold_left] in Hin. apply (IH _ (fun x Hx => Hsub x (or_intror Hx)))
        in Hin; [exact Hin|].
      clear Hin a0 g0. intros a0 g0 Hin.
      unfold convert_commit_to_dict, Py.setdefault in Hin.
      destruct (Py.get (author c) acc) as [lst|] eqn:Hget; cbv beta iota zeta in Hin.
      + apply in_set_inv in Hin as [[-> ->]|Hin]; [|apply (Hinv a0); exact Hin].
        split; [destruct lst; discriminate|].
        intros cd Hcd. apply in_app_or in Hcd as [Hcd|[<-|[]]].
        * apply get_Some_In in Hget. apply (Hinv _ _ Hget). exact Hcd.
        * exists c. split; [apply Hsub; left; reflexivity | reflexivity].
      + rewrite set_set in Hin.
        apply in_set_inv in Hin as [[-> ->]|Hin]; [|apply (Hinv a0); exact Hin].
        split; [discriminate|].
        intros cd [<-|[]].
        exists c. split; [apply Hsub; left; reflexivity | reflexivity]. }
  apply Hgen; [auto | intros ? ? []].
Qed.

Lemma create_report_by_branch_entries stale b cba :
  In (b, cba) (create_report_by_branch stale) ->
  exists commits,
    In (b, commits) stale /\
    cba = convert_commits_list_to_dict_by_author commits.
Proof.
  unfold create_report_by_branch.
  assert (Hgen : forall items (acc : report_by_branch),
             (forall x, In x items -> In x stale) ->
             (forall b cba, In (b, cba) acc ->
                exists commits, In (b, commits) stale /\
                  cba = convert_commits_list_to_dict_by_author commits) ->
             forall b cba,
               In (b, cba)
                 (fold_left
                    (fun report_by_branch item =>
                       let '(branch, commits) := item in
                       Py.set branch
                         (convert_commits_list_to_dict_by_author commits)
                         report_by_branch) items acc) ->
               exists commits, In (b, commits) stale /\
                 cba = convert_commits_list_to_dict_by_author commits).
  { induction items as [|[b0 commits0] rest IH]; intros acc Hsub Hinv b1 cba1 Hin.
    - apply Hinv. exact Hin.
    - cbn [fold_left] in Hin.
      apply (IH _ (fun x Hx => Hsub x (or_intror Hx))) in Hin; [exact Hin|].
      clear Hin b1 cba1. intros b1 cba1 Hin.
      apply in_set_inv in Hin as [[-> ->]|Hin]; [|apply Hinv; exact Hin].
      exists commits0. split; [apply Hsub; left; reflexivity | reflexivity]. }
  apply Hgen; [auto | intros ? ? []].
Qed.

(** A record made from what the filter kept is [well_dated]. *)
Lemma scanned_report_well_dated P n d w out w' target repo :
  Py.wf d ->
  extract_stale_branches P d n w = (Ok out, w') ->
  well_dated P
    [{| branch := target; repo_dir := repo;
        report := create_report_by_branch out |}].
Proof.
  intros Hwf Hrun r b a g [<-|[]] Hin. simpl in Hin.
  unfold triples in Hin. apply in_flat_map in Hin as [[b' cba] [Hcba Hg]].
  simpl in Hg. apply in_map_iff in Hg as [[a' g'] [Heq Hg]].
  simpl in Heq. injection Heq as -> -> ->.
  apply create_report_by_branch_entries in Hcba as [commits [Hkept ->]].
  apply convert_commits_groups in Hg as [Hne Hdates].
  split; [exact Hne|]. intros cd Hcd.
  destruct (Hdates cd Hcd) as [c [Hc ->]].
  apply (kept_commits_parse _ _ _ Hwf Hrun b commits c Hkept Hc).
Qed.

Example create_report_by_branch_groups :
  create_report_by_branch
    [("origin/feature/old", [Inputs.c31; Inputs.c10])]
  = [("origin/feature/old", [("a@x.com", [Inputs.e31; Inputs.e10])])].
Proof. reflexivity. Qed.

(* ================================================================== *)
(** * Further properties of the scanner *)
(* ================================================================== *)

Import Shape.

(** ** Grouping commits by author *)

Lemma convert_step_set (acc : commits_by_author) c :
  (let '(author, commit_dict) := convert_commit_to_dict c in
   let '(dict_by_author, author_commit_list) :=
     Py.setdefault author [] acc in
   Py.set author (author_commit_list ++ [commit_dict]) dict_by_author)
  = Py.set (author c)
      (match Py.get (author c) acc with Some g => g | None => [] end
       ++ [snd (convert_commit_to_dict c)])
      acc.
Proof.
  unfold convert_commit_to_dict, Py.setdefault. cbv beta iota zeta.
  destruct (Py.get (author c) acc) as [g|]; cbv beta iota zeta.
  - reflexivity.
  - rewrite set_set. reflexivity.
Qed.

Lemma convert_fold_get a commits : forall acc : commits_by_author,
  Py.get a
    (fold_left
       (fun dict_by_author commit =>
          let '(author, commit_dict) := convert_commit_to_dict commit in
          let '(dict_by_author, author_commit_list) :=
            Py.setdefault author [] dict_by_author in
          Py.set author (author_commit_list ++ [commit_dict]) dict_by_author)
       commits acc)
  = match commits_of a commits with
    | [] => Py.get a acc
    | g =>
        Some (match Py.get a acc with Some g0 => g0 | None => [] end ++ g)
    end.
Proof.
  unfold commits_of.
  induction commits as [|c rest IH]; intros acc; [reflexivity|].
  cbn [fold_left filter]. rewrite convert_step_set, IH.
  destruct (String.eqb_spec (author c) a) as [->|Hne].
  - cbn [map]. rewrite get_set_eq.
    destruct (map _ (filter _ rest)) as [|d ds].
    + reflexivity.
    + rewrite <- app_assoc. reflexivity.
  - rewrite get_set_ne by exact Hne. reflexivity.
Qed.

(** X1.  In the dictionary [convert_commits_list_to_dict_by_author] builds,
    an author who made none of the commits has no entry, and any other
    author is mapped to the dictionaries of exactly their commits, in
    the order of the commit list. *)
Theorem convert_commits_list_to_dict_by_author_get a commits :
  Py.get a (convert_commits_list_to_dict_by_author commits)
  = match commits_of a commits with
    | [] => None
    | g => Some g
    end.
Proof.
  unfold convert_commits_list_to_dict_by_author.
  rewrite convert_fold_get. reflexivity.
Qed.

Lemma existsb_eqb_in x l : existsb (String.eqb x) l = true <-> In x l.
Proof.
  rewrite existsb_exists. split.
  - intros [y [Hin Heq]]. apply String.eqb_eq in Heq. subst. exact Hin.
  - intros Hin. exists x. split; [exact Hin | apply String.eqb_refl].
Qed.

Lemma keys_set_seen {V} k (v : V) d :
  Py.keys (Py.set k v d)
  = if existsb (String.eqb k) (Py.keys d) then Py.keys d
    else Py.keys d ++ [k].
Proof.
  rewrite keys_set.
  destruct (in_dec string_dec k (Py.keys d)) as [Hin|Hnot];
    destruct (existsb (String.eqb k) (Py.keys d)) eqn:E; try reflexivity.
  - apply existsb_eqb_in in Hin. congruence.
  - apply existsb_eqb_in in E. contradiction.
Qed.

(** X2.  The authors of the dictionary are those of the commits, each once,
    in the order in which they first occur in the commit list. *)
Theorem convert_commits_list_to_dict_by_author_keys commits :
  Py.keys (convert_commits_list_to_dict_by_author commits)
  = first_seen (map author commits) /\
  Py.wf (convert_commits_list_to_dict_by_author commits).
Proof.
  unfold convert_commits_list_to_dict_by_author, first_seen.
  assert (Hgen : forall acc : commits_by_author,
             Py.wf acc ->
             let out :=
               fold_left
                 (fun dict_by_author commit =>
                    let '(author, commit_dict) :=
                      convert_commit_to_dict commit in
                    let '(dict_by_author, author_commit_list) :=
                      Py.setdefault author [] dict_by_author in
                    Py.set author (author_commit_list ++ [commit_dict])
                      dict_by_author) commits acc in
             Py.keys out
             = fold_left
                 (fun seen x =>
                    if existsb (String.eqb x) seen then seen else seen ++ [x])
                 (map author commits) (Py.keys acc) /\
             Py.wf out).
  { induction commits as [|c rest IH]; intros acc Hwf.
    - split; [reflexivity | exact Hwf].
    - cbn [fold_left map]. rewrite convert_step_set.
      rewrite <- keys_set_seen with (v := match Py.get (author c) acc with
                                           | Some g => g
                                           | None => []
                                           end ++ [snd (convert_commit_to_dict c)]).
      apply IH. apply wf_set. exact Hwf. }
  apply (Hgen []). constructor.
Qed.

Lemma flat_map_set_append (d : commits_by_author) a x :
  Permutation
    (flat_map snd
       (Py.set a (match Py.get a d with Some g => g | None => [] end ++ [x]) d))
    (x :: flat_map snd d).
Proof.
  induction d as [|[k g] rest IH]; simpl.
  - apply Permutation_refl.
  - destruct (String.eqb_spec k a) as [->|Hne]; simpl.
    + rewrite <- app_assoc. simpl.
      apply Permutation_sym.
      apply (Permutation_middle (g) (flat_map snd rest) x).
    + eapply perm_trans.
      * apply Permutation_app_head. exact IH.
      * apply Permutation_sym. apply Permutation_middle.
Qed.

(** X3.  Grouping by author loses no commit and repeats none: the groups of
    the dictionary, laid end to end, are the dictionaries of the commits
    rearranged. *)
Theorem convert_commits_list_to_dict_by_author_partition commits :
  Permutation
    (flat_map snd (convert_commits_list_to_dict_by_author commits))
    (map (fun c => snd (convert_commit_to_dict c)) commits).
Proof.
  unfold convert_commits_list_to_dict_by_author.
  assert (Hgen : forall acc : commits_by_author,
             Permutation
               (flat_map snd
                  (fold_left
                     (fun dict_by_author commit =>
                        let '(author, commit_dict) :=
                          convert_commit_to_dict commit in
                        let '(dict_by_author, author_commit_list) :=
                          Py.setdefault author [] dict_by_author in
                        Py.set author (author_commit_list ++ [commit_dict])
                          dict_by_author) commits acc))
               (flat_map snd acc
                ++ map (fun c => snd (convert_commit_to_dict c)) commits)).
  { induction commits as [|c rest IH]; intros acc.
    - simpl. rewrite app_nil_r. apply Permutation_refl.
    - cbn [fold_left map]. rewrite convert_step_set.
      eapply perm_trans; [apply IH|].
      eapply perm_trans.
      + apply Permutation_app_tail. apply flat_map_set_append.
      + simpl. apply Permutation_middle. }
  apply (Hgen []).
Qed.

(** ** The report of a scan *)

Lemma create_report_fold items : forall acc : report_by_branch,
  NoDup (Py.keys acc ++ Py.keys items) ->
  fold_left
    (fun report_by_branch item =>
       let '(branch, commits) := item in
       Py.set branch (convert_commits_list_to_dict_by_author commits)
         report_by_branch) items acc
  = acc
    ++ map (fun item =>
              (fst item, convert_commits_list_to_dict_by_author (snd item)))
         items.
Proof.
  induction items as [|[b commits] rest IH]; intros acc Hnd.
  - simpl. rewrite app_nil_r. reflexivity.
  - cbn [fold_left map fst snd]. simpl in Hnd.
    assert (Hfresh : ~ In b (Py.keys acc)).
    { apply NoDup_remove_2 in Hnd. intros Hin. apply Hnd.
      apply in_or_app. left. exact Hin. }
    rewrite (set_fresh _ _ _ Hfresh). rewrite IH.
    + rewrite <- app_assoc. reflexivity.
    + unfold Py.keys. rewrite map_app. simpl. rewrite <- app_assoc.
      exact Hnd.
Qed.

(** X4.  [create_report_by_branch] keeps the branches of the mapping it is
    given, in their order, and replaces the commit list of each by its
    grouping by author; so the report is empty exactly when no branch is
    stale. *)
Theorem create_report_by_branch_map
    (stale_branches_with_commits : Py.dict (list COMMIT_DETAILS)) :
  Py.wf stale_branches_with_commits ->
  create_report_by_branch stale_branches_with_commits
  = map (fun item =>
           (fst item, convert_commits_list_to_dict_by_author (snd item)))
      stale_branches_with_commits /\
  (create_report_by_branch stale_branches_with_commits = [] <->
   stale_branches_with_commits = []).
Proof.
  intros Hwf. assert (Heq : create_report_by_branch stale_branches_with_commits
    = map (fun item =>
             (fst item, convert_commits_list_to_dict_by_author (snd item)))
        stale_branches_with_commits).
  { unfold create_report_by_branch. rewrite create_report_fold.
    - reflexivity.
    - exact Hwf. }
  split; [exact Heq|]. rewrite Heq.
  destruct stale_branches_with_commits; simpl; split; intros H;
    try reflexivity; discriminate.
Qed.

Lemma create_report_by_branch_map_witness :
  create_report_by_branch
    [("origin/feature/old", [Inputs.c31; Inputs.c10]);
     ("origin/feature/empty", [])]
  = [("origin/feature/old", [("a@x.com", [Inputs.e31; Inputs.e10])]);
     ("origin/feature/empty", [])].
Proof.
  apply (@create_report_by_branch_map
           [("origin/feature/old", [Inputs.c31; Inputs.c10]);
            ("origin/feature/empty", [])]).
  apply distinct_wf. reflexivity.
Defined.

(** ** Commit lines *)

Lemma split_length sep s :
  List.length (Py.split sep s) = S (count_char sep s).
Proof.
  induction s as [|c rest IH]; simpl; [reflexivity|].
  destruct (Ascii.eqb c sep); simpl.
  - rewrite IH. reflexivity.
  - destruct (Py.split sep rest) as [|field fields]; simpl in *; [discriminate|].
    exact IH.
Qed.

Lemma join_split sep s :
  Py.join (String sep EmptyString) (Py.split sep s) = s.
Proof.
  unfold Py.join. induction s as [|c rest IH]; simpl; [reflexivity|].
  destruct (Ascii.eqb_spec c sep) as [->|Hne].
  - pose proof (split_length sep rest) as Hlen.
    destruct (Py.split sep rest) as [|field fields]; [discriminate|].
    simpl in *. rewrite IH. reflexivity.
  - pose proof (split_length sep rest) as Hlen.
    destruct (Py.split sep rest) as [|field fields]; [discriminate|].
    simpl in *. destruct fields; simpl in *; rewrite <- IH; reflexivity.
Qed.

Lemma split_no_sep sep s : count_char sep s = 0 -> Py.split sep s = [s].
Proof.
  induction s as [|c rest IH]; simpl; [reflexivity|].
  destruct (Ascii.eqb c sep); [discriminate|]. simpl.
  intros H. rewrite (IH H). reflexivity.
Qed.

Lemma split_field sep a b :
  count_char sep a = 0 ->
  Py.split sep (a ++ String sep b) = a :: Py.split sep b.
Proof.
  induction a as [|c rest IH]; simpl.
  - intros _. rewrite Ascii.eqb_refl. reflexivity.
  - destruct (Ascii.eqb c sep); [discriminate|]. simpl.
    intros H. rewrite (IH H). reflexivity.
Qed.

Lemma parse_commit_fields line w :
  match Py.split "|" (Py.strip line) with
  | [h; d; a; s] =>
      parse_commit line w
      = (Ok {| hash := h; date := d; author := a; subject := s |}, w)
  | _ => exists msg, parse_commit line w = (Raise (TypeError msg), w)
  end.
Proof.
  unfold parse_commit.
  destruct (Py.split "|" (Py.strip line)) as [|h [|d [|a [|s [|x rest]]]]];
    first [reflexivity | eexists; reflexivity].
Qed.

Lemma parse_commit_ok line w :
  count_char "|" (Py.strip line) = 3 ->
  exists c, parse_commit line w = (Ok c, w) /\ commit_line c = Py.strip line.
Proof.
  intros Hcount.
  pose proof (parse_commit_fields line w) as Hrun.
  pose proof (split_length "|" (Py.strip line)) as Hlen.
  pose proof (join_split "|" (Py.strip line)) as Hjoin.
  destruct (Py.split "|" (Py.strip line)) as [|h [|d [|a [|s [|x rest]]]]];
    simpl in Hlen; try lia.
  eexists. split; [exact Hrun|]. exact Hjoin.
Qed.

Lemma parse_commit_bad line w :
  count_char "|" (Py.strip line) <> 3 ->
  exists msg, parse_commit line w = (Raise (TypeError msg), w).
Proof.
  intros Hcount.
  pose proof (parse_commit_fields line w) as Hrun.
  pose proof (split_length "|" (Py.strip line)) as Hlen.
  destruct (Py.split "|" (Py.strip line)) as [|h [|d [|a [|s [|x rest]]]]];
    simpl in Hlen; try lia; exact Hrun.
Qed.

(** X5.  A line of the divergence listing parses exactly when, once
    stripped, it holds three [|]: the commit read then spells the stripped
    line back, field by field; any other line is a [TypeError].  The world is
    left as it was. *)
Theorem parse_commit_three_bars line w :
  (count_char "|" (Py.strip line) = 3 ->
   exists c, parse_commit line w = (Ok c, w) /\
             commit_line c = Py.strip line) /\
  (count_char "|" (Py.strip line) <> 3 ->
   exists msg, parse_commit line w = (Raise (TypeError msg), w)).
Proof.
  split; [apply parse_commit_ok | apply parse_commit_bad].
Qed.

Lemma parse_commit_three_bars_witness :
  exists c,
    parse_commit "  aaaa1111|2020-01-01T00:00:00+00:00|a@x.com|fix bug "
      Reference.w0 = (Ok c, Reference.w0) /\
    commit_line c = "aaaa1111|2020-01-01T00:00:00+00:00|a@x.com|fix bug".
Proof.
  apply (proj1 (parse_commit_three_bars
                  "  aaaa1111|2020-01-01T00:00:00+00:00|a@x.com|fix bug "
                  Reference.w0)).
  reflexivity.
Defined.

(** A subject with a [|] of its own makes five fields, and the line is
    turned down. *)
Example parse_commit_bar_in_subject :
  exists msg,
    parse_commit "aaaa1111|2020-01-01T00:00:00+00:00|a@x.com|either|or"
      Reference.w0 = (Raise (TypeError msg), Reference.w0).
Proof. eexists. reflexivity. Qed.

(** X6.  The line [git] prints for a commit is read back as that commit,
    provided no field holds a [|] and the line neither starts nor ends with
    a character [strip] removes. *)
Theorem parse_commit_commit_line c w :
  count_char "|" (hash c) = 0 ->
  count_char "|" (date c) = 0 ->
  count_char "|" (author c) = 0 ->
  count_char "|" (subject c) = 0 ->
  Py.strip (commit_line c) = commit_line c ->
  parse_commit (commit_line c) w = (Ok c, w).
Proof.
  intros Hh Hd Ha Hs Hstrip. unfold parse_commit. rewrite Hstrip.
  unfold commit_line.
  change (hash c ++ "|" ++ date c ++ "|" ++ author c ++ "|" ++ subject c)%string
    with (hash c ++ String "|" (date c ++ String "|"
            (author c ++ String "|" (subject c))))%string.
  rewrite (split_field _ _ _ Hh), (split_field _ _ _ Hd),
    (split_field _ _ _ Ha), (split_no_sep _ _ Hs).
  destruct c. reflexivity.
Qed.

Lemma parse_commit_commit_line_witness :
  parse_commit (commit_line Inputs.c31) Reference.w0
  = (Ok Inputs.c31, Reference.w0).
Proof.
  apply (parse_commit_commit_line Inputs.c31 Reference.w0); reflexivity.
Defined.

Lemma parse_commits_all_or_nothing lines w :
  (Forall (fun line => count_char "|" (Py.strip line) = 3) lines ->
   exists commits,
     parse_commits lines w = (Ok commits, w) /\
     map commit_line commits = map Py.strip lines) /\
  (Exists (fun line => count_char "|" (Py.strip line) <> 3) lines ->
   exists msg, parse_commits lines w = (Raise (TypeError msg), w)).
Proof.
  induction lines as [|line rest [IHok IHbad]]; split.
  - intros _. exists []. split; reflexivity.
  - intros H. inversion H.
  - intros Hall. inversion Hall as [|? ? Hline Hrest]; subst.
    destruct (parse_commit_ok line w Hline) as [c [Hc Hback]].
    destruct (IHok Hrest) as [commits [Hrun Hlines]].
    exists (c :: commits). split.
    + simpl. unfold bind. rewrite Hc, Hrun. reflexivity.
    + simpl. rewrite Hback, Hlines. reflexivity.
  - intros Hex. simpl. unfold bind.
    destruct (Nat.eq_dec (count_char "|" (Py.strip line)) 3) as [Hline|Hline].
    + destruct (parse_commit_ok line w Hline) as [c [Hc _]].
      rewrite Hc. inversion Hex as [? ? Hbad|? ? Hbad]; subst;
        [contradiction|].
      destruct (IHbad Hbad) as [msg Hrun]. rewrite Hrun.
      exists msg. reflexivity.
    + destruct (parse_commit_bad line w Hline) as [msg Hc].
      rewrite Hc. exists msg. reflexivity.
Qed.

(** X7.  With identifiers free of whitespace and a listing command that
    returns, divergence reading yields as many commits as the command printed
    lines, in the same order, each spelling its stripped line back, when
    every stripped line holds three [|]; a single line that does not makes
    the whole call a [TypeError], the command having run. *)
Theorem get_list_of_unmerged_commits_all_or_nothing
    P source_branch target_branch repo_dir w res :
  Py.any_whitespace source_branch = false ->
  Py.any_whitespace target_branch = false ->
  Py.any_whitespace repo_dir = false ->
  popen P (executed w)
    ("git -P log " ++ with_origin source_branch ++ " --not "
     ++ with_origin target_branch ++ " --format=" ++ dquote
     ++ "%H|%aI|%aE|%s" ++ dquote)%string
    (abspath P repo_dir) = Ok res ->
  (Forall (fun line => count_char "|" (Py.strip line) = 3) (stdout res) ->
   exists commits w',
     get_list_of_unmerged_commits P source_branch target_branch repo_dir w
     = (Ok commits, w') /\
     map commit_line commits = map Py.strip (stdout res)) /\
  (Exists (fun line => count_char "|" (Py.strip line) <> 3) (stdout res) ->
   exists msg w',
     get_list_of_unmerged_commits P source_branch target_branch repo_dir w
     = (Raise (TypeError msg), w') /\
     List.length (executed w') = S (List.length (executed w))).
Proof.
  intros Hs Ht Hr Hres. unfold get_list_of_unmerged_commits.
  rewrite (assert_no_whitespace_pass _ _ Hs).
  rewrite (assert_no_whitespace_pass _ _ Ht).
  rewrite (assert_no_whitespace_pass _ _ Hr).
  cbv beta iota delta [bind ret git_exec]. rewrite Hres.
  match goal with
  | |- context [parse_commits _ ?w1] =>
      destruct (parse_commits_all_or_nothing (stdout res) w1) as [Hok Hbad]
  end.
  split.
  - intros Hall. destruct (Hok Hall) as [commits [Hrun Hlines]].
    exists commits. eexists. split; [exact Hrun | exact Hlines].
  - intros Hex. destruct (Hbad Hex) as [msg Hrun].
    exists msg. eexists. split; [exact Hrun|].
    simpl. rewrite length_app. simpl. lia.
Qed.

Lemma get_list_of_unmerged_commits_all_or_nothing_witness :
  exists commits w',
    get_list_of_unmerged_commits Reference.the_platform "feature/x" "main"
      "repo" Reference.w0 = (Ok commits, w') /\
    map commit_line commits = map Py.strip (stdout Reference.divergence).
Proof.
  apply (proj1 (@get_list_of_unmerged_commits_all_or_nothing
                  Reference.the_platform "feature/x" "main" "repo"
                  Reference.w0 Reference.divergence
                  eq_refl eq_refl eq_refl eq_refl)).
  repeat constructor.
Defined.

(** ** The latest date of a group *)

Lemma parse_dates_first_failure P pre c post msg w :
  (forall c', In c' pre -> exists t, strptime P (d_date c') DATE_FRMT = inl t) ->
  strptime P (d_date c) DATE_FRMT = inr msg ->
  parse_dates P (pre ++ c :: post) w = (Raise (ValueError msg), w).
Proof.
  intros Hpre Hc. induction pre as [|c0 pre IH]; simpl.
  - rewrite Hc. reflexivity.
  - destruct (Hpre c0 (or_introl eq_refl)) as [t Ht]. rewrite Ht.
    unfold bind. rewrite IH; [reflexivity|].
    intros c' Hin. apply Hpre. right. exact Hin.
Qed.

(** X8.  [extract_latest_date_from_commits] never reads the clock.  On an
    empty list it raises a [ValueError]; on a list with a date that does not
    parse it raises the parser's [ValueError] for the first such date;
    otherwise it returns the instant of one of the commits, no commit being
    dated later. *)
Theorem extract_latest_date_from_commits_outcome P commits w :
  (commits = [] ->
   exists msg,
     extract_latest_date_from_commits P commits w
     = (Raise (ValueError msg), w)) /\
  (forall pre c post msg,
      commits = pre ++ c :: post ->
      (forall c', In c' pre ->
                  exists t, strptime P (d_date c') DATE_FRMT = inl t) ->
      strptime P (d_date c) DATE_FRMT = inr msg ->
      extract_latest_date_from_commits P commits w
      = (Raise (ValueError msg), w)) /\
  (dated P commits ->
   exists latest,
     extract_latest_date_from_commits P commits w = (Ok latest, w) /\
     (exists c, In c commits /\ strptime P (d_date c) DATE_FRMT = inl latest) /\
     forall c t, In c commits -> strptime P (d_date c) DATE_FRMT = inl t ->
                 (t <= latest)%Z).
Proof.
  split; [|split].
  - intros ->. eexists. reflexivity.
  - intros pre c post msg -> Hpre Hc.
    unfold extract_latest_date_from_commits, bind.
    rewrite (parse_dates_first_failure P pre c post w Hpre Hc). reflexivity.
  - intros Hd. exists (most_recent P commits).
    split; [apply extract_latest_date_run; exact Hd|].
    destruct Hd as [Hne Hall].
    destruct (most_recent_greatest P Hne) as [Hin Hmax]. split.
    + apply in_map_iff in Hin as [c [Hc Hc_in]]. exists c.
      split; [exact Hc_in|].
      destruct (Hall c Hc_in) as [t Ht]. unfold instant in Hc.
      rewrite Ht in Hc. rewrite Ht, Hc. reflexivity.
    + intros c t Hc_in Ht. specialize (Hmax c Hc_in).
      unfold instant in Hmax at 1. rewrite Ht in Hmax. exact Hmax.
Qed.

Lemma extract_latest_date_from_commits_outcome_witness :
  exists latest,
    extract_latest_date_from_commits Reference.the_platform
      [Inputs.e31; Inputs.e10; Inputs.e20] Reference.w0
    = (Ok latest, Reference.w0) /\
    (exists c, In c [Inputs.e31; Inputs.e10; Inputs.e20] /\
               strptime Reference.the_platform (d_date c) DATE_FRMT
               = inl latest) /\
    forall c t,
      In c [Inputs.e31; Inputs.e10; Inputs.e20] ->
      strptime Reference.the_platform (d_date c) DATE_FRMT = inl t ->
      (t <= latest)%Z.
Proof.
  apply (proj2 (proj2 (extract_latest_date_from_commits_outcome
                         Reference.the_platform
                         [Inputs.e31; Inputs.e10; Inputs.e20] Reference.w0))).
  apply datedb_dated. reflexivity.
Defined.

(** ** More on the staleness filter *)

Lemma subsequence_filter_map {A B} (g : A -> B) (f : A -> bool) l :
  subsequence (map g (filter f l)) (map g l).
Proof.
  induction l as [|x rest IH]; simpl; [constructor|].
  destruct (f x); simpl; constructor; exact IH.
Qed.

(** X9.  What the staleness filter returns is the mapping it was given with
    some branches left out: the branches kept stand in their former order
    and carry their commit lists untouched. *)
Theorem extract_stale_branches_subsequence P n d w :
  Py.wf d ->
  exists out w',
    extract_stale_branches P d n w = (Ok out, w') /\ subsequence out d.
Proof.
  intros Hwf. eexists. eexists. split.
  - apply extract_stale_branches_run. exact Hwf.
  - rewrite <- (schedule_entries P n d (ticks w)) at 2.
    apply subsequence_filter_map.
Qed.

Lemma extract_stale_branches_subsequence_witness :
  exists out w',
    extract_stale_branches Reference.the_platform Inputs.unmerged 7
      Reference.w0 = (Ok out, w') /\
    subsequence out Inputs.unmerged.
Proof.
  apply (@extract_stale_branches_subsequence Reference.the_platform 7
           Inputs.unmerged Reference.w0).
  apply distinct_wf. reflexivity.
Defined.

Section Threshold.

Variable P : platform.
Variables n n' : Z.

Hypothesis clock_forward : forall i j, i <= j -> (now_at P i <= now_at P j)%Z.
Hypothesis n_le : (n <= n')%Z.

Lemma is_old_mono k k' d :
  k' <= k ->
  is_old P (now_at P k') n' d = true -> is_old P (now_at P k) n d = true.
Proof.
  intros Hk. unfold is_old.
  destruct (strptime P d DATE_FRMT) as [dt|]; [|discriminate].
  rewrite !Z.leb_le. intros Hold. unfold days in *.
  pose proof (clock_forward Hk) as Hnow.
  assert ((now_at P k' - dt) / microseconds_per_day
          <= (now_at P k - dt) / microseconds_per_day)%Z.
  { apply Z.div_le_mono; [reflexivity | lia]. }
  lia.
Qed.

Lemma old_in_turn_mono dates : forall k k',
  k' <= k ->
  old_in_turn P n' k' dates = true -> old_in_turn P n k dates = true.
Proof.
  induction dates as [|d rest IH]; intros k k' Hk; simpl; [reflexivity|].
  rewrite !andb_true_iff. intros [Hd Hrest]. split.
  - apply (is_old_mono _ Hk Hd).
  - apply (IH (S k) (S k')); [lia | exact Hrest].
Qed.

Lemma readings_mono dates : forall k k',
  k' <= k ->
  readings P n' k' dates + k' <= readings P n k dates + k.
Proof.
  induction dates as [|d rest IH]; intros k k' Hk; simpl; [exact Hk|].
  destruct (strptime P d DATE_FRMT) as [dt|] eqn:Hd; [|exact Hk].
  destruct (is_old P (now_at P k') n' d) eqn:Hold'.
  - rewrite (is_old_mono _ Hk Hold').
    specialize (IH (S k) (S k')). lia.
  - destruct (is_old P (now_at P k) n d); [|lia].
    lia.
Qed.

Lemma kept_mono d : forall k k' e,
  k' <= k ->
  In e (map snd
          (filter (fun e => old_in_turn P n' (fst e) (map date (snd (snd e))))
             (schedule P n' k' d))) ->
  In e (map snd
          (filter (fun e => old_in_turn P n (fst e) (map date (snd (snd e))))
             (schedule P n k d))).
Proof.
  induction d as [|[b commits] rest IH]; intros k k' e Hk; simpl; [auto|].
  pose proof (readings_mono (map date commits) Hk) as Hnext.
  destruct (old_in_turn P n' k' (map date commits)) eqn:Hold'.
  - rewrite (old_in_turn_mono _ Hk Hold'). simpl.
    intros [<-|Hin]; [left; reflexivity | right].
    apply (IH _ _ _ Hnext Hin).
  - intros Hin. apply (IH _ _ _ Hnext) in Hin.
    destruct (old_in_turn P n k (map date commits)); simpl; auto.
Qed.

(** X10.  With a clock that does not run backwards, lowering the threshold
    never loses a branch: whatever the filter keeps for the threshold [n'] it
    also keeps, on the same mapping and from the same world, for any
    threshold [n <= n']. *)
Theorem extract_stale_branches_threshold d w :
  Py.wf d ->
  exists out out' w1 w2,
    extract_stale_branches P d n w = (Ok out, w1) /\
    extract_stale_branches P d n' w = (Ok out', w2) /\
    forall b commits, In (b, commits) out' -> In (b, commits) out.
Proof.
  intros Hwf. eexists. eexists. eexists. eexists.
  split; [apply extract_stale_branches_run; exact Hwf|].
  split; [apply extract_stale_branches_run; exact Hwf|].
  intros b commits Hin.
  apply (@kept_mono d (ticks w) (ticks w) (b, commits) (le_n _) Hin).
Qed.

End Threshold.

Lemma running_clock_forward i j :
  i <= j -> (Reference.running_clock i <= Reference.running_clock j)%Z.
Proof. unfold Reference.running_clock. lia. Qed.

Lemma extract_stale_branches_threshold_witness :
  exists out out' w1 w2,
    extract_stale_branches Reference.the_platform Inputs.unmerged 7
      Reference.w0 = (Ok out, w1) /\
    extract_stale_branches Reference.the_platform Inputs.unmerged 20
      Reference.w0 = (Ok out', w2) /\
    forall b commits, In (b, commits) out' -> In (b, commits) out.
Proof.
  assert (Hle : (7 <= 20)%Z) by lia.
  apply (@extract_stale_branches_threshold Reference.the_platform 7 20
           running_clock_forward Hle Inputs.unmerged Reference.w0).
  apply distinct_wf. reflexivity.
Defined.

(** ** More on the pivot by repository *)

Lemma by_repo_step_set acc r :
  by_repo_step acc r
  = Py.set (repo_dir r)
      (Py.set (branch r) (report r)
         (match Py.get (repo_dir r) acc with Some rd => rd | None => [] end))
      acc.
Proof.
  unfold by_repo_step, Py.setdefault.
  destruct (Py.get (repo_dir r) acc) as [rd|]; cbv beta iota zeta.
  - reflexivity.
  - rewrite set_set. reflexivity.
Qed.

(** X11.  In the pivot by repository the entry read back under a location
    and a branch is the report of the last record with that location and
    branch, earlier ones being overwritten; a pair no record carries reads
    back as nothing. *)
Theorem aggregate_scan_results_by_repo_last_wins rs :
  (forall pre r post,
      rs = pre ++ r :: post ->
      ~ In (grouping_key r) (map grouping_key post) ->
      read_back (repo_dir r) (branch r) (aggregate_scan_results_by_repo rs)
      = Some (report r)) /\
  (forall repo b,
      ~ In (repo, b) (map grouping_key rs) ->
      read_back repo b (aggregate_scan_results_by_repo rs) = None).
Proof.
  unfold aggregate_scan_results_by_repo. split.
  - intros pre r post -> Hlast. rewrite fold_left_app. cbn [fold_left].
    rewrite by_repo_fold_others by exact Hlast. apply by_repo_step_same.
  - intros repo b Hnone. rewrite by_repo_fold_others by exact Hnone.
    reflexivity.
Qed.

Lemma aggregate_scan_results_by_repo_last_wins_witness :
  read_back "/ws/alpha" "main"
    (aggregate_scan_results_by_repo
       [Inputs.scan_alpha; Inputs.scan_beta;
        {| branch := "main"; repo_dir := "/ws/alpha";
           report := Inputs.one_branch |}])
  = Some Inputs.one_branch.
Proof.
  apply (proj1 (aggregate_scan_results_by_repo_last_wins
                  [Inputs.scan_alpha; Inputs.scan_beta;
                   {| branch := "main"; repo_dir := "/ws/alpha";
                      report := Inputs.one_branch |}])
           [Inputs.scan_alpha; Inputs.scan_beta]
           {| branch := "main"; repo_dir := "/ws/alpha";
              report := Inputs.one_branch |} []).
  - reflexivity.
  - simpl. tauto.
Defined.

(** X12.  The pivot by repository holds one entry for each repository
    location, in the order in which the locations first occur among the
    records. *)
Theorem aggregate_scan_results_by_repo_keys rs :
  Py.keys (aggregate_scan_results_by_repo rs) = first_seen (map repo_dir rs) /\
  Py.wf (aggregate_scan_results_by_repo rs).
Proof.
  unfold aggregate_scan_results_by_repo, first_seen.
  assert (Hgen : forall acc : Py.dict (Py.dict report_by_branch),
             Py.wf acc ->
             Py.keys (fold_left by_repo_step rs acc)
             = fold_left
                 (fun seen x =>
                    if existsb (String.eqb x) seen then seen else seen ++ [x])
                 (map repo_dir rs) (Py.keys acc) /\
             Py.wf (fold_left by_repo_step rs acc)).
  { induction rs as [|r rest IH]; intros acc Hwf.
    - split; [reflexivity | exact Hwf].
    - cbn [fold_left map]. rewrite by_repo_step_set.
      rewrite <- keys_set_seen
        with (v := Py.set (branch r) (report r)
                     (match Py.get (repo_dir r) acc with
                      | Some rd => rd
                      | None => []
                      end)).
      apply IH. apply wf_set. exact Hwf. }
  apply (Hgen []). constructor.
Qed.

(** ** More on the pivot by author *)

Section ByEmailEntries.

Variable a : string.

(** What the records do to the entry of the author [a]. *)
Lemma by_email_fold_get rs :
  forall acc : Py.dict (Py.dict (Py.dict (list commit_dict))),
  Py.get a
    (fold_left
       (fun results_by_email result_by_branch =>
          by_email_branches (repo_dir result_by_branch)
            (branch result_by_branch) results_by_email
            (report result_by_branch)) rs acc)
  = fold_left
      (fun entry r =>
         fold_left (place_in (repo_dir r) (branch r))
           (groups_of a (report r)) entry)
      rs (Py.get a acc).
Proof.
  induction rs as [|r rest IH]; intros acc; [reflexivity|].
  cbn [fold_left]. rewrite IH, by_email_branches_get. reflexivity.
Qed.

Lemma place_read repo br cs ad repo' br' :
  match Py.get repo' (place repo br cs ad) with
  | Some rd => Py.get br' rd
  | None => None
  end
  = if String.eqb repo repo' && String.eqb br br' then Some cs
    else match Py.get repo' ad with
         | Some rd => Py.get br' rd
         | None => None
         end.
Proof.
  unfold place. rewrite get_set.
  destruct (String.eqb_spec repo repo') as [->|Hrepo]; simpl; [|reflexivity].
  rewrite get_set. destruct (String.eqb br br'); [reflexivity|].
  destruct (Py.get repo' ad); reflexivity.
Qed.

End ByEmailEntries.

(** X13.  The pivot by author invents nothing and mixes nothing up: a commit
    list found under an author, a repository location and a branch is one of
    the commit lists that author has in the report of a record with that
    location and that integration branch. *)
Theorem aggregate_scan_results_by_email_sound rs a ad repo rd br cs :
  Py.get a (aggregate_scan_results_by_email rs) = Some ad ->
  Py.get repo ad = Some rd ->
  Py.get br rd = Some cs ->
  exists r, In r rs /\ repo_dir r = repo /\ branch r = br /\
            In cs (groups_of a (report r)).
Proof.
  unfold aggregate_scan_results_by_email. rewrite by_email_fold_get.
  change (Py.get a []) with (@None (Py.dict (Py.dict (list commit_dict)))).
  set (sound := fun (known : list scan_result)
                    (entry : option (Py.dict (Py.dict (list commit_dict)))) =>
                  forall ad repo rd br cs,
                    entry = Some ad -> Py.get repo ad = Some rd ->
                    Py.get br rd = Some cs ->
                    exists r, In r known /\ repo_dir r = repo /\
                              branch r = br /\
                              In cs (groups_of a (report r))).
  assert (Hplace : forall known r gs entry,
             In r known ->
             (forall g, In g gs -> In g (groups_of a (report r))) ->
             sound known entry ->
             sound known
               (fold_left (place_in (repo_dir r) (branch r)) gs entry)).
  { intros known r gs. induction gs as [|g gs IH]; intros entry Hr Hgs Hs.
    - exact Hs.
    - cbn [fold_left]. apply IH; [exact Hr | intros; apply Hgs; right; auto|].
      intros ad0 repo0 rd0 br0 cs0 Hentry Hrepo Hbr.
      unfold place_in in Hentry. injection Hentry as <-.
      pose proof (place_read (repo_dir r) (branch r) g
                    (match entry with Some x => x | None => [] end)
                    repo0 br0) as Hread.
      rewrite Hrepo, Hbr in Hread.
      destruct (String.eqb_spec (repo_dir r) repo0) as [Hr0|Hr0];
        destruct (String.eqb_spec (branch r) br0) as [Hb0|Hb0]; simpl in Hread.
      + injection Hread as <-. exists r. repeat split; auto.
        apply Hgs. left. reflexivity.
      + destruct entry as [ad1|]; [|simpl in Hread; discriminate].
        destruct (Py.get repo0 ad1) as [rd1|] eqn:E1; [|discriminate].
        apply (Hs ad1 repo0 rd1 br0 cs0 eq_refl E1). symmetry. exact Hread.
      + destruct entry as [ad1|]; [|simpl in Hread; discriminate].
        destruct (Py.get repo0 ad1) as [rd1|] eqn:E1; [|discriminate].
        apply (Hs ad1 repo0 rd1 br0 cs0 eq_refl E1). symmetry. exact Hread.
      + destruct entry as [ad1|]; [|simpl in Hread; discriminate].
        destruct (Py.get repo0 ad1) as [rd1|] eqn:E1; [|discriminate].
        apply (Hs ad1 repo0 rd1 br0 cs0 eq_refl E1). symmetry. exact Hread. }
  assert (Hfold : forall known todo entry,
             (forall r, In r todo -> In r known) ->
             sound known entry ->
             sound known
               (fold_left
                  (fun entry r =>
                     fold_left (place_in (repo_dir r) (branch r))
                       (groups_of a (report r)) entry) todo entry)).
  { intros known todo. induction todo as [|r rest IH]; intros entry Hsub Hs.
    - exact Hs.
    - cbn [fold_left]. apply IH; [intros; apply Hsub; right; auto|].
      apply Hplace; [apply Hsub; left; reflexivity | auto | exact Hs]. }
  intros Hget Hrepo Hbr.
  apply (Hfold rs rs None (fun r H => H)) with (ad := ad) (rd := rd);
    [intros ? ? ? ? ? [=] | exact Hget | exact Hrepo | exact Hbr].
Qed.

Lemma aggregate_scan_results_by_email_sound_witness :
  exists r,
    In r [Inputs.scan_alpha; Inputs.scan_beta] /\
    repo_dir r = "/ws/beta" /\ branch r = "development" /\
    In [Inputs.e20] (groups_of "a@x.com" (report r)).
Proof.
  apply (@aggregate_scan_results_by_email_sound
           [Inputs.scan_alpha; Inputs.scan_beta] "a@x.com"
           [("/ws/alpha", [("main", [Inputs.e20])]);
            ("/ws/beta", [("development", [Inputs.e20])])]
           "/ws/beta" [("development", [Inputs.e20])] "development"
           [Inputs.e20]); reflexivity.
Defined.

(** X14.  No author is forgotten: whoever has a commit list in the report of
    a record has an entry in the pivot by author, with the record's location
    and, under it, the record's integration branch. *)
Theorem aggregate_scan_results_by_email_complete rs r a :
  In r rs ->
  groups_of a (report r) <> [] ->
  exists ad rd cs,
    Py.get a (aggregate_scan_results_by_email rs) = Some ad /\
    Py.get (repo_dir r) ad = Some rd /\
    Py.get (branch r) rd = Some cs.
Proof.
  unfold aggregate_scan_results_by_email. rewrite by_email_fold_get.
  generalize (Py.get a (@nil (string * Py.dict (Py.dict (list commit_dict))))).
  set (has := fun entry : option (Py.dict (Py.dict (list commit_dict))) =>
                exists ad rd cs,
                  entry = Some ad /\ Py.get (repo_dir r) ad = Some rd /\
                  Py.get (branch r) rd = Some cs).
  assert (Hkeep : forall repo br gs entry,
             has entry -> has (fold_left (place_in repo br) gs entry)).
  { intros repo br gs. induction gs as [|g gs IH]; intros entry Hhas;
      [exact Hhas|].
    cbn [fold_left]. apply IH. destruct Hhas as (ad & rd & cs & -> & Hrd & Hcs).
    pose proof (place_read repo br g ad (repo_dir r) (branch r)) as Hread.
    rewrite Hrd, Hcs in Hread.
    destruct (Py.get (repo_dir r) (place repo br g ad)) as [rd'|] eqn:E;
      [|destruct (String.eqb repo (repo_dir r) && String.eqb br (branch r));
        discriminate].
    exists (place repo br g ad), rd'.
    destruct (String.eqb repo (repo_dir r) && String.eqb br (branch r));
      eexists; repeat split; try exact E; exact Hread. }
  assert (Hmake : forall gs entry,
             gs <> [] ->
             has (fold_left (place_in (repo_dir r) (branch r)) gs entry)).
  { intros [|g gs] entry Hne; [contradiction|]. cbn [fold_left].
    apply Hkeep.
    pose proof (place_read (repo_dir r) (branch r) g
                  (match entry with Some x => x | None => [] end)
                  (repo_dir r) (branch r)) as Hread.
    rewrite !String.eqb_refl in Hread. simpl in Hread.
    destruct (Py.get (repo_dir r)
                (place (repo_dir r) (branch r) g
                   (match entry with Some x => x | None => [] end)))
      as [rd'|] eqn:E; [|discriminate].
    eexists. exists rd', g. repeat split; [exact E | exact Hread]. }
  revert r has Hkeep Hmake.
  induction rs as [|r0 rest IH]; intros r has Hkeep Hmake entry Hin Hne;
    [contradiction|].
  cbn [fold_left]. destruct Hin as [->|Hin].
  - clear IH. generalize (Hmake _ entry Hne).
    generalize (fold_left (place_in (repo_dir r) (branch r))
                  (groups_of a (report r)) entry).
    induction rest as [|r1 rest IH]; intros e He; [exact He|].
    cbn [fold_left]. apply IH. apply Hkeep. exact He.
  - apply (IH r Hkeep Hmake _ Hin Hne).
Qed.

Lemma aggregate_scan_results_by_email_complete_witness :
  exists ad rd cs,
    Py.get "b@x.com"
      (aggregate_scan_results_by_email [Inputs.scan_alpha; Inputs.scan_beta])
    = Some ad /\
    Py.get "/ws/alpha" ad = Some rd /\ Py.get "main" rd = Some cs.
Proof.
  apply (@aggregate_scan_results_by_email_complete
           [Inputs.scan_alpha; Inputs.scan_beta] Inputs.scan_alpha "b@x.com").
  - left. reflexivity.
  - discriminate.
Defined.

(** ** Refs with and without [origin/] *)

Lemma any_whitespace_app s1 s2 :
  Py.any_whitespace (s1 ++ s2)
  = Py.any_whitespace s1 || Py.any_whitespace s2.
Proof.
  induction s1 as [|c rest IH]; simpl; [reflexivity|].
  rewrite IH, orb_assoc. reflexivity.
Qed.

Lemma with_origin_prefixed b :
  Py.startswith b "origin/" = false ->
  with_origin ("origin/" ++ b) = with_origin b.
Proof.
  intros H. unfold with_origin. rewrite H.
  assert (Hp : Py.startswith ("origin/" ++ b) "origin/" = true).
  { unfold Py.startswith. simpl.
    repeat (destruct (ascii_dec _ _) as [_|Hc]; [|contradiction Hc; reflexivity]).
    destruct b; reflexivity. }
  rewrite Hp. reflexivity.
Qed.

Lemma or_else_nonempty b default : b <> "" -> or_else b default = b.
Proof.
  intros H. unfold or_else. destruct (String.eqb_spec b ""); [contradiction|].
  reflexivity.
Qed.

(** X15.  A ref may be given with or without its [origin/]: for a name that
    is not empty, holds no whitespace and does not start with [origin/],
    branch discovery and divergence reading do the same whether they are
    given the name or [origin/] followed by the name. *)
Theorem origin_prefix_optional P main_branch_name b w :
  b <> "" ->
  Py.any_whitespace b = false ->
  Py.startswith b "origin/" = false ->
  (forall repo_dir include_main,
      get_list_of_unmerged_branches P main_branch_name ("origin/" ++ b)
        repo_dir include_main w
      = get_list_of_unmerged_branches P main_branch_name b repo_dir
          include_main w) /\
  (forall other repo_dir,
      get_list_of_unmerged_commits P ("origin/" ++ b) other repo_dir w
      = get_list_of_unmerged_commits P b other repo_dir w /\
      get_list_of_unmerged_commits P other ("origin/" ++ b) repo_dir w
      = get_list_of_unmerged_commits P other b repo_dir w).
Proof.
  intros Hne Hws Hprefix.
  assert (Hws' : Py.any_whitespace ("origin/" ++ b) = false).
  { rewrite any_whitespace_app, Hws. reflexivity. }
  split.
  - intros repo_dir include_main. unfold get_list_of_unmerged_branches.
    rewrite (or_else_nonempty _ Hne).
    rewrite (or_else_nonempty main_branch_name (b := "origin/" ++ b))
      by discriminate.
    rewrite (assert_no_whitespace_pass _ _ Hws).
    rewrite (assert_no_whitespace_pass _ _ Hws').
    rewrite (with_origin_prefixed _ Hprefix). reflexivity.
  - intros other repo_dir. unfold get_list_of_unmerged_commits. split.
    + rewrite (assert_no_whitespace_pass _ _ Hws).
      rewrite (assert_no_whitespace_pass _ _ Hws').
      rewrite (with_origin_prefixed _ Hprefix). reflexivity.
    + destruct (Py.any_whitespace other) eqn:Ho.
      * rewrite !(assert_no_whitespace_fail _ _ Ho). reflexivity.
      * rewrite !(assert_no_whitespace_pass _ _ Ho).
        rewrite (assert_no_whitespace_pass _ _ Hws).
        rewrite (assert_no_whitespace_pass _ _ Hws').
        rewrite (with_origin_prefixed _ Hprefix). reflexivity.
Qed.

Lemma origin_prefix_optional_witness :
  get_list_of_unmerged_branches Reference.the_platform "main" "origin/main"
    "repo" false Reference.w0
  = get_list_of_unmerged_branches Reference.the_platform "main" "main"
      "repo" false Reference.w0.
Proof.
  assert (Hne : "main" <> "") by discriminate.
  apply (proj1 (@origin_prefix_optional Reference.the_platform "main" "main"
                  Reference.w0 Hne eq_refl eq_refl)).
Defined.

(** ** Fetching *)

Import Orchestrator.

(** X16.  [execute_git_fetch] turns down a path with whitespace before any
    command is run.  Otherwise it runs the fetch with [--unshallow] in the
    absolute path of the repository, and runs it a second and last time,
    without [--unshallow], exactly when one of the lines of [stderr] is the
    complaint about a complete repository, word for word; the result
    returned is that of the last command run, whatever its exit code. *)
Theorem execute_git_fetch_retry P repo_dir w :
  (Py.any_whitespace repo_dir = true ->
   exists msg,
     execute_git_fetch P repo_dir w = (Raise (AssertionError msg), w)) /\
  (Py.any_whitespace repo_dir = false ->
   let cwd := abspath P repo_dir in
   let first :=
     "git -P fetch --prune --prune-tags --no-tags --no-recurse-submodules --unshallow" in
   let second :=
     "git -P fetch --prune --prune-tags --no-tags --no-recurse-submodules" in
   (forall e,
       popen P (executed w) first cwd = Raise e ->
       execute_git_fetch P repo_dir w
       = (Raise e, with_commands [(first, cwd)] w)) /\
   (forall res,
       popen P (executed w) first cwd = Ok res ->
       (contains unshallow_complaint (stderr res) = false ->
        execute_git_fetch P repo_dir w
        = (Ok res, with_commands [(first, cwd)] w)) /\
       (contains unshallow_complaint (stderr res) = true ->
        execute_git_fetch P repo_dir w
        = (popen P (executed w ++ [(first, cwd)]) second cwd,
           with_commands [(first, cwd); (second, cwd)] w)))).
Proof.
  split.
  - intros Hws. unfold execute_git_fetch.
    rewrite (assert_no_whitespace_fail _ _ Hws).
    eexists. reflexivity.
  - intros Hws cwd first second. unfold execute_git_fetch.
    rewrite (assert_no_whitespace_pass _ _ Hws).
    change (fetch_cmd fetch_options) with first.
    cbv beta iota delta [bind ret git_exec]. fold cwd.
    split.
    + intros e He. rewrite He. reflexivity.
    + intros res Hres. rewrite Hres. split; intros Hc; rewrite Hc.
      * reflexivity.
      * unfold with_commands. simpl. rewrite <- app_assoc. reflexivity.
Qed.

Lemma execute_git_fetch_retry_witness :
  exists msg,
    execute_git_fetch Reference.the_platform "my repo" Reference.w0
    = (Raise (AssertionError msg), Reference.w0).
Proof.
  apply (proj1 (execute_git_fetch_retry Reference.the_platform "my repo"
                  Reference.w0)).
  reflexivity.
Defined.

(** On a complete repository the fetch is run twice. *)
Example execute_git_fetch_twice :
  execute_git_fetch Cases.complete_repo "repo" Reference.w0
  = (Ok {| rc := 0; stdout := []; stderr := [] |},
     with_commands
       [("git -P fetch --prune --prune-tags --no-tags --no-recurse-submodules --unshallow",
         "/ws/repo");
        ("git -P fetch --prune --prune-tags --no-tags --no-recurse-submodules",
         "/ws/repo")] Reference.w0).
Proof. vm_compute. reflexivity. Qed.

(** A line that holds the complaint after the word [fatal:] is not the
    complaint, and the fetch is not tried again. *)
Example complaint_within_a_line :
  contains unshallow_complaint
    ["fatal: --unshallow on a complete repository does not make sense"]
  = false.
Proof. reflexivity. Qed.

(** ** Reading the divergence of every branch *)

Lemma get_list_of_unmerged_commits_ok P source target repo w commits w' :
  get_list_of_unmerged_commits P source target repo w = (Ok commits, w') ->
  Py.any_whitespace source = false /\
  List.length (executed w') = S (List.length (executed w)).
Proof.
  unfold get_list_of_unmerged_commits.
  destruct (Py.any_whitespace source) eqn:Hs.
  { rewrite (assert_no_whitespace_fail _ _ Hs). discriminate. }
  rewrite (assert_no_whitespace_pass _ _ Hs).
  destruct (Py.any_whitespace target) eqn:Ht.
  { rewrite (assert_no_whitespace_fail _ _ Ht). discriminate. }
  rewrite (assert_no_whitespace_pass _ _ Ht).
  destruct (Py.any_whitespace repo) eqn:Hr.
  { rewrite (assert_no_whitespace_fail _ _ Hr). discriminate. }
  rewrite (assert_no_whitespace_pass _ _ Hr).
  cbv beta iota delta [bind ret git_exec].
  destruct (popen P (executed w) _ _) as [res|e]; [|discriminate].
  intros Hrun. split; [reflexivity|].
  pose proof (parse_commits_world (stdout res)) as Hworld.
  match type of Hrun with
  | parse_commits _ ?w1 = _ => specialize (Hworld w1)
  end.
  rewrite Hrun in Hworld. simpl in Hworld. subst w'. simpl.
  rewrite length_app. simpl. lia.
Qed.

Lemma fetch_unmerged_commits_loop_ok P branches : forall branch repo acc w d w',
  fetch_unmerged_commits_loop P branches branch repo acc w = (Ok d, w') ->
  Py.keys d
  = fold_left
      (fun seen x => if existsb (String.eqb x) seen then seen else seen ++ [x])
      branches (Py.keys acc) /\
  List.length (executed w')
  = List.length (executed w) + List.length branches /\
  Forall (fun b => Py.any_whitespace b = false) branches /\
  (Py.wf acc -> Py.wf d).
Proof.
  induction branches as [|b rest IH]; intros branch repo acc w d w' Hrun.
  - simpl in Hrun. injection Hrun as <- <-. simpl.
    repeat split; [lia | constructor | auto].
  - cbn [fetch_unmerged_commits_loop] in Hrun. unfold bind in Hrun.
    destruct (get_list_of_unmerged_commits P b branch repo w)
      as [[commits|e] w1] eqn:Hone; [|discriminate].
    apply get_list_of_unmerged_commits_ok in Hone as [Hb Hlog].
    apply IH in Hrun as (Hkeys & Hlen & Hall & Hwf).
    rewrite keys_set_seen in Hkeys. cbn [fold_left].
    repeat split.
    + exact Hkeys.
    + simpl. lia.
    + constructor; assumption.
    + intros Hacc. apply Hwf. apply wf_set. exact Hacc.
Qed.

(** X17.  When [fetch_unmerged_commits_by_branch] returns a mapping, its keys
    are the branches it was given, each once, in the order of their first
    occurrence; none of them holds whitespace; and one [git log] was run for
    each branch of the list. *)
Theorem fetch_unmerged_commits_by_branch_keys
    P main_branch_name unmerged_branches branch repo_dir w d w' :
  fetch_unmerged_commits_by_branch P main_branch_name unmerged_branches
    branch repo_dir w = (Ok d, w') ->
  Py.keys d = first_seen unmerged_branches /\
  Py.wf d /\
  Forall (fun b => Py.any_whitespace b = false) unmerged_branches /\
  List.length (executed w')
  = List.length (executed w) + List.length unmerged_branches.
Proof.
  unfold fetch_unmerged_commits_by_branch.
  destruct (Py.any_whitespace (or_else branch main_branch_name)) eqn:Hb.
  { rewrite (assert_no_whitespace_fail _ _ Hb). discriminate. }
  rewrite (assert_no_whitespace_pass _ _ Hb).
  destruct (Py.any_whitespace repo_dir) eqn:Hr.
  { rewrite (assert_no_whitespace_fail _ _ Hr). discriminate. }
  rewrite (assert_no_whitespace_pass _ _ Hr).
  cbv beta iota delta [bind ret]. intros Hrun.
  apply fetch_unmerged_commits_loop_ok in Hrun as (Hkeys & Hlen & Hall & Hwf).
  repeat split; [exact Hkeys | apply Hwf; constructor | exact Hall | exact Hlen].
Qed.

Lemma fetch_unmerged_commits_by_branch_keys_witness :
  exists d w',
    fetch_unmerged_commits_by_branch Reference.the_platform "main"
      ["origin/feature/x"; "origin/feature/y"; "origin/feature/x"] "main"
      "repo" Reference.w0 = (Ok d, w') /\
    Py.keys d = ["origin/feature/x"; "origin/feature/y"] /\
    List.length (executed w') = 3.
Proof.
  destruct (fetch_unmerged_commits_by_branch Reference.the_platform "main"
              ["origin/feature/x"; "origin/feature/y"; "origin/feature/x"]
              "main" "repo" Reference.w0) as [[d|e] w'] eqn:Hrun;
    [|vm_compute in Hrun; discriminate].
  exists d, w'. split; [reflexivity|].
  destruct (fetch_unmerged_commits_by_branch_keys _ _ _ _ _ _ Hrun)
    as (Hkeys & _ & _ & Hlen).
  split; [exact Hkeys | exact Hlen].
Defined.

(** ** One scan *)

Lemma bind_inv_ok {A B} (m : M A) (k : A -> M B) w b w' :
  bind m k w = (Ok b, w') ->
  exists a w1, m w = (Ok a, w1) /\ k a w1 = (Ok b, w').
Proof.
  unfold bind. destruct (m w) as [[a|e] w1]; [|discriminate].
  intros H. exists a, w1. auto.
Qed.

Lemma extends_refl w : extends w w.
Proof. exists []. rewrite app_nil_r. reflexivity. Qed.

Lemma extends_trans w1 w2 w3 : extends w1 w2 -> extends w2 w3 -> extends w1 w3.
Proof.
  intros [t1 H1] [t2 H2]. exists (t1 ++ t2).
  rewrite H2, H1, app_assoc. reflexivity.
Qed.

Lemma extends_same_log w w' : executed w' = executed w -> extends w w'.
Proof. intros H. exists []. rewrite app_nil_r. exact H. Qed.

Lemma get_list_of_unmerged_commits_extends P source target repo w :
  extends w (snd (get_list_of_unmerged_commits P source target repo w)).
Proof.
  unfold get_list_of_unmerged_commits.
  destruct (Py.any_whitespace source) eqn:Hs.
  { rewrite (assert_no_whitespace_fail _ _ Hs). apply extends_refl. }
  rewrite (assert_no_whitespace_pass _ _ Hs).
  destruct (Py.any_whitespace target) eqn:Ht.
  { rewrite (assert_no_whitespace_fail _ _ Ht). apply extends_refl. }
  rewrite (assert_no_whitespace_pass _ _ Ht).
  destruct (Py.any_whitespace repo) eqn:Hr.
  { rewrite (assert_no_whitespace_fail _ _ Hr). apply extends_refl. }
  rewrite (assert_no_whitespace_pass _ _ Hr).
  cbv beta iota delta [bind ret git_exec].
  destruct (popen P (executed w) _ _) as [res|e].
  - rewrite parse_commits_world. eexists. reflexivity.
  - eexists. reflexivity.
Qed.

Lemma fetch_unmerged_commits_loop_extends P branches :
  forall branch repo acc w,
    extends w
      (snd (fetch_unmerged_commits_loop P branches branch repo acc w)).
Proof.
  induction branches as [|b rest IH]; intros branch repo acc w.
  - apply extends_refl.
  - cbn [fetch_unmerged_commits_loop]. unfold bind.
    pose proof (get_list_of_unmerged_commits_extends P b branch repo w) as H1.
    destruct (get_list_of_unmerged_commits P b branch repo w)
      as [[commits|e] w1]; simpl in H1.
    + eapply extends_trans; [exact H1 | apply IH].
    + exact H1.
Qed.

Lemma fetch_unmerged_commits_by_branch_extends P main branches branch repo w :
  extends w
    (snd (fetch_unmerged_commits_by_branch P main branches branch repo w)).
Proof.
  unfold fetch_unmerged_commits_by_branch.
  destruct (Py.any_whitespace (or_else branch main)) eqn:Hb.
  { rewrite (assert_no_whitespace_fail _ _ Hb). apply extends_refl. }
  rewrite (assert_no_whitespace_pass _ _ Hb).
  destruct (Py.any_whitespace repo) eqn:Hr.
  { rewrite (assert_no_whitespace_fail _ _ Hr). apply extends_refl. }
  rewrite (assert_no_whitespace_pass _ _ Hr).
  apply fetch_unmerged_commits_loop_extends.
Qed.

Lemma extract_stale_branches_log P d n w :
  executed (snd (extract_stale_branches P d n w)) = executed w.
Proof.
  unfold extract_stale_branches. rewrite extract_stale_branches_loop_run.
  reflexivity.
Qed.

Lemma write_report_log J (json_dumps : J -> Z -> result string)
    (save_json : J -> string -> Z -> result unit) report kwargs w :
  executed (snd (write_report json_dumps save_json report kwargs w))
  = executed w.
Proof.
  unfold write_report, try_except_else, print_json_to_stdout,
    save_json_to_file, bind, print, ret, raise.
  destruct (match kw_output kwargs with
            | Some path => if String.eqb path "" then None else Some path
            | None => None
            end) as [path|].
  - destruct (save_json report path _); simpl;
      [|destruct (pop (kw_raise_exceptions kwargs) true)]; reflexivity.
  - destruct (json_dumps report _); simpl;
      [|destruct (pop (kw_raise_exceptions kwargs) true)]; reflexivity.
Qed.

Lemma or_else_idem b default :
  or_else (or_else b default) default = or_else b default.
Proof.
  unfold or_else. destruct (String.eqb_spec b "") as [->|Hb].
  - destruct (String.eqb default ""); reflexivity.
  - destruct (String.eqb_spec b ""); [contradiction | reflexivity].
Qed.

Section ScanFacts.

Variable P : platform.
Variable main_branch_name : string.
Variable save_scans : bool.
Variable int_of_str : string -> Z + string.
Variable json_dumps : report_by_branch -> Z -> result string.
Variable save_json : report_by_branch -> string -> Z -> result unit.

(** X18.  [scan] turns down a branch or a repository path with whitespace
    at once: it raises an [AssertionError], no command has run, nothing has
    been printed and [self.scans] is as before. *)
Theorem scan_rejects_whitespace branch repo_dir kwargs scans w :
  Py.any_whitespace branch = true \/ Py.any_whitespace repo_dir = true ->
  exists msg,
    scan P main_branch_name save_scans int_of_str json_dumps save_json branch
      repo_dir kwargs scans w
    = (Raise (AssertionError msg), scans, w).
Proof.
  intros Hws. unfold scan, scan_report.
  destruct (Py.any_whitespace (or_else branch main_branch_name)) eqn:Hb.
  - rewrite (assert_no_whitespace_fail _ _ Hb). eexists. reflexivity.
  - rewrite (assert_no_whitespace_pass _ _ Hb).
    destruct Hws as [Hws|Hws].
    + rewrite (or_else_whitespace _ _ Hws) in Hb. congruence.
    + rewrite (assert_no_whitespace_fail _ _ Hws). eexists. reflexivity.
Qed.

(** X19.  A [stale] that is a string [int] does not read makes [scan] raise
    the [ValueError] of [int] before any command is run, the identifiers
    having passed their check; [self.scans] is as before. *)
Theorem scan_rejects_stale branch repo_dir kwargs scans w s msg :
  Py.any_whitespace (or_else branch main_branch_name) = false ->
  Py.any_whitespace repo_dir = false ->
  kw_stale kwargs = Some (StaleStr s) ->
  int_of_str s = inr msg ->
  scan P main_branch_name save_scans int_of_str json_dumps save_json branch
      repo_dir kwargs scans w = (Raise (ValueError msg), scans, w).
Proof.
  intros Hb Hr Hstale Hint. unfold scan, scan_report.
  rewrite (assert_no_whitespace_pass _ _ Hb).
  rewrite (assert_no_whitespace_pass _ _ Hr).
  rewrite Hstale. unfold pop, int_. rewrite Hint. reflexivity.
Qed.

(** What follows the fetch in [scan]: listing, divergence, filter, report. *)
Lemma scan_after_fetch_log branch repo_dir include_main n w :
  Py.any_whitespace (or_else branch main_branch_name) = false ->
  Py.any_whitespace repo_dir = false ->
  exists tail,
    executed
      (snd
         ((unmerged_branches <-
             get_list_of_unmerged_branches P main_branch_name
               (or_else branch main_branch_name) repo_dir include_main ;;
           unmerged_commits_by_branch <-
             fetch_unmerged_commits_by_branch P main_branch_name
               unmerged_branches (or_else branch main_branch_name) repo_dir ;;
           stale_branches_with_commits <-
             extract_stale_branches P unmerged_commits_by_branch n ;;
           ret (create_report_by_branch stale_branches_with_commits)) w))
    = executed w
      ++ (("git -P branch -r --no-merged "
           ++ with_origin (or_else branch main_branch_name))%string,
          abspath P repo_dir) :: tail.
Proof.
  intros Hb Hr. unfold bind at 1. unfold get_list_of_unmerged_branches.
  rewrite or_else_idem.
  rewrite (assert_no_whitespace_pass _ _ Hb).
  rewrite (assert_no_whitespace_pass _ _ Hr).
  cbv beta iota delta [bind ret git_exec].
  destruct (popen P (executed w) _ _) as [res|e]; [|exists []; reflexivity].
  match goal with
  | |- context [fetch_unmerged_commits_by_branch P main_branch_name ?bs ?b ?r ?w1] =>
      pose proof (fetch_unmerged_commits_by_branch_extends P main_branch_name
                    bs b r w1) as [tail Htail];
      destruct (fetch_unmerged_commits_by_branch P main_branch_name bs b r w1)
        as [[d|e] w2]
  end; simpl in Htail.
  - pose proof (extract_stale_branches_log P d n w2) as Hlog.
    destruct (extract_stale_branches P d n w2) as [[out|e] w3];
      simpl in Hlog |- *; rewrite Hlog, Htail, <- app_assoc;
      exists tail; reflexivity.
  - simpl. rewrite Htail, <- app_assoc. exists tail. reflexivity.
Qed.

(** X20.  Once the arguments have passed, [scan] with [fetch_first] off runs
    the branch listing as its first command; with [fetch_first] on (which it
    is unless passed as false) it runs the fetch first and, when the fetch
    command returns without the complaint, whatever its exit code, the
    branch listing next: a fetch that fails does not stop the scan. *)
Theorem scan_fetch_first branch repo_dir kwargs scans w n :
  Py.any_whitespace (or_else branch main_branch_name) = false ->
  Py.any_whitespace repo_dir = false ->
  int_ int_of_str (pop (kw_stale kwargs) (StaleStr STALE_DAYS_DEFAULT))
  = ret n ->
  let cwd := abspath P repo_dir in
  let listing :=
    ("git -P branch -r --no-merged "
     ++ with_origin (or_else branch main_branch_name))%string in
  let fetch :=
    "git -P fetch --prune --prune-tags --no-tags --no-recurse-submodules --unshallow" in
  let w' :=
    snd (scan P main_branch_name save_scans int_of_str json_dumps save_json
           branch repo_dir kwargs scans w) in
  (kw_fetch_first kwargs = Some false ->
   exists tail, executed w' = executed w ++ (listing, cwd) :: tail) /\
  (kw_fetch_first kwargs <> Some false ->
   forall res,
     popen P (executed w) fetch cwd = Ok res ->
     contains unshallow_complaint (stderr res) = false ->
     exists tail,
       executed w' = executed w ++ (fetch, cwd) :: (listing, cwd) :: tail).
Proof.
  intros Hb Hr Hstale cwd listing fetch w'.
  assert (Hw' : executed w'
                = executed
                    (snd (scan_report P main_branch_name int_of_str branch
                            repo_dir kwargs w))).
  { subst w'. unfold scan.
    destruct (scan_report P main_branch_name int_of_str branch repo_dir
                kwargs w) as [[r|e] w1]; [|reflexivity].
    destruct (pop (kw_return_report kwargs) false); [reflexivity|].
    pose proof (write_report_log json_dumps save_json r (kw_write kwargs) w1)
      as Hlog.
    destruct (write_report json_dumps save_json r (kw_write kwargs) w1)
      as [[rc|e] w2]; exact Hlog. }
  rewrite Hw'. clear Hw'. unfold scan_report.
  rewrite (assert_no_whitespace_pass _ _ Hb).
  rewrite (assert_no_whitespace_pass _ _ Hr).
  rewrite Hstale.
  change (Py.any_whitespace (or_else branch main_branch_name) = false) in Hb.
  split.
  - intros Hff. rewrite Hff.
    exact (scan_after_fetch_log branch repo_dir
             (pop (kw_include_main kwargs) false) n w Hb Hr).
  - intros Hff res Hres Hquiet.
    assert (Hon : pop (kw_fetch_first kwargs) true = true).
    { destruct (kw_fetch_first kwargs) as [[|]|]; try reflexivity.
      contradiction Hff. reflexivity. }
    rewrite Hon.
    assert (Hfetch : execute_git_fetch P repo_dir w
                     = (Ok res, with_commands [(fetch, cwd)] w)).
    { unfold execute_git_fetch.
      rewrite (assert_no_whitespace_pass _ _ Hr).
      change (fetch_cmd fetch_options) with fetch.
      cbv beta iota delta [bind ret git_exec]. fold cwd.
      rewrite Hres, Hquiet. reflexivity. }
    destruct (scan_after_fetch_log branch repo_dir
                (pop (kw_include_main kwargs) false) n
                (with_commands [(fetch, cwd)] w) Hb Hr) as [tail Htail].
    exists tail.
    cbv beta iota delta [bind ret] in Htail |- *.
    rewrite Hfetch. cbv beta iota.
    rewrite Htail. simpl. rewrite <- app_assoc. reflexivity.
Qed.

Lemma fetch_unmerged_commits_by_branch_wf branches branch repo_dir w d w' :
  fetch_unmerged_commits_by_branch P main_branch_name branches branch
    repo_dir w = (Ok d, w') ->
  Py.wf d.
Proof.
  unfold fetch_unmerged_commits_by_branch. intros Hrun.
  apply bind_inv_ok in Hrun as (_ & w1 & _ & Hrun).
  apply bind_inv_ok in Hrun as (_ & w2 & _ & Hrun).
  apply fetch_unmerged_commits_loop_ok in Hrun as (_ & _ & _ & Hwf).
  apply Hwf. constructor.
Qed.

Lemma scan_report_well_dated branch repo_dir kwargs w r w' target repo :
  scan_report P main_branch_name int_of_str branch repo_dir kwargs w
  = (Ok r, w') ->
  well_dated P [{| branch := target; repo_dir := repo; report := r |}].
Proof.
  unfold scan_report. intros Hrun.
  apply bind_inv_ok in Hrun as (_ & w1 & _ & Hrun).
  apply bind_inv_ok in Hrun as (_ & w2 & _ & Hrun).
  apply bind_inv_ok in Hrun as (n & w3 & _ & Hrun).
  apply bind_inv_ok in Hrun as (_ & w4 & _ & Hrun).
  apply bind_inv_ok in Hrun as (branches & w5 & _ & Hrun).
  apply bind_inv_ok in Hrun as (d & w6 & Hfetch & Hrun).
  apply bind_inv_ok in Hrun as (out & w7 & Hfilter & Hrun).
  injection Hrun as <- _.
  apply fetch_unmerged_commits_by_branch_wf in Hfetch.
  apply (@scanned_report_well_dated P n d w6 out w7 target repo Hfetch
           Hfilter).
Qed.

(** X21.  A report [scan] returns can always be digested: the groups of
    every branch hold a commit and only dates that parse, so the digest
    builder does not raise on a record carrying the report, whatever the
    branch and the location it is filed under and whenever it is built. *)
Theorem scan_report_digestible branch repo_dir kwargs scans w r scans' w' :
  scan P main_branch_name save_scans int_of_str json_dumps save_json branch
    repo_dir kwargs scans w = (Ok (Report r), scans', w') ->
  forall target repo w1,
  exists digest w2,
    create_pipeline_report P
      [{| branch := target; repo_dir := repo; report := r |}] w1
    = (Ok digest, w2).
Proof.
  unfold scan. intros Hscan target repo w1.
  destruct (scan_report P main_branch_name int_of_str branch repo_dir kwargs w)
    as [[r0|e] w0] eqn:Hreport; [|discriminate].
  assert (Hr : r0 = r).
  { destruct (pop (kw_return_report kwargs) false).
    - injection Hscan as -> _ _. reflexivity.
    - destruct (write_report json_dumps save_json r0 (kw_write kwargs) w0)
        as [[rc|e] w2]; discriminate. }
  subst r0. eexists. eexists.
  apply create_pipeline_report_run.
  apply (@scan_report_well_dated branch repo_dir kwargs w r w0 target repo
           Hreport).
Qed.

End ScanFacts.

Lemma scan_rejects_whitespace_witness :
  exists msg,
    scan Reference.the_platform "main" true Cases.int_of_digits
      Cases.dumps_nothing Cases.save_nothing "Bad Branch" "."
      Cases.report_wanted [] Reference.w0
    = (Raise (AssertionError msg), [], Reference.w0).
Proof.
  apply scan_rejects_whitespace. left. reflexivity.
Defined.

Lemma scan_rejects_stale_witness :
  exists msg,
    scan Reference.the_platform "main" true Cases.int_of_digits
      Cases.dumps_nothing Cases.save_nothing "main" "repo"
      {| kw_return_report := Some true; kw_include_main := None;
         kw_fetch_first := None; kw_save_scan := None;
         kw_stale := Some (StaleStr "a week");
         kw_write := Cases.no_write_kwargs |} [] Reference.w0
    = (Raise (ValueError msg), [], Reference.w0).
Proof.
  eexists.
  apply (@scan_rejects_stale Reference.the_platform "main" true
           Cases.int_of_digits Cases.dumps_nothing Cases.save_nothing
           "main" "repo" _ [] Reference.w0 "a week");
    reflexivity.
Defined.

Lemma scan_fetch_first_witness :
  exists tail,
    executed
      (snd (scan Cases.complete_repo "main" true Cases.int_of_digits
              Cases.dumps_nothing Cases.save_nothing "main" "repo"
              {| kw_return_report := Some true; kw_include_main := None;
                 kw_fetch_first := Some false; kw_save_scan := None;
                 kw_stale := Some (StaleInt 7);
                 kw_write := Cases.no_write_kwargs |} [] Reference.w0))
    = executed Reference.w0
      ++ ("git -P branch -r --no-merged origin/main", "/ws/repo") :: tail.
Proof.
  apply (proj1 (@scan_fetch_first Cases.complete_repo "main" true
                  Cases.int_of_digits Cases.dumps_nothing Cases.save_nothing
                  "main" "repo"
                  {| kw_return_report := Some true; kw_include_main := None;
                     kw_fetch_first := Some false; kw_save_scan := None;
                     kw_stale := Some (StaleInt 7);
                     kw_write := Cases.no_write_kwargs |} [] Reference.w0 7
                  eq_refl eq_refl eq_refl)).
  reflexivity.
Defined.

Lemma scan_report_digestible_witness :
  exists r scans' w',
    scan Reference.the_platform "main" true Cases.int_of_digits
      Cases.dumps_nothing Cases.save_nothing "main" "repo"
      Cases.report_wanted [] Reference.w0 = (Ok (Report r), scans', w') /\
    exists digest w2,
      create_pipeline_report Reference.the_platform
        [{| branch := "main"; repo_dir := "/ws/repo"; report := r |}]
        Reference.w0 = (Ok digest, w2).
Proof.
  destruct (scan Reference.the_platform "main" true Cases.int_of_digits
              Cases.dumps_nothing Cases.save_nothing "main" "repo"
              Cases.report_wanted [] Reference.w0)
    as [[[[r|rc]|e] scans'] w'] eqn:Hscan;
    try (vm_compute in Hscan; discriminate).
  exists r, scans', w'. split; [reflexivity|].
  apply (@scan_report_digestible Reference.the_platform "main" true
           Cases.int_of_digits Cases.dumps_nothing Cases.save_nothing "main"
           "repo" Cases.report_wanted [] Reference.w0 r scans' w' Hscan).
Defined.

(** The scan of the repository of the examples: the only unmerged branch that
    passes the filter of branch discovery is stale. *)
Example scan_reference :
  fst (scan Reference.the_platform "main" true Cases.int_of_digits
         Cases.dumps_nothing Cases.save_nothing "main" "repo"
         Cases.report_wanted [] Reference.w0)
  = (Ok (Report
           [("origin/feature/x",
             [("a@x.com",
               [{| d_hash := "aaaa1111";
                   d_date := "2020-01-01T12:00:00+00:00";
                   d_subject := "fix bug" |}]);
              ("b@x.com",
               [{| d_hash := "bbbb2222";
                   d_date := "2020-01-22T11:00:00+00:00";
                   d_subject := "wip" |}])])]),
     [{| saved :=
           {| branch := "main"; repo_dir := "repo";
              report :=
                [("origin/feature/x",
                  [("a@x.com",
                    [{| d_hash := "aaaa1111";
                        d_date := "2020-01-01T12:00:00+00:00";
                        d_subject := "fix bug" |}]);
                   ("b@x.com",
                    [{| d_hash := "bbbb2222";
                        d_date := "2020-01-22T11:00:00+00:00";
                        d_subject := "wip" |}])])] |};
         saved_kwargs := Cases.report_wanted |}]).
Proof. vm_compute. reflexivity. Qed.

(** ** Writing the pipeline digest *)

(** X22.  [write_pipeline_report] builds the digest before it starts to
    guard against failures: when the digest builder raises, the exception
    leaves [write_pipeline_report] as it is, even with [raise_exceptions]
    off, and no diagnostic is printed.  Once the digest is built, saving it
    gives 0, and a failure to save gives the diagnostic line followed by the
    exception, or by 1 when [raise_exceptions] was passed as false. *)
Theorem write_pipeline_report_outcome
    P (save_json : pipeline_results -> string -> Z -> result unit)
    report output kwargs w :
  (forall e w1,
      create_pipeline_report P report w = (Raise e, w1) ->
      write_pipeline_report P save_json report output kwargs w
      = (Raise e, w1)) /\
  (forall digest w1,
      create_pipeline_report P report w = (Ok digest, w1) ->
      (save_json digest output (pop (pw_indent kwargs) 4%Z) = Ok tt ->
       write_pipeline_report P save_json report output kwargs w
       = (Ok 0%Z, with_line ("report saved to file: " ++ output)%string w1)) /\
      (forall exc,
          save_json digest output (pop (pw_indent kwargs) 4%Z) = Raise exc ->
          write_pipeline_report P save_json report output kwargs w
          = (match pw_raise_exceptions kwargs with
             | Some false => Ok 1%Z
             | Some true | None => Raise exc
             end,
             with_line ("exception saving report: " ++ exn_str exc)%string
               w1))).
Proof.
  split.
  - intros e w1 Hdigest.
    unfold write_pipeline_report, bind. rewrite Hdigest. reflexivity.
  - intros digest w1 Hdigest. split.
    + intros Hsave.
      unfold write_pipeline_report, bind. rewrite Hdigest.
      unfold try_except_else, save_json_to_file, bind.
      rewrite Hsave. reflexivity.
    + intros exc Hsave.
      unfold write_pipeline_report, bind. rewrite Hdigest.
      unfold try_except_else, save_json_to_file, bind.
      rewrite Hsave.
      destruct (pw_raise_exceptions kwargs) as [[|]|]; reflexivity.
Qed.

Lemma write_pipeline_report_outcome_witness :
  exists e w1,
    write_pipeline_report Reference.the_platform
      (fun _ _ _ => Ok tt)
      [{| branch := "main"; repo_dir := "/ws/gamma";
          report := [("origin/feature/z", [("a@x.com", [])])] |}]
      "/out/digest.json"
      {| pw_raise_exceptions := Some false; pw_indent := None |} Reference.w0
    = (Raise e, w1) /\ printed w1 = [].
Proof.
  eexists. eexists. split.
  - apply (proj1 (write_pipeline_report_outcome Reference.the_platform
                    (fun _ _ _ => Ok tt)
                    [{| branch := "main"; repo_dir := "/ws/gamma";
                        report := [("origin/feature/z", [("a@x.com", [])])] |}]
                    "/out/digest.json"
                    {| pw_raise_exceptions := Some false; pw_indent := None |}
                    Reference.w0)).
    reflexivity.
  - reflexivity.
Defined.

(** ** A batch of scans for the pipeline *)

Lemma well_dated_app P rs1 rs2 :
  well_dated P rs1 -> well_dated P rs2 -> well_dated P (rs1 ++ rs2).
Proof.
  intros H1 H2 r b a commits Hin. apply in_app_or in Hin as [Hin|Hin].
  - apply (H1 r b a commits Hin).
  - apply (H2 r b a commits Hin).
Qed.

Section BatchFacts.

Variable P : platform.
Variable main_branch_name : string.
Variable save_scans : bool.
Variable int_of_str : string -> Z + string.
Variable json_dumps : report_by_branch -> Z -> result string.
Variable save_json : report_by_branch -> string -> Z -> result unit.
Variable save_pipeline_json : pipeline_results -> string -> Z -> result unit.
Variable WORKSPACE : option string.

Lemma scan_gives_report branch repo_dir kwargs scans w r scans' w' :
  scan P main_branch_name save_scans int_of_str json_dumps save_json branch
    repo_dir kwargs scans w = (Ok (Report r), scans', w') ->
  exists w0,
    scan_report P main_branch_name int_of_str branch repo_dir kwargs w
    = (Ok r, w0).
Proof.
  unfold scan. intros Hscan.
  destruct (scan_report P main_branch_name int_of_str branch repo_dir kwargs w)
    as [[r0|e] w0]; [|discriminate].
  exists w0. destruct (pop (kw_return_report kwargs) false).
  - injection Hscan as -> _ _. reflexivity.
  - destruct (write_report json_dumps save_json r0 (kw_write kwargs) w0)
      as [[rc|e] w2]; discriminate.
Qed.

(** The scans of a batch are asked for their report, whatever the config
    says, so none of them comes back with a status. *)
Lemma scan_of_batch_no_status config kwargs branch repo_dir scans w rc scans'
    w' :
  scan P main_branch_name save_scans int_of_str json_dumps save_json branch
    repo_dir (update (config_kwargs config) (with_return_report kwargs))
    scans w <> (Ok (Status rc), scans', w').
Proof.
  unfold scan. intros Hscan.
  destruct (scan_report P main_branch_name int_of_str branch repo_dir
              (update (config_kwargs config) (with_return_report kwargs)) w)
    as [[r0|e] w0]; [|discriminate].
  cbn [update with_return_report kw_return_report update_key pop] in Hscan.
  discriminate.
Qed.

Lemma scan_multiple_pipeline_loop_ok configs :
  forall workspace kwargs results scans w results' scans' w',
    well_dated P results ->
    scan_multiple_pipeline_loop P main_branch_name save_scans int_of_str
      json_dumps save_json configs workspace kwargs results scans w
    = (Ok results', scans', w') ->
    well_dated P results' /\
    map branch results' = map branch results ++ map TARGET_BRANCH configs /\
    forall workspace_,
      workspace = Some workspace_ ->
      map repo_dir results'
      = map repo_dir results
        ++ map (fun c => path_join workspace_ (REPO_NAME c)) configs.
Proof.
  induction configs as [|config rest IH];
    intros workspace kwargs results scans w results' scans' w' Hd Hrun.
  - simpl in Hrun. injection Hrun as <- _ _.
    split; [exact Hd|].
    split; [|intros ? _]; simpl; rewrite app_nil_r; reflexivity.
  - cbn [scan_multiple_pipeline_loop] in Hrun.
    destruct workspace as [workspace_|]; [|discriminate].
    destruct (scan P main_branch_name save_scans int_of_str json_dumps
                save_json (TARGET_BRANCH config)
                (path_join workspace_ (REPO_NAME config))
                (update (config_kwargs config) kwargs) scans w)
      as [[[[r|rc]|e] scans1] w1] eqn:Hscan; try discriminate.
    apply scan_gives_report in Hscan as [w0 Hreport].
    apply IH in Hrun as (Hd' & Hbranches & Hdirs).
    + split; [exact Hd'|]. split.
      * rewrite Hbranches, map_app, <- app_assoc. reflexivity.
      * intros ws' [= <-]. rewrite (Hdirs workspace_ eq_refl), map_app,
          <- app_assoc. reflexivity.
    + apply well_dated_app; [exact Hd|].
      apply (@scan_report_well_dated P main_branch_name int_of_str
               (TARGET_BRANCH config) (path_join workspace_ (REPO_NAME config))
               (update (config_kwargs config) kwargs) w r w0
               (TARGET_BRANCH config)
               (path_join workspace_ (REPO_NAME config)) Hreport).
Qed.

(** X23.  When every scan of a batch comes back with its report,
    [scan_multiple_pipeline] has one record for each config, in the order of
    the configs, under the config's branch; the digest of these records is
    always built; and the call returns 0 once the digest is saved, a
    failure to save being raised after its diagnostic line: it never
    returns 1. *)
Theorem scan_multiple_pipeline_outcome
    configs pipeline_output workspace kwargs scans w results scans1 w1 :
  scan_multiple_pipeline_loop P main_branch_name save_scans int_of_str
    json_dumps save_json configs
    (match workspace with Some given => Some given | None => WORKSPACE end)
    (with_return_report kwargs) [] scans w = (Ok results, scans1, w1) ->
  map branch results = map TARGET_BRANCH configs /\
  exists digest w2,
    create_pipeline_report P results w1 = (Ok digest, w2) /\
    scan_multiple_pipeline P main_branch_name save_scans int_of_str json_dumps
      save_json save_pipeline_json WORKSPACE configs pipeline_output
      workspace kwargs scans w
    = match save_pipeline_json digest pipeline_output 4%Z with
      | Ok _ =>
          (Ok 0%Z, scans1,
           with_line ("report saved to file: " ++ pipeline_output)%string w2)
      | Raise exc =>
          (Raise exc, scans1,
           with_line ("exception saving report: " ++ exn_str exc)%string w2)
      end.
Proof.
  intros Hloop.
  assert (Hnone : well_dated P []) by (intros ? ? ? ? []).
  destruct (scan_multiple_pipeline_loop_ok _ _ _ _ _ Hnone Hloop)
    as (Hd & Hbranches & _).
  split; [exact Hbranches|].
  exists {| scans := fold_left store (Py.sorted sort_key_le results) [];
            message :=
              Py.join newline
                (digest_lines P (ticks w1) (Py.sorted sort_key_le results)) |}.
  eexists. split; [apply create_pipeline_report_run; exact Hd|].
  unfold scan_multiple_pipeline. rewrite Hloop.
  unfold write_pipeline_report, bind.
  rewrite (create_pipeline_report_run w1 Hd).
  unfold try_except_else, save_json_to_file, bind.
  cbn [pop pw_indent pw_raise_exceptions].
  destruct (save_pipeline_json _ pipeline_output 4%Z) as [[]|exc]; reflexivity.
Qed.

End BatchFacts.

Lemma scan_multiple_pipeline_outcome_witness :
  exists results scans1 w1 digest w2,
    scan_multiple_pipeline_loop Reference.the_platform "main" false
      Cases.int_of_digits Cases.dumps_nothing Cases.save_nothing
      [{| TARGET_BRANCH := "main"; REPO_NAME := "beta";
          config_kwargs := Cases.report_wanted |};
       {| TARGET_BRANCH := "development"; REPO_NAME := "alpha";
          config_kwargs := Cases.report_wanted |}]
      (Some "/jenkins") (with_return_report Cases.report_wanted) []
      [] Reference.w0 = (Ok results, scans1, w1) /\
    map branch results = ["main"; "development"] /\
    create_pipeline_report Reference.the_platform results w1
    = (Ok digest, w2) /\
    scan_multiple_pipeline Reference.the_platform "main" false
      Cases.int_of_digits Cases.dumps_nothing Cases.save_nothing
      (fun _ _ _ => Ok tt) None
      [{| TARGET_BRANCH := "main"; REPO_NAME := "beta";
          config_kwargs := Cases.report_wanted |};
       {| TARGET_BRANCH := "development"; REPO_NAME := "alpha";
          config_kwargs := Cases.report_wanted |}]
      "/out/digest.json" (Some "/jenkins") Cases.report_wanted []
      Reference.w0
    = (Ok 0%Z, scans1, with_line "report saved to file: /out/digest.json" w2).
Proof.
  destruct (scan_multiple_pipeline_loop Reference.the_platform "main" false
              Cases.int_of_digits Cases.dumps_nothing Cases.save_nothing
              [{| TARGET_BRANCH := "main"; REPO_NAME := "beta";
                  config_kwargs := Cases.report_wanted |};
               {| TARGET_BRANCH := "development"; REPO_NAME := "alpha";
                  config_kwargs := Cases.report_wanted |}]
              (Some "/jenkins") (with_return_report Cases.report_wanted) []
              [] Reference.w0) as [[[results|e] scans1] w1] eqn:Hloop;
    [|vm_compute in Hloop; discriminate].
  destruct (@scan_multiple_pipeline_outcome Reference.the_platform "main"
              false Cases.int_of_digits Cases.dumps_nothing Cases.save_nothing
              (fun _ _ _ => Ok tt) None _ "/out/digest.json" (Some "/jenkins")
              Cases.report_wanted [] Reference.w0 results scans1 w1 Hloop)
    as (Hbranches & digest & w2 & Hdigest & Hrun).
  exists results, scans1, w1, digest, w2.
  split; [reflexivity|]. split; [exact Hbranches|].
  split; [exact Hdigest | exact Hrun].
Defined.
